(** * pycaret.regression: experiment state and model-selection workflow

    A shallow embedding of the workflow layer of [pycaret/regression.py]:
    the three result containers, the cross-validated trainer
    ([create_model]), the comparator ([compare_models]), the tuner and the
    bagging/boosting wrapper with their choose-better policy, the holdout
    evaluator ([predict_model]), persistence ([save_model]/[load_model]),
    the selector ([automl]), the voting and stacking ensembles
    ([blend_models], [stack_models]), the catalog ([models]) and the access
    to the module globals ([get_config]/[set_config]).

    Conventions.
    - numpy floats are modelled as real numbers ([R]); there is no NaN and no
      rounding error, so [np.nan_to_num] is the identity.
    - Python [int] arguments ([fold], [round], [n_select]) are [Z].
    - [sys.exit] and uncaught exceptions end a call; the state keeps the
      mutations made before the call ended.
    - scikit-learn, numpy and pandas are external collaborators.  Estimators
      are abstract (class [Sklearn], and class [Ensembles] for
      [VotingRegressor] and [StackingRegressor]); the numeric helpers and
      [KFold] are written out after their documented behaviour.
    - the module globals read by [get_config] and written by [set_config]
      are a finite map from variable names to values; a name without a
      binding is unbound.
    - progress bars, monitors, log lines, MLflow uploads and wall-clock
      timings (the [TT (Sec)] column) are not part of the model; the
      container side effects of the MLflow blocks are. *)

From Stdlib Require Import Reals Lra Lia ZArith Ascii String.
From stdpp Require Import gmap strings list functions sorting pretty.

Set Default Proof Using "Type".

(** ** numpy *)

Module Numpy.
Local Open Scope R_scope.

Definition sum (a : list R) : R := foldr Rplus 0 a.

(** [np.mean] *)
Definition mean (a : list R) : R := sum a / INR (length a).

(** [np.std] (population standard deviation, ddof = 0) *)
Definition std (a : list R) : R :=
  sqrt (mean (fmap (fun x => (x - mean a) * (x - mean a)) a)).

(** [np.rint]: nearest integer, halves to the even neighbour *)
Definition rint (x : R) : Z :=
  let f := Zfloor x in
  if Rlt_dec (x - IZR f) (1 / 2) then f
  else if Rlt_dec (1 / 2) (x - IZR f) then (f + 1)%Z
  else if Z.even f then f else (f + 1)%Z.

(** [np.round(x, decimals)]: scale by [10 ** decimals], [rint], scale
    back; negative [decimals] round to tens, hundreds, ... *)
Definition round (decimals : Z) (x : R) : R :=
  IZR (rint (x * powerRZ 10 decimals)) / powerRZ 10 decimals.

(** [a[idx]] / [df.iloc[idx]] for a list of positions *)
Definition iloc {A} (a : list A) (idx : list nat) : list A :=
  omap (fun i => a !! i) idx.
End Numpy.

(** ** sklearn.metrics and the two metrics written in the source *)

Module Metrics.
Local Open Scope R_scope.

Definition errors (y_true y_pred : list R) : list R :=
  zip_with Rminus y_true y_pred.

Definition mean_absolute_error (y_true y_pred : list R) : R :=
  Numpy.mean (fmap Rabs (errors y_true y_pred)).

Definition mean_squared_error (y_true y_pred : list R) : R :=
  Numpy.mean (fmap (fun e => e * e) (errors y_true y_pred)).

(** [r2_score]: 1 - SS_res / SS_tot, with sklearn's conventions for a
    constant [y_true] *)
Definition r2_score (y_true y_pred : list R) : R :=
  let numerator := Numpy.sum (fmap (fun e => e * e) (errors y_true y_pred)) in
  let denominator :=
    Numpy.sum (fmap (fun y => (y - Numpy.mean y_true) * (y - Numpy.mean y_true)) y_true) in
  if Req_dec_T denominator 0
  then (if Req_dec_T numerator 0 then 1 else 0)
  else 1 - numerator / denominator.

(** [np.sqrt(np.mean(np.power(np.log(abs(pred_)+1) - np.log(abs(ytest)+1), 2)))] *)
Definition rmsle (ytest pred_ : list R) : R :=
  sqrt (Numpy.mean
          (zip_with (fun p y => (ln (Rabs p + 1) - ln (Rabs y + 1)) ^ 2) pred_ ytest)).

(** [calculate_mape]: rows whose actual value is zero are masked out; the
    quotient is by [actual], not by its magnitude *)
Definition calculate_mape (actual prediction : list R) : R :=
  Numpy.mean
    (omap (fun ap : R * R =>
             if Req_dec_T ap.1 0 then None else Some (Rabs (ap.1 - ap.2) / ap.1))
          (zip actual prediction)).
End Metrics.

(** ** sklearn.model_selection.KFold *)

Module KFold.
(** The first [n_samples mod n_splits] folds have one sample more. *)
Definition fold_sizes (n_samples n_splits : nat) : list nat :=
  fmap (fun i => n_samples / n_splits + (if decide (i < n_samples mod n_splits) then 1 else 0))
      (seq 0 n_splits).

Fixpoint chunks (indices : list nat) (sizes : list nat) : list (list nat) :=
  match sizes with
  | [] => []
  | size :: sizes' => take size indices :: chunks (drop size indices) sizes'
  end.

(** [kf.split(data)]: one (train positions, test positions) pair per fold,
    both in increasing order; [indices] is [arange(n_samples)], shuffled
    by the caller when [shuffle] is set. *)
Definition split (n_splits : nat) (indices : list nat) (n_samples : nat)
  : list (list nat * list nat) :=
  fmap (fun test_index =>
         (filter (fun i => i ∉ test_index) (seq 0 n_samples),
          filter (fun i => i ∈ test_index) (seq 0 n_samples)))
      (chunks indices (fold_sizes n_samples n_splits)).
End KFold.

(** ** The estimator interface of the external libraries *)

Class Sklearn := {
  Features : Type;   (** one row of a feature frame *)
  Regressor : Type;  (** an estimator object, fitted or not *)
  PrepPipe : Type;   (** the fitted preprocessing pipeline *)
  Kwargs : Type;     (** keyword arguments and parameter grids *)
  no_kwargs : Kwargs;
  (** the constructor selected by a catalog tag, e.g. ['lr'] for
      [LinearRegression(n_jobs=n_jobs_param, **kwargs)] *)
  construct : string -> Z -> Kwargs -> Regressor;
  BaggingRegressor : Regressor -> Z -> Z -> Regressor;
  AdaBoostRegressor : Regressor -> Z -> Z -> Regressor;
  (** [model.fit(X, y)]; the receiver is updated in place in Python *)
  fit : Regressor -> list Features -> list R -> Regressor;
  (** [model.predict], row by row *)
  predict : Regressor -> Features -> R;
  clone : Regressor -> Regressor;
  (** [str(e).split("(")[0]] *)
  get_model_name : Regressor -> string;
  (** [RandomizedSearchCV(...).fit(X_train, y_train).best_estimator_] for
      the grid of a tag *)
  best_estimator_ :
    string -> Regressor -> option Kwargs -> string -> Z -> Z ->
    list Features -> list R -> Regressor;
  (** [prep_pipe.transform] on one row *)
  transform : PrepPipe -> Features -> Features;
  (** the shuffled [arange(n)] drawn from a seed *)
  shuffled : Z -> nat -> list nat
}.

(** ** Data model *)

Inductive Metric := MAE | MSE | RMSE | R2 | RMSLE | MAPE.

#[global] Instance Metric_eq_dec : EqDecision Metric.
Proof. solve_decision. Defined.

(** One row of metrics (FoldMetrics without the fit time). *)
Record Scores := mkScores {
  mae : R; mse : R; rmse : R; r2 : R; rmsle : R; mape : R
}.

Definition cell (m : Metric) (s : Scores) : R :=
  match m with
  | MAE => mae s | MSE => mse s | RMSE => rmse s
  | R2 => r2 s | RMSLE => rmsle s | MAPE => mape s
  end.

(** [df.round(decimals)] on one row *)
Definition round_scores (decimals : Z) (s : Scores) : Scores :=
  {| mae := Numpy.round decimals (mae s);
     mse := Numpy.round decimals (mse s);
     rmse := Numpy.round decimals (rmse s);
     r2 := Numpy.round decimals (r2 s);
     rmsle := Numpy.round decimals (rmsle s);
     mape := Numpy.round decimals (mape s) |}.

(** Row labels of a score grid: [0 .. k-1], ['Mean'], ['SD']. *)
Inductive RowLabel := Fold (i : nat) | Mean | SD.

#[global] Instance RowLabel_eq_dec : EqDecision RowLabel.
Proof. solve_decision. Defined.

Abbreviation ScoreGrid := (list (RowLabel * Scores)).

(** Tables that reach [display_container]. *)
Inductive Table :=
| GridTable (model_results : ScoreGrid)
| CompareTable (master_display : list (string * Scores))
| HoldoutTable (df_score : string * Scores).

(** [df[column]] *)
Definition grid_column (m : Metric) (g : ScoreGrid) : list R := fmap (fun r => cell m r.2) g.

(** Python sequence helpers: [a[-n:]], [a[-1]], [a[-2]], [a[:n]], [a[n:]]. *)
Definition last_n {A} (n : nat) (a : list A) : list A := drop (length a - n) a.
Definition from_end {A} (n : nat) (a : list A) : option A :=
  if decide (n <= length a) then a !! (length a - n) else None.
Definition slice_to {A} (n : Z) (a : list A) : list A :=
  if decide (0 <= n)%Z then take (Z.to_nat n) a
  else take (length a - Z.to_nat (- n)) a.
Definition slice_from {A} (n : Z) (a : list A) : list A :=
  if decide (0 <= n)%Z then drop (Z.to_nat n) a
  else drop (length a - Z.to_nat (- n)) a.

(** [i[compare_dimension][-2:][0]]: the first of the last two cells of a
    column, which is the ['Mean'] cell of a score grid. *)
Definition mean_cell (compare_dimension : Metric) (i : ScoreGrid) : option R :=
  head (last_n 2 (grid_column compare_dimension i)).

(** The [optimize] / [sort] strings select a column. *)
Definition compare_dimension_of (optimize : string) : option Metric :=
  if decide (optimize = "MAE") then Some MAE
  else if decide (optimize = "MSE") then Some MSE
  else if decide (optimize = "RMSE") then Some RMSE
  else if decide (optimize = "R2") then Some R2
  else if decide (optimize = "RMSLE") then Some RMSLE
  else if decide (optimize = "MAPE") then Some MAPE
  else None.

Definition available_estimators : list string :=
  ["lr"; "lasso"; "ridge"; "en"; "lar"; "llar"; "omp"; "br"; "ard"; "par";
   "ransac"; "tr"; "huber"; "kr"; "svm"; "knn"; "dt"; "rf"; "et"; "ada"; "gbr";
   "mlp"; "xgboost"; "lightgbm"; "catboost"].

Definition available_method : list string := ["Bagging"; "Boosting"].

(** ** Names shown in tables *)

Definition is_upper (c : ascii) : bool :=
  (Nat.leb 65 (nat_of_ascii c) && Nat.leb (nat_of_ascii c) 90)%bool.
Definition is_lower (c : ascii) : bool :=
  (Nat.leb 97 (nat_of_ascii c) && Nat.leb (nat_of_ascii c) 122)%bool.

Definition flush (word : option string) : list string :=
  match word with Some w => [w] | None => [] end.

(** [re.findall('[A-Z][a-z]*', input)]; [word] is the match being read *)
Fixpoint findall_words (word : option string) (input : string) : list string :=
  match input with
  | EmptyString => flush word
  | String c rest =>
      if is_upper c then flush word ++ findall_words (Some (String c EmptyString)) rest
      else if is_lower c then
        match word with
        | Some w => findall_words (Some (w +:+ String c EmptyString)) rest
        | None => findall_words None rest
        end
      else flush word ++ findall_words None rest
  end.

Definition putSpace (input : string) : string :=
  String.concat " " (findall_words None input).

(** [needle in haystack] on strings *)
Fixpoint contains (needle haystack : string) : bool :=
  (String.prefix needle haystack
   || match haystack with
      | EmptyString => false
      | String _ rest => contains needle rest
      end)%bool.

(** The display name [predict_model] derives from a class name. *)
Definition holdout_full_name (class_name : string) : string :=
  let full_name := putSpace class_name in
  if decide (full_name = "A R D Regression") then "Automatic Relevance Determination"
  else if decide (full_name = "M L P Regressor") then "MLP Regressor"
  else if decide (full_name = "R A N S A C Regressor") then "RANSAC Regressor"
  else if decide (full_name = "S V R") then "Support Vector Regressor"
  else if decide (full_name = "Lars") then "Least Angle Regression"
  else if decide (full_name = "X G B Regressor") then "Extreme Gradient Boosting Regressor"
  else if decide (full_name = "L G B M Regressor") then "Light Gradient Boosting Machine"
  else if contains "Cat Boost Regressor" full_name then "CatBoost Regressor"
  else full_name.

(** [model_dict] of [tune_model]: class name to catalog tag *)
Definition tune_model_dict : list (string * string) :=
  [("ExtraTreesRegressor", "et"); ("GradientBoostingRegressor", "gbr");
   ("RandomForestRegressor", "rf"); ("LGBMRegressor", "lightgbm");
   ("XGBRegressor", "xgboost"); ("AdaBoostRegressor", "ada");
   ("DecisionTreeRegressor", "dt"); ("Ridge", "ridge");
   ("TheilSenRegressor", "tr"); ("BayesianRidge", "br");
   ("LinearRegression", "lr"); ("ARDRegression", "ard");
   ("KernelRidge", "kr"); ("RANSACRegressor", "ransac");
   ("HuberRegressor", "huber"); ("Lasso", "lasso"); ("ElasticNet", "en");
   ("Lars", "lar"); ("OrthogonalMatchingPursuit", "omp");
   ("MLPRegressor", "mlp"); ("KNeighborsRegressor", "knn"); ("SVR", "svm");
   ("LassoLars", "llar"); ("PassiveAggressiveRegressor", "par");
   ("CatBoostRegressor", "catboost"); ("BaggingRegressor", "Bagging")].

(** [model_names] / [model_dict] of [compare_models]: catalog tag to the
    name shown in the ranked table, in catalog order *)
Definition model_names : list (string * string) :=
  [("lr", "Linear Regression"); ("lasso", "Lasso Regression");
   ("ridge", "Ridge Regression"); ("en", "Elastic Net");
   ("lar", "Least Angle Regression"); ("llar", "Lasso Least Angle Regression");
   ("omp", "Orthogonal Matching Pursuit"); ("br", "Bayesian Ridge");
   ("ard", "Automatic Relevance Determination");
   ("par", "Passive Aggressive Regressor"); ("ransac", "Random Sample Consensus");
   ("tr", "TheilSen Regressor"); ("huber", "Huber Regressor");
   ("kr", "Kernel Ridge"); ("svm", "Support Vector Machine");
   ("knn", "K Neighbors Regressor"); ("dt", "Decision Tree");
   ("rf", "Random Forest"); ("et", "Extra Trees Regressor");
   ("ada", "AdaBoost Regressor"); ("gbr", "Gradient Boosting Regressor");
   ("mlp", "Multi Level Perceptron"); ("xgboost", "Extreme Gradient Boosting");
   ("lightgbm", "Light Gradient Boosting Machine");
   ("catboost", "CatBoost Regressor")].

(** [dict.get] on an association list *)
Fixpoint dict_get {V} (d : list (string * V)) (key : string) : option V :=
  match d with
  | [] => None
  | (k, v) :: d' => if decide (key = k) then Some v else dict_get d' key
  end.

(** [list.remove(x)]: drops the first occurrence, [None] for ValueError *)
Fixpoint list_remove (x : string) (l : list string) : option (list string) :=
  match l with
  | [] => None
  | y :: l' => if decide (x = y) then Some l'
               else match list_remove x l' with
                    | Some r => Some (y :: r)
                    | None => None
                    end
  end.

(** [a < b] on numbers, as a boolean *)
Definition Rltb (a b : R) : bool := if Rlt_dec a b then true else false.

(** [list.index(x)]: position of the first element equal to [x] *)
Fixpoint list_index (x : R) (l : list R) : option nat :=
  match l with
  | [] => None
  | y :: l' => if Req_dec_T y x then Some 0
               else match list_index x l' with
                    | Some i => Some (S i)
                    | None => None
                    end
  end.

(** [max(l)] and [min(l)] on a non-empty list of numbers; Python keeps the
    current champion unless the next element is strictly better *)
Definition py_max (l : list R) : option R :=
  match l with
  | [] => None
  | x :: l' => Some (foldl (fun best v => if Rlt_dec best v then v else best) x l')
  end.
Definition py_min (l : list R) : option R :=
  match l with
  | [] => None
  | x :: l' => Some (foldl (fun best v => if Rlt_dec v best then v else best) x l')
  end.

(** ** Experiment state *)

Section Workflow.
Context `{Sklearn}.

(** What [predict_model], [save_model] and [load_model] handle: a bare
    estimator, or a pipeline whose last step is the trained model. *)
Inductive Model :=
| Bare (e : Regressor)
| Pipeline (steps : PrepPipe) (trained_model : Model).

(** [estimator.predict] on one row; a pipeline transforms first *)
Fixpoint model_predict (m : Model) (x : Features) : R :=
  match m with
  | Bare e => predict e x
  | Pipeline steps trained_model => model_predict trained_model (transform steps x)
  end.

Definition model_class_name (m : Model) : string :=
  match m with
  | Bare e => get_model_name e
  | Pipeline _ _ => "Pipeline"
  end.

(** The module-level globals published by [setup], the three result
    containers, the working directory and the cloud buckets. *)
Record State := mkState {
  X : list Features;
  y : list R;
  X_train : list Features;
  y_train : list R;
  X_test : list Features;
  y_test : list R;
  seed : Z;
  folds_shuffle_param : bool;
  prep_pipe : option PrepPipe;
  target_inverse_transformer : option (R -> R);
  logging_param : bool;
  create_model_container : list ScoreGrid;
  master_model_container : list Regressor;
  display_container : list Table;
  files : gmap string Model;
  buckets : gmap (string * string) Model
}.

Definition set_create_model_container (f : list ScoreGrid -> list ScoreGrid) (st : State) : State :=
  mkState (X st) (y st) (X_train st) (y_train st) (X_test st) (y_test st) (seed st)
    (folds_shuffle_param st) (prep_pipe st) (target_inverse_transformer st) (logging_param st)
    (f (create_model_container st)) (master_model_container st) (display_container st)
    (files st) (buckets st).

Definition set_master_model_container (f : list Regressor -> list Regressor) (st : State) : State :=
  mkState (X st) (y st) (X_train st) (y_train st) (X_test st) (y_test st) (seed st)
    (folds_shuffle_param st) (prep_pipe st) (target_inverse_transformer st) (logging_param st)
    (create_model_container st) (f (master_model_container st)) (display_container st)
    (files st) (buckets st).

Definition set_display_container (f : list Table -> list Table) (st : State) : State :=
  mkState (X st) (y st) (X_train st) (y_train st) (X_test st) (y_test st) (seed st)
    (folds_shuffle_param st) (prep_pipe st) (target_inverse_transformer st) (logging_param st)
    (create_model_container st) (master_model_container st) (f (display_container st))
    (files st) (buckets st).

Definition set_files (f : gmap string Model -> gmap string Model) (st : State) : State :=
  mkState (X st) (y st) (X_train st) (y_train st) (X_test st) (y_test st) (seed st)
    (folds_shuffle_param st) (prep_pipe st) (target_inverse_transformer st) (logging_param st)
    (create_model_container st) (master_model_container st) (display_container st)
    (f (files st)) (buckets st).

(** ** Calls: state passing with early termination *)

Inductive Outcome (A : Type) :=
| Ok (a : A)
| SysExit (message : string)
| Raise (exception : string).
Arguments Ok {A} a.
Arguments SysExit {A} message.
Arguments Raise {A} exception.

(** A call maps the state before to its outcome and the state after; an
    exception keeps the mutations made before it was raised. *)
Definition M (A : Type) : Type := State -> Outcome A * State.

Definition ret {A} (a : A) : M A := fun st => (Ok a, st).

Definition bind {A B} (c : M A) (k : A -> M B) : M B :=
  fun st =>
    match c st with
    | (Ok a, st') => k a st'
    | (SysExit message, st') => (SysExit message, st')
    | (Raise exception, st') => (Raise exception, st')
    end.

Definition sys_exit {A} (message : string) : M A := fun st => (SysExit message, st).
Definition raise {A} (exception : string) : M A := fun st => (Raise exception, st).
Definition get_state : M State := fun st => (Ok st, st).
Definition modify (f : State -> State) : M unit := fun st => (Ok tt, f st).

Local Notation "x <- c1 ;; c2" := (bind c1 (fun x => c2))
  (at level 100, c1 at next level, right associativity).
Local Notation "c1 ;;; c2" := (bind c1 (fun _ => c2))
  (at level 100, right associativity).

Definition exit_if (condition : bool) (message : string) : M unit :=
  if condition then sys_exit message else ret tt.

(** An unbound local or a failed lookup raises. *)
Definition need {A} (exception : string) (o : option A) : M A :=
  match o with
  | Some a => ret a
  | None => raise exception
  end.

Fixpoint for_each {A B} (f : A -> M B) (l : list A) : M (list B) :=
  match l with
  | [] => ret []
  | a :: l' => b <- f a ;; bs <- for_each f l' ;; ret (b :: bs)
  end.

(** [pull()]: [display_container[-1]] *)
Definition pull : M Table :=
  st <- get_state ;; need "IndexError" (from_end 1 (display_container st)).

(** [display_container.pop(-1)] *)
Definition display_container_pop : M Table :=
  st <- get_state ;;
  t <- need "IndexError" (from_end 1 (display_container st)) ;;
  modify (set_display_container (fun c => take (length c - 1) c)) ;;;
  ret t.

(** ** Fold scoring shared by the trainers *)

(** [target_inverse_transformer.inverse_transform] inside [try/except]:
    without a transformer the values are left as they are *)
Definition inverse_transform (t : option (R -> R)) (a : list R) : list R :=
  match t with
  | Some f => fmap f a
  | None => a
  end.

(** The six metrics of one fold or of the holdout set. *)
Definition compute_metrics (ytest pred_ : list R) : Scores :=
  let mse := Metrics.mean_squared_error ytest pred_ in
  {| mae := Metrics.mean_absolute_error ytest pred_;
     mse := mse;
     rmse := sqrt mse;
     r2 := Metrics.r2_score ytest pred_;
     rmsle := Metrics.rmsle ytest pred_;
     mape := Metrics.calculate_mape ytest pred_ |}.

(** [KFold(fold, random_state=seed, shuffle=folds_shuffle_param)]: fewer
    than two splits is a ValueError at construction *)
Definition KFold (fold : Z) : M nat :=
  if decide (fold <= 1)%Z then raise "ValueError" else ret (Z.to_nat fold).

(** [kf.split(data_X, data_y)]: more splits than samples is a ValueError *)
Definition kf_split (kf : nat) : M (list (list nat * list nat)) :=
  st <- get_state ;;
  let n_samples := length (X_train st) in
  if decide (n_samples < kf) then raise "ValueError"
  else ret (KFold.split kf
              (if folds_shuffle_param st then shuffled (seed st) n_samples
               else seq 0 n_samples)
              n_samples).

(** The body of [for train_i, test_i in kf.split(data_X, data_y)]: the
    same estimator object is fitted fold after fold and scored on the
    held-out rows. *)
Fixpoint cv_loop (data_X : list Features) (data_y : list R) (t : option (R -> R))
    (model : Regressor) (splits : list (list nat * list nat))
  : Regressor * list Scores :=
  match splits with
  | [] => (model, [])
  | (train_i, test_i) :: splits' =>
      let Xtrain := Numpy.iloc data_X train_i in
      let Xtest := Numpy.iloc data_X test_i in
      let ytrain := Numpy.iloc data_y train_i in
      let ytest := Numpy.iloc data_y test_i in
      let model := fit model Xtrain ytrain in
      let pred_ := fmap (predict model) Xtest in
      let pred_ := inverse_transform t pred_ in
      let ytest := inverse_transform t ytest in
      let scores := compute_metrics ytest pred_ in
      let (model, rest) := cv_loop data_X data_y t model splits' in
      (model, scores :: rest)
  end.

Definition score_column (m : Metric) (scores : list Scores) : list R := fmap (cell m) scores.

(** [np.mean] / [np.std] of every score array *)
Definition mean_scores (scores : list Scores) : Scores :=
  {| mae := Numpy.mean (score_column MAE scores);
     mse := Numpy.mean (score_column MSE scores);
     rmse := Numpy.mean (score_column RMSE scores);
     r2 := Numpy.mean (score_column R2 scores);
     rmsle := Numpy.mean (score_column RMSLE scores);
     mape := Numpy.mean (score_column MAPE scores) |}.

Definition std_scores (scores : list Scores) : Scores :=
  {| mae := Numpy.std (score_column MAE scores);
     mse := Numpy.std (score_column MSE scores);
     rmse := Numpy.std (score_column RMSE scores);
     r2 := Numpy.std (score_column R2 scores);
     rmsle := Numpy.std (score_column RMSLE scores);
     mape := Numpy.std (score_column MAPE scores) |}.

(** [model_results.append(model_avgs).round(round)]: the fold rows in
    order, then ['Mean'], then ['SD'], every cell rounded *)
Definition model_results (round : Z) (scores : list Scores) : ScoreGrid :=
  fmap (fun row => (row.1, round_scores round row.2))
      (imap (fun i s => (Fold i, s)) scores
       ++ [(Mean, mean_scores scores); (SD, std_scores scores)]).

(** The three appends that end a training call. *)
Definition store_results (grid : ScoreGrid) (model : Regressor) : M unit :=
  modify (set_create_model_container (fun c => c ++ [grid])) ;;;
  modify (set_display_container (fun c => c ++ [GridTable grid])) ;;;
  modify (set_master_model_container (fun c => c ++ [model])).

(** ** predict_model *)

(** The frame [predict_model] returns: the rows it predicted on, the known
    labels when it used the holdout set, and the [Label] column. *)
Record Predictions := mkPredictions {
  rows : list Features;
  actual : option (list R);
  Label : list R
}.

Definition predict_model (estimator : Model) (data : option (list Features))
    (round : Z) (verbose : bool) : M Predictions :=
  st <- get_state ;;
  let target_transformer := target_inverse_transformer st in
  match data with
  | None =>
      (* if 'Pipeline' in str(type(estimator)): estimator = estimator[-1] *)
      let estimator :=
        match estimator with
        | Pipeline _ trained_model => trained_model
        | Bare _ => estimator
        end in
      let Xtest := X_test st in
      let ytest := y_test st in
      let full_name := holdout_full_name (model_class_name estimator) in
      let pred_ := fmap (model_predict estimator) Xtest in
      let pred_ := inverse_transform target_transformer pred_ in
      let ytest := inverse_transform target_transformer ytest in
      let df_score := (full_name, round_scores 4 (compute_metrics ytest pred_)) in
      let label := fmap (Numpy.round round) pred_ in
      (* display_container.append(df_score) *)
      modify (set_display_container (fun c => c ++ [HoldoutTable df_score])) ;;;
      ret (mkPredictions Xtest (Some ytest) label)
  | Some data =>
      estimator <-
        match estimator with
        | Pipeline _ _ => ret estimator
        | Bare _ =>
            match prep_pipe st with
            | Some steps => ret (Pipeline steps estimator)
            | None => sys_exit "Pipeline not found"
            end
        end ;;
      let pred_ := fmap (model_predict estimator) data in
      let pred_ := inverse_transform target_transformer pred_ in
      let label := fmap (Numpy.round round) pred_ in
      (* df_score is unbound here: the append raises and is swallowed *)
      ret (mkPredictions data None label)
  end.

(** The holdout logging step of the MLflow blocks:
    [predict_model(model, verbose=False); pull(); display_container.pop(-1)] *)
Definition log_holdout (model : Regressor) : M Table :=
  predict_model (Bare model) None 4 false ;;;
  holdout_score <- pull ;;
  display_container_pop ;;;
  ret holdout_score.

(** ** create_model *)

Inductive EstimatorArg :=
| ByTag (tag : string)
| ByObject (e : Regressor).

(** [method in available_method] for an optional string *)
Definition option_in (method : option string) (allowed : list string) : bool :=
  match method with
  | Some m => bool_decide (m ∈ allowed)
  | None => false
  end.

Definition create_model (estimator : EstimatorArg) (ensemble : bool)
    (method : option string) (fold round : Z)
    (cross_validation verbose system : bool) (kwargs : Kwargs) : M Regressor :=
  exit_if (match estimator with
           | ByTag tag => bool_decide (tag ∉ available_estimators)
           | ByObject _ => false
           end)
    "(Value Error): Estimator Not Available. Please see docstring for list of available estimators." ;;;
  exit_if (negb ensemble && bool_decide (method <> None))
    "(Type Error): Method parameter only accepts value when ensemble is set to True." ;;;
  exit_if (ensemble && bool_decide (method = None))
    "(Type Error): Method parameter missing. Pass method = 'Bagging' or 'Boosting'." ;;;
  exit_if (ensemble && negb (option_in method available_method))
    "(Value Error): Method parameter only accepts two values 'Bagging' or 'Boosting'." ;;;
  st <- get_state ;;
  let data_X := X_train st in
  let data_y := y_train st in
  kf <- KFold fold ;;
  let model :=
    match estimator with
    | ByTag tag => construct tag (seed st) kwargs
    | ByObject e => e
    end in
  let model :=
    if bool_decide (method = Some "Bagging") then BaggingRegressor model 10 (seed st)
    else if bool_decide (method = Some "Boosting") then AdaBoostRegressor model 10 (seed st)
    else model in
  if negb cross_validation then
    ret (fit model data_X data_y)
  else
    splits <- kf_split kf ;;
    let (model, scores) :=
      cv_loop data_X data_y (target_inverse_transformer st) model splits in
    let model_results := model_results round scores in
    let model := fit model data_X data_y in
    (if logging_param st && system then log_holdout model ;;; ret tt else ret tt) ;;;
    store_results model_results model ;;;
    ret model.

(** ** finalize_model and automl *)

Definition finalize_model (estimator : Regressor) : M Regressor :=
  st <- get_state ;;
  let model_final := fit (clone estimator) (X st) (y st) in
  (* model = create_model(estimator=estimator, verbose=False, system=False) *)
  model <- create_model (ByObject estimator) false None 10 4 true false false no_kwargs ;;
  results <- pull ;;
  ret model_final.

(** [p[compare_dimension][0]] on the table [pull()] returned *)
Definition first_cell (compare_dimension : Metric) (p : Table) : option R :=
  match p with
  | GridTable g => head (grid_column compare_dimension g)
  | CompareTable t => head (fmap (fun r => cell compare_dimension r.2) t)
  | HoldoutTable df_score => Some (cell compare_dimension df_score.2)
  end.

(** Higher is better for R2 only:
    [scorer.index(max(scorer))] or [scorer.index(min(scorer))] *)
Definition index_scorer (compare_dimension : Metric) (scorer : list R) : option nat :=
  best ← (if decide (compare_dimension = R2) then py_max scorer else py_min scorer);
  list_index best scorer.

Definition automl (optimize : string) (use_holdout : bool) : M Regressor :=
  let compare_dimension := compare_dimension_of optimize in
  st <- get_state ;;
  scorer <-
    (if use_holdout then
       for_each (fun i =>
                   predict_model (Bare i) None 4 false ;;;
                   p <- pull ;;
                   display_container_pop ;;;
                   d <- need "UnboundLocalError" compare_dimension ;;
                   need "KeyError" (first_cell d p))
                (master_model_container st)
     else
       for_each (fun i =>
                   d <- need "UnboundLocalError" compare_dimension ;;
                   need "IndexError" (mean_cell d i))
                (create_model_container st)) ;;
  d <- need "UnboundLocalError" compare_dimension ;;
  index_scorer <- need "ValueError" (index_scorer d scorer) ;;
  automl_result <- need "IndexError" (master_model_container st !! index_scorer) ;;
  finalize_model automl_result.

(** ** The choose-better comparison *)

(** The comparison written out in [tune_model] and [ensemble_model]: the
    candidate is kept on a strictly higher R2, or a strictly lower value of
    any other metric, than the base model's; otherwise the base model. *)
Definition choose_better_model (compare_dimension : Metric)
    (candidate_results base_model_results : R)
    (candidate base_model : Regressor) : Regressor :=
  if decide (compare_dimension = R2) then
    if Rgt_dec candidate_results base_model_results then candidate else base_model
  else
    if Rlt_dec candidate_results base_model_results then candidate else base_model.

(** [create_model_container[-n][compare_dimension][-2:][0]] *)
Definition recorded_mean (n : nat) (compare_dimension : option Metric) : M R :=
  st <- get_state ;;
  grid <- need "IndexError" (from_end n (create_model_container st)) ;;
  d <- need "UnboundLocalError" compare_dimension ;;
  need "IndexError" (mean_cell d grid).

(** ** tune_model *)

Definition allowed_optimize : list string := ["MAE"; "MSE"; "R2"; "RMSE"; "RMSLE"; "MAPE"].

(** The sklearn scorer that stands in for [optimize] during the search. *)
Definition scoring_of (optimize : string) : string :=
  if decide (optimize = "MAE") then "neg_mean_absolute_error"
  else if decide (optimize = "MSE") then "neg_mean_squared_error"
  else if decide (optimize = "R2") then "r2"
  else if decide (optimize = "MAPE") then "neg_mean_absolute_error"
  else "neg_mean_squared_error".

Definition tune_model (estimator : EstimatorArg) (fold round n_iter : Z)
    (custom_grid : option Kwargs) (optimize : string)
    (choose_better verbose : bool) : M Regressor :=
  match estimator with
  | ByTag _ =>
      sys_exit "(Type Error): The behavior of tune_model in version 1.0.1 is changed. Please pass trained model object."
  | ByObject _estimator_ =>
      exit_if (bool_decide (optimize ∉ allowed_optimize))
        "(Value Error): Optimization method not supported. See docstring for list of available parameters." ;;;
      st <- get_state ;;
      let data_X := X_train st in
      let data_y := y_train st in
      let compare_dimension := compare_dimension_of optimize in
      let mn := get_model_name _estimator_ in
      let mn := if contains "catboost" mn then "CatBoostRegressor" else mn in
      (* estimator = model_dict.get(mn) *)
      let estimator := dict_get tune_model_dict mn in
      kf <- KFold fold ;;
      (* model_grid.fit(X_train, y_train); model = best_model = model_grid.best_estimator_ *)
      let model :=
        (fun tag => best_estimator_ tag _estimator_ custom_grid (scoring_of optimize)
                      n_iter (seed st) (X_train st) (y_train st)) <$> estimator in
      splits <- kf_split kf ;;
      model <- need "UnboundLocalError" model ;;
      let (model, scores) :=
        cv_loop data_X data_y (target_inverse_transformer st) model splits in
      let model_results := model_results round scores in
      let best_model := fit model data_X data_y in
      store_results model_results best_model ;;;
      best_model <-
        (if choose_better then
           base_model <-
             (if bool_decide (estimator = Some "Bagging" \/ estimator = Some "ada") then
                create_model (ByObject _estimator_) false None 10 4 true false false no_kwargs
              else
                tag <- need "AttributeError" estimator ;;
                create_model (ByTag tag) false None 10 4 true false true no_kwargs) ;;
           base_model_results <- recorded_mean 1 compare_dimension ;;
           tuned_model_results <- recorded_mean 2 compare_dimension ;;
           d <- need "UnboundLocalError" compare_dimension ;;
           display_container_pop ;;;
           ret (choose_better_model d tuned_model_results base_model_results
                  best_model base_model)
         else ret best_model) ;;
      (if logging_param st then log_holdout best_model ;;; ret tt else ret tt) ;;;
      ret best_model
  end.

(** ** ensemble_model *)

Definition ensemble_model (estimator : Regressor) (method : string)
    (fold n_estimators round : Z) (choose_better : bool) (optimize : string)
    (verbose : bool) : M Regressor :=
  exit_if (bool_decide (method ∉ available_method))
    "(Value Error): Method parameter only accepts two values 'Bagging' or 'Boosting'." ;;;
  st <- get_state ;;
  let data_X := X_train st in
  let data_y := y_train st in
  let compare_dimension := compare_dimension_of optimize in
  let model :=
    if decide (method = "Bagging") then BaggingRegressor estimator n_estimators (seed st)
    else AdaBoostRegressor estimator n_estimators (seed st) in
  kf <- KFold fold ;;
  splits <- kf_split kf ;;
  let (model, scores) :=
    cv_loop data_X data_y (target_inverse_transformer st) model splits in
  let model_results := model_results round scores in
  let model := fit model data_X data_y in
  store_results model_results model ;;;
  model <-
    (if choose_better then
       (* base_model = create_model(estimator=estimator, verbose = False) *)
       base_model <-
         create_model (ByObject estimator) false None 10 4 true false true no_kwargs ;;
       base_model_results <- recorded_mean 1 compare_dimension ;;
       ensembled_model_results <- recorded_mean 2 compare_dimension ;;
       d <- need "UnboundLocalError" compare_dimension ;;
       display_container_pop ;;;
       ret (choose_better_model d ensembled_model_results base_model_results
              model base_model)
     else ret model) ;;
  (if logging_param st then log_holdout model ;;; ret tt else ret tt) ;;;
  ret model.

(** ** compare_models *)

Definition allowed_sort : list string := ["MAE"; "MSE"; "RMSE"; "R2"; "RMSLE"; "MAPE"].

Definition internal_blacklist : list string := ["kr"; "ard"; "mlp"].

(** [model_library] when [blacklist is None and turbo is True] *)
Definition turbo_library : list string :=
  ["lr"; "lasso"; "ridge"; "en"; "lar"; "llar"; "omp"; "br"; "par"; "ransac";
   "tr"; "huber"; "svm"; "knn"; "dt"; "rf"; "et"; "ada"; "gbr"; "xgboost";
   "lightgbm"; "catboost"].

(** [for i in blacklist: model_library_str_.remove(i)] *)
Fixpoint remove_all (blacklist : list string) (library : list string) : option (list string) :=
  match blacklist with
  | [] => Some library
  | i :: blacklist' => library' ← list_remove i library; remove_all blacklist' library'
  end.

(** [model_dict] of [compare_models]: displayed name to catalog tag *)
Definition compare_model_dict : list (string * string) :=
  fmap (fun entry => (entry.2, entry.1)) model_names.

(** pandas [sort_values(by=..., ascending=...)] on the ranked table, as an
    insertion sort that keeps the order of equal keys. *)
Fixpoint insert_row (by_ : Metric) (ascending : bool) (row : string * Scores)
    (sorted : list (string * Scores)) : list (string * Scores) :=
  match sorted with
  | [] => [row]
  | r :: sorted' =>
      if (if ascending then Rltb (cell by_ r.2) (cell by_ row.2)
          else Rltb (cell by_ row.2) (cell by_ r.2))
      then r :: insert_row by_ ascending row sorted'
      else row :: sorted
  end.

Definition sort_values (by_ : Metric) (ascending : bool)
    (df : list (string * Scores)) : list (string * Scores) :=
  foldr (insert_row by_ ascending) [] df.

(** One pass of [for model in model_library]: score the recipe on every
    fold, append its row of means, round the table and sort it again.  The
    estimator objects are built once before the loop, so a tag that occurs
    twice is fitted again from the state its first pass left. *)
Fixpoint compare_loop (kf : nat) (round : Z) (sort : Metric)
    (model_library : list (string * string)) (objects : string -> Regressor)
    (master_display : list (string * Scores)) : M (list (string * Scores)) :=
  match model_library with
  | [] => ret master_display
  | (tag, name) :: model_library' =>
      st <- get_state ;;
      splits <- kf_split kf ;;
      let (model, scores) :=
        cv_loop (X_train st) (y_train st) (target_inverse_transformer st)
          (objects tag) splits in
      let compare_models_ := (name, mean_scores scores) in
      let master_display :=
        fmap (fun row => (row.1, round_scores round row.2))
            (master_display ++ [compare_models_]) in
      let master_display :=
        sort_values sort (negb (bool_decide (sort = R2))) master_display in
      compare_loop kf round sort model_library' (<[tag := model]> objects) master_display
  end.

(** [for i in l: if i not in available_estimators: sys.exit(...)] for an
    optional list of tags *)
Definition has_unavailable (l : option (list string)) : bool :=
  match l with
  | Some l => bool_decide (Exists (fun i => i ∉ available_estimators) l)
  | None => false
  end.

(** [compare_models] returns one model when one was selected, else a list. *)
Inductive CompareResult :=
| OneModel (m : Regressor)
| ModelList (l : list Regressor).

Definition compare_models (blacklist whitelist : option (list string))
    (fold round : Z) (sort : string) (n_select : Z) (turbo verbose : bool)
  : M CompareResult :=
  exit_if (has_unavailable blacklist)
    "(Value Error): Estimator Not Available. Please see docstring for list of available estimators." ;;;
  exit_if (has_unavailable whitelist)
    "(Value Error): Estimator Not Available. Please see docstring for list of available estimators." ;;;
  exit_if (bool_decide (whitelist <> None /\ blacklist <> None))
    "(Type Error): Cannot use blacklist parameter when whitelist is used to compare models." ;;;
  exit_if (bool_decide (sort ∉ allowed_sort))
    "(Value Error): Sort method not supported. See docstring for list of available parameters." ;;;
  st <- get_state ;;
  (* the estimator objects, built once: lr = LinearRegression(...), ... *)
  let objects := fun tag => construct tag (seed st) no_kwargs in
  model_library_str_ <-
    match blacklist with
    | Some blacklist =>
        let blacklist :=
          if turbo then remove_dups (blacklist ++ internal_blacklist) else blacklist in
        need "ValueError" (remove_all blacklist available_estimators)
    | None => ret (if turbo then turbo_library else available_estimators)
    end ;;
  let tags := default model_library_str_ whitelist in
  let model_library :=
    omap (fun tag => name ← dict_get model_names tag; Some (tag, name)) tags in
  kf <- KFold fold ;;
  sort_by <- need "KeyError" (compare_dimension_of sort) ;;
  master_display <- compare_loop kf round sort_by model_library objects [] ;;
  let sorted_model_names := fmap fst master_display in
  let sorted_model_names :=
    if decide (n_select < 0)%Z then slice_from n_select sorted_model_names
    else slice_to n_select sorted_model_names in
  model_store_final <-
    for_each (fun i =>
                k <- need "AttributeError" (dict_get compare_model_dict i) ;;
                create_model (ByTag k) false None 10 4 true false false no_kwargs)
             sorted_model_names ;;
  modify (set_display_container (fun c => c ++ [CompareTable master_display])) ;;;
  ret (match model_store_final with
       | [m] => OneModel m
       | _ => ModelList model_store_final
       end).

(** ** save_model and load_model *)

(** [joblib.dump(model_, model_name)] into the working directory *)
Definition joblib_dump (model_ : Model) (model_name : string) : M unit :=
  modify (set_files (fun f => <[model_name := model_]> f)).

(** [joblib.load(model_name)] *)
Definition joblib_load (model_name : string) : M Model :=
  st <- get_state ;; need "FileNotFoundError" (files st !! model_name).

Definition save_model (model : Model) (model_name : string)
    (model_only verbose : bool) : M unit :=
  st <- get_state ;;
  model_ <-
    (if model_only then ret model
     else steps <- need "NameError" (prep_pipe st) ;; ret (Pipeline steps model)) ;;
  let model_name := model_name +:+ ".pkl" in
  joblib_dump model_ model_name.

(** The download helpers of the cloud branches: copy a blob of a bucket
    (or container) into the working directory under the same name. *)
Definition download_blob (bucket : option string) (filename : string) : M unit :=
  st <- get_state ;;
  bucket <- need "ClientError" bucket ;;
  blob <- need "ClientError" (buckets st !! (bucket, filename)) ;;
  modify (set_files (fun f => <[filename := blob]> f)).

Definition load_model (model_name : string) (platform : option string)
    (authentication : option (list (string * string))) (verbose : bool)
  : M (option Model) :=
  exit_if (bool_decide (platform <> None /\ authentication = None))
    "(Value Error): Authentication is missing." ;;;
  let local := joblib_load (model_name +:+ ".pkl") in
  let auth := default [] authentication in
  match platform with
  | None => m <- local ;; ret (Some m)
  | Some platform =>
      if decide (platform = "aws") then
        download_blob (dict_get auth "bucket") (model_name +:+ ".pkl") ;;;
        local ;;;
        m <- local ;; ret (Some m)
      else if decide (platform = "gcp") then
        download_blob (dict_get auth "bucket") (model_name +:+ ".pkl") ;;;
        m <- local ;; ret (Some m)
      else if decide (platform = "azure") then
        download_blob (dict_get auth "container") (model_name +:+ ".pkl") ;;;
        m <- local ;; ret (Some m)
      else ret None
  end.

End Workflow.

Arguments Ok {_} a.
Arguments SysExit {_} message.
Arguments Raise {_} exception.

(** ** Vocabulary of the statements *)

Section Vocabulary.
Context `{Sklearn}.

(** The folds [kf.split] yields in a state. *)
Definition splits_in (st : State) (kf : nat) : list (list nat * list nat) :=
  KFold.split kf
    (if folds_shuffle_param st then shuffled (seed st) (length (X_train st))
     else seq 0 (length (X_train st)))
    (length (X_train st)).

(** The cross-validation loop run in a state: the estimator object after
    the last fold, and the unrounded metrics of every fold. *)
Definition cross_validated (st : State) (model : Regressor) (fold : Z)
  : Regressor * list Scores :=
  cv_loop (X_train st) (y_train st) (target_inverse_transformer st) model
    (splits_in st (Z.to_nat fold)).

(** The refit on the whole training partition that a trainer returns, and
    the score grid it records. *)
Definition trained_model (st : State) (model : Regressor) (fold : Z) : Regressor :=
  fit (cross_validated st model fold).1 (X_train st) (y_train st).

Definition trained_grid (st : State) (model : Regressor) (fold round : Z) : ScoreGrid :=
  model_results round (cross_validated st model fold).2.

(** The state after the three appends of [store_results]. *)
Definition stored (grid : ScoreGrid) (model : Regressor) (st : State) : State :=
  set_master_model_container (fun c => c ++ [model])
    (set_display_container (fun c => c ++ [GridTable grid])
       (set_create_model_container (fun c => c ++ [grid]) st)).

(** The estimator [create_model] cross-validates: the catalog constructor
    or the object passed in, wrapped when [method] asks for it. *)
Definition recipe (st : State) (estimator : EstimatorArg) (method : option string)
    (kwargs : Kwargs) : Regressor :=
  let model :=
    match estimator with
    | ByTag tag => construct tag (seed st) kwargs
    | ByObject e => e
    end in
  if bool_decide (method = Some "Bagging") then BaggingRegressor model 10 (seed st)
  else if bool_decide (method = Some "Boosting") then AdaBoostRegressor model 10 (seed st)
  else model.

(** The estimator [ensemble_model] cross-validates: the bagging or
    boosting wrapper around the model passed in. *)
Definition wrapped (st : State) (estimator : Regressor) (method : string)
    (n_estimators : Z) : Regressor :=
  if decide (method = "Bagging") then BaggingRegressor estimator n_estimators (seed st)
  else AdaBoostRegressor estimator n_estimators (seed st).

(** The catalog tag [tune_model] derives from the class of its estimator. *)
Definition tuned_tag (estimator : Regressor) : option string :=
  let mn := get_model_name estimator in
  let mn := if contains "catboost" mn then "CatBoostRegressor" else mn in
  dict_get tune_model_dict mn.

(** The estimator [tune_model] cross-validates: the winner of the
    randomized search over the grid of the tag. *)
Definition searched (st : State) (tag : string) (estimator : Regressor)
    (custom_grid : option Kwargs) (optimize : string) (n_iter : Z) : Regressor :=
  best_estimator_ tag estimator custom_grid (scoring_of optimize) n_iter (seed st)
    (X_train st) (y_train st).

(** What [tune_model] hands to [create_model] as the base model. *)
Definition tuned_base (tag : string) (estimator : Regressor) : EstimatorArg :=
  if bool_decide (Some tag = Some "Bagging" \/ Some tag = Some "ada")
  then ByObject estimator else ByTag tag.

(** The Mean cell a grid of fold scores records for a metric. *)
Definition recorded_score (d : Metric) (round : Z) (scores : list Scores) : R :=
  Numpy.round round (Numpy.mean (score_column d scores)).

(** The state after a choose-better comparison: the candidate's and then the
    base model's results are recorded, and the base model's grid has been
    popped from [display_container] again. *)
Definition compared (grid : ScoreGrid) (candidate : Regressor)
    (base_grid : ScoreGrid) (base_model : Regressor) (st : State) : State :=
  set_display_container (fun _ => display_container st ++ [GridTable grid])
    (stored base_grid base_model (stored grid candidate st)).

(** Better on a metric: higher for R2, lower for every other metric. *)
Definition strictly_better (d : Metric) (score base_score : R) : Prop :=
  if decide (d = R2) then (base_score < score)%R else (score < base_score)%R.

Definition never_worse (d : Metric) (score base_score : R) : Prop :=
  if decide (d = R2) then (base_score <= score)%R else (score <= base_score)%R.

(** The calls that run a choose-better comparison on [optimize]. *)
Inductive choose_better_call : string -> M Regressor -> Prop :=
| choose_better_tune estimator fold round n_iter custom_grid optimize verbose :
    choose_better_call optimize
      (tune_model estimator fold round n_iter custom_grid optimize true verbose)
| choose_better_ensemble estimator method fold n_estimators round optimize verbose :
    choose_better_call optimize
      (ensemble_model estimator method fold n_estimators round true optimize verbose).

(** What a training call leaves in the result containers. *)
Inductive Recording :=
| RecordsNothing      (** a single fit, no score grid *)
| RecordsOwn          (** its own grid and model *)
| RecordsOwnAndBase.  (** its own, then the base model's of the comparison *)

(** The training calls, with what their arguments make them record. *)
Inductive training_call : M Regressor -> Recording -> Prop :=
| training_create estimator ensemble method fold round cross_validation verbose system
    kwargs :
    training_call
      (create_model estimator ensemble method fold round cross_validation verbose system
         kwargs)
      (if cross_validation then RecordsOwn else RecordsNothing)
| training_tune estimator fold round n_iter custom_grid optimize choose_better verbose :
    training_call
      (tune_model estimator fold round n_iter custom_grid optimize choose_better verbose)
      (if choose_better then RecordsOwnAndBase else RecordsOwn)
| training_ensemble estimator method fold n_estimators round choose_better optimize verbose :
    training_call
      (ensemble_model estimator method fold n_estimators round choose_better optimize
         verbose)
      (if choose_better then RecordsOwnAndBase else RecordsOwn).

(** The call's grid and model are the last entries of the three
    containers, and nothing else in them changed. *)
Definition results_appended (grid : ScoreGrid) (model : Regressor) (st st' : State) : Prop :=
  create_model_container st' = create_model_container st ++ [grid]
  /\ display_container st' = display_container st ++ [GridTable grid]
  /\ master_model_container st' = master_model_container st ++ [model].

(** The order of the ranked table on column [d]: descending for R2,
    ascending for every other metric. *)
Definition ranked_before (d : Metric) (r1 r2 : string * Scores) : Prop :=
  if decide (d = R2) then (cell d r2.2 <= cell d r1.2)%R
  else (cell d r1.2 <= cell d r2.2)%R.

(** A displayed name that [model_dict] maps back to a catalog tag. *)
Definition known_name (name : string) : Prop :=
  exists tag, dict_get compare_model_dict name = Some tag /\ tag ∈ available_estimators.

(** Arguments that pass the checks at the top of [create_model]. *)
Definition supported (estimator : EstimatorArg) (ensemble : bool)
    (method : option string) : Prop :=
  match estimator with
  | ByTag tag => tag ∈ available_estimators
  | ByObject _ => True
  end /\
  (if ensemble then option_in method available_method = true else method = None).

(** The two states agree on everything but the result containers. *)
Definition same_experiment (st st' : State) : Prop :=
  X st' = X st /\ y st' = y st /\
  X_train st' = X_train st /\ y_train st' = y_train st /\
  X_test st' = X_test st /\ y_test st' = y_test st /\
  seed st' = seed st /\ folds_shuffle_param st' = folds_shuffle_param st /\
  prep_pipe st' = prep_pipe st /\
  target_inverse_transformer st' = target_inverse_transformer st /\
  logging_param st' = logging_param st /\
  files st' = files st /\ buckets st' = buckets st.

End Vocabulary.

(** ** A small concrete experiment *)

(** The least instance of the collaborators on which the workflow runs:
    rows carry no features, every estimator predicts [0] whatever it was
    fitted on, and the preprocessing pipeline changes nothing. *)
Module Toy.

Definition sklearn : Sklearn :=
  {| Features := unit;
     Regressor := unit;
     PrepPipe := unit;
     Kwargs := unit;
     no_kwargs := tt;
     construct := fun _ _ _ => tt;
     BaggingRegressor := fun e _ _ => e;
     AdaBoostRegressor := fun e _ _ => e;
     fit := fun e _ _ => e;
     predict := fun _ _ => 0%R;
     clone := fun e => e;
     get_model_name := fun _ => "LinearRegression";
     best_estimator_ := fun _ e _ _ _ _ _ _ => e;
     transform := fun _ x => x;
     shuffled := fun _ n => seq 0 n |}.

(** The state [setup] would publish for training labels [labels], with an
    empty holdout set, no target transformation and no logging. *)
Definition experiment (labels : list R) : @State sklearn :=
  @mkState sklearn
    (replicate (length labels) tt) labels
    (replicate (length labels) tt) labels
    [] []
    0%Z false (Some tt) None false
    [] [] [] ∅ ∅.

Definition four_rows : list R := [0; 2; 2; 2]%R.

Definition ten_rows : list R := [1; 2; 3; 4; 5; 6; 7; 8; 9; 10]%R.

(** A score grid whose ['Mean'] row holds [v] in every column. *)
Definition grid_with_mean (v : R) : ScoreGrid :=
  [(Fold 0, mkScores v v v v v v); (Fold 1, mkScores v v v v v v);
   (Mean, mkScores v v v v v v); (SD, mkScores 0 0 0 0 0 0)]%R.

(** [experiment ten_rows] after three training calls whose Mean rows
    read 5, 7 and 7. *)
Definition history : @State sklearn :=
  @mkState sklearn
    (replicate 10 tt) ten_rows
    (replicate 10 tt) ten_rows
    [] []
    0%Z false (Some tt) None false
    [grid_with_mean 5; grid_with_mean 7; grid_with_mean 7]%R
    [tt; tt; tt]
    [GridTable (grid_with_mean 5); GridTable (grid_with_mean 7);
     GridTable (grid_with_mean 7)]%R
    ∅ ∅.

End Toy.

(** ** blend_models and stack_models *)

(** The two heterogeneous ensembles of [sklearn.ensemble]:
    [VotingRegressor(estimators=...)] and
    [StackingRegressor(estimators=..., final_estimator=..., cv=...,
    passthrough=...)]. *)
Class Ensembles `{Sklearn} := {
  VotingRegressor : list (string * Regressor) -> Regressor;
  StackingRegressor : list (string * Regressor) -> Regressor -> Z -> bool -> Regressor
}.

(** [estimator_list] of [blend_models]: the string ['All'] or a list of
    trained models *)
Inductive BlendArg `{Sklearn} :=
| All
| Estimators (estimator_list : list Regressor).

Section Blending.
Context `{Ensembles}.

Local Notation "x <- c1 ;; c2" := (bind c1 (fun x => c2))
  (at level 100, c1 at next level, right associativity).
Local Notation "c1 ;;; c2" := (bind c1 (fun _ => c2))
  (at level 100, right associativity).

(** The name [blend_models] gives an estimator before numbering. *)
Definition blend_model_name (names : Regressor) : string :=
  let i := get_model_name names in
  let i := if contains "CatBoostRegressor" i then "CatBoost Regressor" else i in
  let j := putSpace i in
  if decide (j = "A R D Regression") then "Automatic Relevance Determination"
  else if decide (j = "M L P Regressor") then "MLP Regressor"
  else if decide (j = "R A N S A C Regressor") then "RANSAC Regressor"
  else if decide (j = "S V R") then "Support Vector Regressor"
  else if decide (j = "Lars") then "Least Angle Regression"
  else if decide (j = "X G B Regressor") then "Extreme Gradient Boosting Regressor"
  else if decide (j = "L G B M Regressor") then "Light Gradient Boosting Machine"
  else if decide (j = "Cat Boost Regressor") then "CatBoost Regressor"
  else j.

(** The name [stack_models] gives an estimator before numbering. *)
Definition stack_model_name (item : Regressor) : string :=
  let i := get_model_name item in
  if contains "CatBoostRegressor" i then "CatBoostRegressor" else i.

(** [str(i) + '_' + str(counter)] with [counter] running from 0 *)
Definition numbered (model_names : list string) : list string :=
  imap (fun counter i => i +:+ "_" +:+ pretty counter) model_names.

(** [scorer.append(s); base_models_.append(m)] run in step: the scores
    and the models of the base estimators, in list order. *)
Definition scorer_of (scored : list (R * Regressor)) : list R := fst <$> scored.
Definition base_models_of (scored : list (R * Regressor)) : list Regressor := snd <$> scored.

(** [model = model if index_scorer == 0 else base_models_[index_scorer-1]] *)
Definition select_model (index_scorer : nat) (model : Regressor)
    (base_models_ : list Regressor) : M Regressor :=
  match index_scorer with
  | 0 => ret model
  | S i => need "IndexError" (base_models_ !! i)
  end.

Definition blend_models (estimator_list : BlendArg) (fold round : Z)
    (choose_better : bool) (optimize : string) (turbo verbose : bool) : M Regressor :=
  st <- get_state ;;
  let data_X := X_train st in
  let data_y := y_train st in
  let compare_dimension := compare_dimension_of optimize in
  let all_flag := match estimator_list with All => true | Estimators _ => false end in
  kf <- KFold fold ;;
  let estimator_list :=
    match estimator_list with
    | All =>
        (fun tag => construct tag (seed st) no_kwargs)
          <$> (if turbo then turbo_library else available_estimators)
    | Estimators estimator_list => estimator_list
    end in
  let model_names := numbered (blend_model_name <$> estimator_list) in
  let estimator_list_ := zip model_names estimator_list in
  (* try: model = VotingRegressor(...); model.fit(data_X,data_y)
     except: model = VotingRegressor(estimators=estimator_list_) *)
  let model :=
    if bool_decide (estimator_list = []) then VotingRegressor estimator_list_
    else fit (VotingRegressor estimator_list_) data_X data_y in
  splits <- kf_split kf ;;
  (* fitting an ensemble without estimators is a ValueError *)
  (if bool_decide (estimator_list = []) then raise "ValueError" else ret tt) ;;;
  let (model, scores) :=
    cv_loop data_X data_y (target_inverse_transformer st) model splits in
  let model_results := model_results round scores in
  let model := fit model data_X data_y in
  store_results model_results model ;;;
  blend_model_results <- recorded_mean 1 compare_dimension ;;
  scored <-
    (if choose_better && negb all_flag then
       for_each (fun i =>
                   m <- create_model (ByObject i) false None 10 4 true false false
                          no_kwargs ;;
                   s <- recorded_mean 1 compare_dimension ;;
                   display_container_pop ;;;
                   ret (s, m))
                estimator_list
     else ret []) ;;
  let scorer := blend_model_results :: scorer_of scored in
  let base_models_ := base_models_of scored in
  d <- need "UnboundLocalError" compare_dimension ;;
  index_scorer <- need "ValueError" (index_scorer d scorer) ;;
  model <- select_model index_scorer model base_models_ ;;
  (if logging_param st then log_holdout model ;;; ret tt else ret tt) ;;;
  ret model.

Definition stack_models (estimator_list : list Regressor) (meta_model : option Regressor)
    (fold round : Z) (restack choose_better : bool) (optimize : string)
    (verbose : bool) : M Regressor :=
  st <- get_state ;;
  (* LinearRegression(n_jobs=n_jobs_param), the constructor of tag 'lr' *)
  let meta_model :=
    match meta_model with
    | None => construct "lr" (seed st) no_kwargs
    | Some meta_model => clone meta_model
    end in
  let compare_dimension := compare_dimension_of optimize in
  let data_X := X_train st in
  let data_y := y_train st in
  kf <- KFold fold ;;
  let model_names_fixed := numbered (stack_model_name <$> estimator_list) in
  let estimator_list_tuples := zip model_names_fixed estimator_list in
  let model := StackingRegressor estimator_list_tuples meta_model fold restack in
  splits <- kf_split kf ;;
  (* fitting an ensemble without estimators is a ValueError *)
  (if bool_decide (estimator_list = []) then raise "ValueError" else ret tt) ;;;
  let (model, scores) :=
    cv_loop data_X data_y (target_inverse_transformer st) model splits in
  (* model_results is displayed; no container receives it *)
  let model := fit model data_X data_y in
  stack_model_results <- recorded_mean 1 compare_dimension ;;
  scored <-
    (if choose_better then
       scored <-
         for_each (fun i =>
                     m <- create_model (ByObject i) false None 10 4 true false true
                            no_kwargs ;;
                     s <- recorded_mean 1 compare_dimension ;;
                     ret (s, m))
                  estimator_list ;;
       let meta_model_clone := clone meta_model in
       mm <- create_model (ByObject meta_model_clone) false None 10 4 true false true
               no_kwargs ;;
       s <- recorded_mean 1 compare_dimension ;;
       display_container_pop ;;;
       ret (scored ++ [(s, mm)])
     else ret []) ;;
  let scorer := stack_model_results :: scorer_of scored in
  let base_models_ := base_models_of scored in
  d <- need "UnboundLocalError" compare_dimension ;;
  index_scorer <- need "ValueError" (index_scorer d scorer) ;;
  model <- select_model index_scorer model base_models_ ;;
  (if logging_param st then log_holdout model ;;; ret tt else ret tt) ;;;
  ret model.

End Blending.
(** ** models *)

(** One row of the table [models] returns; [ID] is the index. *)
Record ModelRow := mkModelRow {
  ID : string;
  Name : string;
  Reference : string;
  Turbo : bool
}.

Definition model_id : list string :=
  ["lr"; "lasso"; "ridge"; "en"; "lar"; "llar"; "omp"; "br"; "ard"; "par";
   "ransac"; "tr"; "huber"; "kr"; "svm"; "knn"; "dt"; "rf"; "et"; "ada";
   "gbr"; "mlp"; "xgboost"; "lightgbm"; "catboost"].

Definition model_name : list string :=
  ["Linear Regression"; "Lasso Regression"; "Ridge Regression"; "Elastic Net";
   "Least Angle Regression"; "Lasso Least Angle Regression";
   "Orthogonal Matching Pursuit"; "Bayesian Ridge";
   "Automatic Relevance Determination"; "Passive Aggressive Regressor";
   "Random Sample Consensus"; "TheilSen Regressor"; "Huber Regressor";
   "Kernel Ridge"; "Support Vector Machine"; "K Neighbors Regressor";
   "Decision Tree"; "Random Forest"; "Extra Trees Regressor";
   "AdaBoost Regressor"; "Gradient Boosting Regressor"; "Multi Level Perceptron";
   "Extreme Gradient Boosting"; "Light Gradient Boosting Machine";
   "CatBoost Regressor"].

Definition model_ref : list string :=
  ["sklearn.linear_model.LinearRegression"; "sklearn.linear_model.Lasso";
   "sklearn.linear_model.Ridge"; "sklearn.linear_model.ElasticNet";
   "sklearn.linear_model.Lars"; "sklearn.linear_model.LassoLars";
   "sklearn.linear_model.OMP"; "sklearn.linear_model.BayesianRidge";
   "sklearn.linear_model.ARDRegression"; "sklearn.linear_model.PAR";
   "sklearn.linear_model.RANSACRegressor";
   "sklearn.linear_model.TheilSenRegressor";
   "sklearn.linear_model.HuberRegressor"; "sklearn.kernel_ridge.KernelRidge";
   "sklearn.svm.SVR"; "sklearn.neighbors.KNeighborsRegressor";
   "sklearn.tree.DecisionTreeRegressor";
   "sklearn.ensemble.RandomForestRegressor";
   "sklearn.ensemble.ExtraTreesRegressor";
   "sklearn.ensemble.AdaBoostRegressor";
   "sklearn.ensemble.GradientBoostingRegressor";
   "sklearn.neural_network.MLPRegressor"; "xgboost.readthedocs.io";
   "github.com/microsoft/LightGBM"; "https://catboost.ai"].

Definition model_turbo : list bool :=
  [true; true; true; true; true; true; true; true; false; true;
   true; true; true; false; true; true; true; true; true; true;
   true; false; true; true; true].

Definition linear_models : list string :=
  ["lr"; "lasso"; "ridge"; "en"; "lar"; "llar"; "omp"; "br"; "ard"; "par";
   "ransac"; "tr"; "huber"; "kr"].
Definition tree_models : list string := ["dt"].
Definition ensemble_models : list string :=
  ["rf"; "et"; "gbr"; "xgboost"; "lightgbm"; "catboost"; "ada"].

(** [df[df.index.isin(ids)]] *)
Definition isin (ids : list string) (df : list ModelRow) : list ModelRow :=
  filter (fun row => ID row ∈ ids) df.

Definition models (type : option string) : list ModelRow :=
  let df :=
    zip_with (fun id rest => mkModelRow id rest.1.1 rest.1.2 rest.2)
      model_id (zip (zip model_name model_ref) model_turbo) in
  let df := if decide (type = Some "linear") then isin linear_models df else df in
  let df := if decide (type = Some "tree") then isin tree_models df else df in
  let df := if decide (type = Some "ensemble") then isin ensemble_models df else df in
  df.

(** ** get_config and set_config *)

Definition config_variables : list string :=
  ["X"; "y"; "X_train"; "X_test"; "y_train"; "y_test"; "seed"; "prep_pipe";
   "target_inverse_transformer"; "folds_shuffle_param"; "n_jobs_param";
   "html_param"; "create_model_container"; "master_model_container";
   "display_container"; "exp_name_log"; "logging_param"; "log_plots_param";
   "USI"; "data_before_preprocess"; "target_param"; "gpu_param"].

Section Config.
(** Python objects, untyped: any value can be bound to any global. *)
Context {Value : Type}.

(** The module namespace, [globals : gmap string Value]: the globals bound
    so far, by name. *)

(** The chain [if variable == 'X': global_var = X], ..., run name after
    name; reading a global that was never bound is a NameError. *)
Fixpoint read_globals (variable : string) (names : list string) (globals : gmap string Value)
    (global_var : option Value) : Outcome (option Value) :=
  match names with
  | [] => Ok global_var
  | name :: names' =>
      if decide (variable = name) then
        match globals !! name with
        | Some value => read_globals variable names' globals (Some value)
        | None => Raise "NameError"
        end
      else read_globals variable names' globals global_var
  end.

(** [return global_var]: unbound when no name matched *)
Definition get_config (variable : string) (globals : gmap string Value) : Outcome Value :=
  match read_globals variable config_variables globals None with
  | Ok (Some global_var) => Ok global_var
  | Ok None => Raise "UnboundLocalError"
  | SysExit message => SysExit message
  | Raise exception => Raise exception
  end.

(** The chain [if variable == 'X': global X; X = value], ... *)
Definition set_config (variable : string) (value : Value) (globals : gmap string Value)
  : gmap string Value :=
  foldl (fun globals name =>
           if decide (variable = name) then <[name := value]> globals else globals)
        globals config_variables.

End Config.

(** ** Vocabulary of the further statements *)

Section MoreVocabulary.
Context `{Sklearn}.

(** The estimator argument passes the first check of [create_model]. *)
Definition estimator_available (estimator : EstimatorArg) : Prop :=
  match estimator with
  | ByTag tag => tag ∈ available_estimators
  | ByObject _ => True
  end.

(** The cell of column [d] in the holdout table [predict_model] appends
    for a model. *)
Definition holdout_score (d : Metric) (st : State) (model : Regressor) : R :=
  let t := target_inverse_transformer st in
  cell d (round_scores 4
            (compute_metrics (inverse_transform t (y_test st))
               (inverse_transform t (predict model <$> X_test st)))).

End MoreVocabulary.

Section CompareVocabulary.
Context `{Sklearn}.

(** The tags [compare_models] is left with: the catalog, or the turbo
    library, without the blacklist; the whitelist replaces them. *)
Definition excluded (blacklist : option (list string)) (turbo : bool) : list string :=
  default [] blacklist ++ (if turbo then internal_blacklist else []).

Definition compared_tags (blacklist whitelist : option (list string)) (turbo : bool)
  : list string :=
  default (filter (fun tag => tag ∉ excluded blacklist turbo) available_estimators)
    whitelist.

(** The names shown for a list of tags. *)
Definition shown_names (tags : list string) : list string :=
  omap (dict_get model_names) tags.

(** What [create_model(estimator=k, verbose=False, system=False)] trains
    for the catalog model shown under a name, in a given experiment: the
    model, and the grid of its 10 folds. *)
Definition retrain (st : State) (name : string) : option (Regressor * ScoreGrid) :=
  tag ← dict_get compare_model_dict name;
  Some (trained_model st (construct tag (seed st) no_kwargs) 10,
        trained_grid st (construct tag (seed st) no_kwargs) 10 4).

(** The state after a run of training calls, each storing its results. *)
Definition recorded (trained : list (Regressor * ScoreGrid)) (st : State) : State :=
  foldl (fun st mg => stored mg.2 mg.1 st) st trained.

(** What [compare_models] returns for the models it trained again: the
    model itself when there is exactly one, else the list. *)
Definition returned_models (model_store_final : list Regressor) : CompareResult :=
  match model_store_final with
  | [m] => OneModel m
  | _ => ModelList model_store_final
  end.

(** [sorted_model_names[:n_select]], or [[n_select:]] when negative *)
Definition selected_names (n_select : Z) (table : list (string * Scores)) : list string :=
  if decide (n_select < 0)%Z then slice_from n_select (fst <$> table)
  else slice_to n_select (fst <$> table).

End CompareVocabulary.

Section BlendVocabulary.
Context `{Ensembles}.

(** The estimators [blend_models] blends: the catalog library for
    ['All'], else the list passed in. *)
Definition blend_estimators (st : State) (estimator_list : BlendArg) (turbo : bool)
  : list Regressor :=
  match estimator_list with
  | All =>
      (fun tag => construct tag (seed st) no_kwargs)
        <$> (if turbo then turbo_library else available_estimators)
  | Estimators estimator_list => estimator_list
  end.

(** Whether [blend_models] trains the base models for a comparison:
    [choose_better and all_flag is False]. *)
Definition compares_bases (estimator_list : BlendArg) (choose_better : bool) : bool :=
  choose_better && negb (match estimator_list with All => true | Estimators _ => false end).

(** The voting ensemble [blend_models] cross-validates. *)
Definition blender (st : State) (estimator_list : list Regressor) : Regressor :=
  fit (VotingRegressor (zip (numbered (blend_model_name <$> estimator_list)) estimator_list))
    (X_train st) (y_train st).

(** The meta model of [stack_models]: a fresh linear regression, or a
    clone of the one passed in. *)
Definition final_estimator (st : State) (meta_model : option Regressor) : Regressor :=
  match meta_model with
  | None => construct "lr" (seed st) no_kwargs
  | Some meta_model => clone meta_model
  end.

(** The stacking ensemble [stack_models] cross-validates. *)
Definition stacker (st : State) (estimator_list : list Regressor)
    (meta_model : option Regressor) (fold : Z) (restack : bool) : Regressor :=
  StackingRegressor
    (zip (numbered (stack_model_name <$> estimator_list)) estimator_list)
    (final_estimator st meta_model) fold restack.

(** A base model trained by [create_model] with its defaults: the score it
    enters the comparison with on column [d], the model, and its grid. *)
Definition base_score (st : State) (d : Metric) (i : Regressor) : R :=
  recorded_score d 4 (cross_validated st i 10).2.




End BlendVocabulary.

Section Effects.
Context `{Sklearn}.

(** A call that leaves the state as it found it, whatever its outcome. *)
Definition keeps_state {A} (c : M A) : Prop :=
  forall st outcome st', c st = (outcome, st') -> st' = st.

End Effects.

(** [c in s] for a character of a string *)
Fixpoint occurs (c : ascii) (s : string) : Prop :=
  match s with
  | EmptyString => False
  | String c' s' => c = c' \/ occurs c s'
  end.

(** ** The small experiment with ensembles and named classes *)

Module ToyBlend.

(** The two heterogeneous ensembles over the toy estimators. *)
Definition ensembles : @Ensembles Toy.sklearn :=
  @Build_Ensembles Toy.sklearn (fun _ => tt) (fun _ _ _ _ => tt).

(** Toy estimators that are their class name, to tell the classes
    [tune_model] knows from the others; they predict [0] like the others. *)
Definition named : Sklearn :=
  {| Features := unit;
     Regressor := string;
     PrepPipe := unit;
     Kwargs := unit;
     no_kwargs := tt;
     construct := fun tag _ _ => tag;
     BaggingRegressor := fun _ _ _ => "BaggingRegressor";
     AdaBoostRegressor := fun _ _ _ => "AdaBoostRegressor";
     fit := fun e _ _ => e;
     predict := fun _ _ => 0%R;
     clone := fun e => e;
     get_model_name := fun e => e;
     best_estimator_ := fun _ e _ _ _ _ _ _ => e;
     transform := fun _ x => x;
     shuffled := fun _ n => seq 0 n |}.

Definition named_experiment (labels : list R) : @State named :=
  @mkState named
    (replicate (length labels) tt) labels
    (replicate (length labels) tt) labels
    [] []
    0%Z false (Some tt) None false
    [] [] [] ∅ ∅.

End ToyBlend.

(** * Properties *)

(** ** numpy facts *)

Module NumpyFacts.
Import Numpy.
Local Open Scope R_scope.

Lemma rint_error (x : R) : Rabs (IZR (rint x) - x) <= 1 / 2.
Proof.
  unfold rint. pose proof (Zfloor_bound x) as [Hlo Hhi].
  repeat destruct (Rlt_dec _ _); [| |destruct (Z.even _)];
    rewrite ?plus_IZR; apply Rabs_le; lra.
Qed.

Lemma rint_IZR (z : Z) : rint (IZR z) = z.
Proof.
  unfold rint. rewrite ZfloorZ.
  destruct (Rlt_dec _ _) as [|Hn]; [done|]. exfalso; apply Hn; lra.
Qed.

Lemma rint_eq_down (x : R) (z : Z) : IZR z <= x < IZR z + 1 / 2 -> rint x = z.
Proof.
  intros Hx. unfold rint. rewrite (Zfloor_eq z x) by lra.
  destruct (Rlt_dec _ _) as [|Hn]; [done|]. exfalso; apply Hn; lra.
Qed.

Lemma rint_eq_up (x : R) (z : Z) : IZR z + 1 / 2 < x < IZR z + 1 -> rint x = (z + 1)%Z.
Proof.
  intros Hx. unfold rint. rewrite (Zfloor_eq z x) by lra.
  destruct (Rlt_dec _ _) as [Hl|_]; [lra|].
  destruct (Rlt_dec _ _) as [|Hn]; [done|]. exfalso; apply Hn; lra.
Qed.

Lemma pow10_pos (d : Z) : 0 < powerRZ 10 d.
Proof. apply powerRZ_lt; lra. Qed.

(** Rounding to [d] decimals moves a value by at most half a unit of the
    last kept digit. *)
Lemma round_error (d : Z) (x : R) : Rabs (round d x - x) <= / 2 * powerRZ 10 (- d).
Proof.
  unfold round. pose proof (pow10_pos d) as Hp.
  pose proof (rint_error (x * powerRZ 10 d)) as He.
  rewrite powerRZ_neg' by lra.
  replace (IZR (rint (x * powerRZ 10 d)) / powerRZ 10 d - x)
    with ((IZR (rint (x * powerRZ 10 d)) - x * powerRZ 10 d) * / powerRZ 10 d)
    by (field; lra).
  rewrite Rabs_mult, (Rabs_pos_eq (/ _)) by (left; apply Rinv_0_lt_compat; done).
  apply (Rmult_le_compat_r (/ powerRZ 10 d)) in He; [lra|].
  left; apply Rinv_0_lt_compat; done.
Qed.

Lemma round_0 (x : R) : round 0 x = IZR (rint x).
Proof. unfold round. simpl. rewrite Rmult_1_r. field. Qed.

Lemma sum_app (a b : list R) : sum (a ++ b) = sum a + sum b.
Proof. unfold sum. induction a as [|x a IH]; simpl; [lra|]. rewrite IH. lra. Qed.

(** Two arrays of the same length that agree cell by cell up to [eps] have
    sums that agree up to [eps] per cell. *)
Lemma sum_close (eps : R) (a b : list R) :
  Forall2 (fun u v => Rabs (u - v) <= eps) a b ->
  Rabs (sum a - sum b) <= INR (length a) * eps.
Proof.
  induction 1 as [|u v a b Huv _ IH].
  - simpl. rewrite Rminus_diag, Rabs_R0. lra.
  - change (sum (u :: a)) with (u + sum a). change (sum (v :: b)) with (v + sum b).
    change (length (u :: a)) with (S (length a)). rewrite S_INR.
    replace (u + sum a - (v + sum b)) with ((u - v) + (sum a - sum b)) by lra.
    eapply Rle_trans; [apply Rabs_triang|]. lra.
Qed.

Lemma mean_close (eps : R) (a b : list R) :
  a <> [] ->
  Forall2 (fun u v => Rabs (u - v) <= eps) a b ->
  Rabs (mean a - mean b) <= eps.
Proof.
  intros Hne Hab. unfold mean.
  assert (length a = length b) as <- by (by eapply Forall2_length).
  assert (0 < INR (length a)) as Hn.
  { apply lt_0_INR. destruct a; [done|simpl; lia]. }
  replace (sum a / INR (length a) - sum b / INR (length a))
    with ((sum a - sum b) * / INR (length a)) by (field; lra).
  rewrite Rabs_mult, (Rabs_pos_eq (/ _)) by (left; apply Rinv_0_lt_compat; done).
  pose proof (sum_close eps a b Hab) as Hs.
  apply (Rmult_le_compat_r (/ INR (length a))) in Hs;
    [|left; apply Rinv_0_lt_compat; done].
  replace (INR (length a) * eps * / INR (length a)) with eps in Hs by (field; lra).
  done.
Qed.

End NumpyFacts.

(** A decidable statement about concrete strings or numbers, settled by
    running its decision procedure. *)
Ltac by_computation := refine (bool_decide_unpack _ _); vm_compute; exact I.

(** ** Python sequence facts *)

Section SequenceFacts.
Context {A : Type}.
Implicit Types (a : list A) (x : A).

Lemma from_end_1_snoc a x : from_end 1 (a ++ [x]) = Some x.
Proof.
  unfold from_end. rewrite length_app. simpl.
  destruct (decide _) as [_|Hn]; [|lia].
  by apply list_lookup_middle; lia.
Qed.

Lemma from_end_1_snoc2 a x x' : from_end 1 (a ++ [x; x']) = Some x'.
Proof.
  replace (a ++ [x; x']) with ((a ++ [x]) ++ [x']) by (by rewrite <- (assoc_L (++))).
  apply from_end_1_snoc.
Qed.

Lemma from_end_2_snoc2 a x x' : from_end 2 (a ++ [x; x']) = Some x.
Proof.
  unfold from_end. rewrite length_app. simpl.
  destruct (decide _) as [_|Hn]; [|lia].
  by apply list_lookup_middle; lia.
Qed.

Lemma pop_snoc a x : take (length (a ++ [x]) - 1) (a ++ [x]) = a.
Proof.
  rewrite length_app. simpl.
  replace (length a + 1 - 1) with (length a) by lia.
  by rewrite take_app_length.
Qed.

Lemma last_n_length n a : length (last_n n a) = n `min` length a.
Proof. unfold last_n. rewrite length_drop. lia. Qed.

End SequenceFacts.

(** ** KFold facts *)

Module KFoldFacts.
Import KFold.

Lemma length_chunks indices sizes : length (chunks indices sizes) = length sizes.
Proof. revert indices. induction sizes as [|s sizes IH]; intros; simpl; auto. Qed.

(** [KFold(n_splits).split] yields exactly [n_splits] folds. *)
Lemma length_split n_splits indices n_samples :
  length (split n_splits indices n_samples) = n_splits.
Proof.
  unfold split, fold_sizes.
  by rewrite length_fmap, length_chunks, length_fmap, length_seq.
Qed.

End KFoldFacts.

(** ** The cross-validation loop and the score grid *)

Section TrainerFacts.
Context `{Sklearn}.
Implicit Types (st : State) (model : Regressor) (scores : list Scores).

Lemma length_cv_loop data_X data_y t model splits :
  length (cv_loop data_X data_y t model splits).2 = length splits.
Proof.
  revert model. induction splits as [|[train_i test_i] splits IH]; intros; simpl; [done|].
  destruct (cv_loop _ _ _ _ splits) as [m rest] eqn:E. simpl.
  specialize (IH (fit model (Numpy.iloc data_X train_i) (Numpy.iloc data_y train_i))).
  rewrite E in IH. simpl in IH. by rewrite IH.
Qed.

(** Each fold's RMSE is entered as the square root of that fold's MSE. *)
Lemma cv_loop_rmse data_X data_y t model splits :
  Forall (fun s => rmse s = sqrt (mse s)) (cv_loop data_X data_y t model splits).2.
Proof.
  revert model. induction splits as [|[train_i test_i] splits IH]; intros; simpl; [done|].
  destruct (cv_loop _ _ _ _ splits) as [m rest] eqn:E. simpl.
  specialize (IH (fit model (Numpy.iloc data_X train_i) (Numpy.iloc data_y train_i))).
  rewrite E in IH. simpl in IH. by constructor.
Qed.

Lemma length_cross_validated st model fold :
  length (cross_validated st model fold).2 = Z.to_nat fold.
Proof.
  unfold cross_validated, splits_in.
  by rewrite length_cv_loop, KFoldFacts.length_split.
Qed.

Lemma length_model_results round scores :
  length (model_results round scores) = length scores + 2.
Proof.
  unfold model_results. rewrite length_fmap, length_app, length_imap. simpl. lia.
Qed.

Lemma model_results_fold_row round scores i s :
  scores !! i = Some s ->
  model_results round scores !! i = Some (Fold i, round_scores round s).
Proof.
  intros Hi. unfold model_results.
  rewrite list_lookup_fmap, lookup_app_l
    by (rewrite length_imap; by eapply lookup_lt_Some).
  by rewrite list_lookup_imap, Hi.
Qed.

Lemma model_results_mean_row round scores :
  model_results round scores !! length scores
  = Some (Mean, round_scores round (mean_scores scores)).
Proof.
  unfold model_results.
  rewrite list_lookup_fmap, lookup_app_r by (by rewrite length_imap).
  by rewrite length_imap, Nat.sub_diag.
Qed.

Lemma model_results_sd_row round scores :
  model_results round scores !! S (length scores)
  = Some (SD, round_scores round (std_scores scores)).
Proof.
  unfold model_results.
  rewrite list_lookup_fmap, lookup_app_r by (rewrite length_imap; lia).
  rewrite length_imap. by replace (S (length scores) - length scores) with 1 by lia.
Qed.

(** [i[compare_dimension][-2:][0]] on a recorded grid is the rounded mean
    of the fold values of that metric. *)
Lemma mean_cell_model_results d round scores :
  mean_cell d (model_results round scores)
  = Some (Numpy.round round (Numpy.mean (score_column d scores))).
Proof.
  unfold mean_cell, last_n, grid_column.
  rewrite length_fmap, length_model_results.
  replace (length scores + 2 - 2) with (length scores) by lia.
  rewrite <- fmap_drop. unfold model_results.
  rewrite <- fmap_drop, drop_app_length' by (by rewrite length_imap).
  simpl. by destruct d.
Qed.

End TrainerFacts.

(** ** What the operations do to the state *)

Section CallFacts.
Context `{Sklearn}.
Implicit Types (st : State) (model : Regressor).

Lemma same_experiment_refl st : same_experiment st st.
Proof. by repeat split. Qed.

Lemma same_experiment_trans st1 st2 st3 :
  same_experiment st1 st2 -> same_experiment st2 st3 -> same_experiment st1 st3.
Proof.
  unfold same_experiment. intros ? ?. destruct_and!.
  repeat split; congruence.
Qed.

Lemma same_experiment_stored grid model st : same_experiment st (stored grid model st).
Proof. by repeat split. Qed.

Lemma splits_in_same st st' kf : same_experiment st st' -> splits_in st' kf = splits_in st kf.
Proof.
  unfold same_experiment, splits_in. intros ?. destruct_and!.
  by repeat match goal with Heq : _ st' = _ st |- _ => rewrite Heq; clear Heq end.
Qed.

Lemma cross_validated_same st st' model fold :
  same_experiment st st' -> cross_validated st' model fold = cross_validated st model fold.
Proof.
  intros Hs. unfold cross_validated. rewrite (splits_in_same _ _ _ Hs).
  unfold same_experiment in Hs. destruct_and!.
  by repeat match goal with Heq : _ st' = _ st |- _ => rewrite Heq; clear Heq end.
Qed.

Lemma bind_returns {A B} (c : M A) (k : A -> M B) st a st' :
  c st = (Ok a, st') -> bind c k st = k a st'.
Proof. intros Hc. unfold bind. by rewrite Hc. Qed.

Lemma bind_exits {A B} (c : M A) (k : A -> M B) st message st' :
  c st = (SysExit message, st') -> bind c k st = (SysExit message, st').
Proof. intros Hc. unfold bind. by rewrite Hc. Qed.

Lemma bind_raises {A B} (c : M A) (k : A -> M B) st exception st' :
  c st = (Raise exception, st') -> bind c k st = (Raise exception, st').
Proof. intros Hc. unfold bind. by rewrite Hc. Qed.

(** A call that returns did so through both halves of a bind. *)
Lemma bind_Ok_inv {A B} (c : M A) (k : A -> M B) st b st2 :
  bind c k st = (Ok b, st2) ->
  exists a st1, c st = (Ok a, st1) /\ k a st1 = (Ok b, st2).
Proof.
  unfold bind. destruct (c st) as [[a| |] st1]; [eauto|done|done].
Qed.

Lemma pull_snoc st c t : display_container st = c ++ [t] -> pull st = (Ok t, st).
Proof.
  intros Hc. unfold pull, bind, get_state, need. simpl.
  by rewrite Hc, from_end_1_snoc.
Qed.

Lemma display_container_pop_snoc st c t :
  display_container st = c ++ [t] ->
  display_container_pop st = (Ok t, set_display_container (fun _ => c) st).
Proof.
  intros Hc. unfold display_container_pop, bind, get_state, need, modify, ret. simpl.
  rewrite Hc, from_end_1_snoc. simpl.
  unfold set_display_container. by rewrite Hc, pop_snoc.
Qed.

(** On the holdout set [predict_model] returns its frame and appends one
    row of metrics to [display_container]. *)
Lemma predict_model_holdout estimator round verbose st :
  let trained :=
    match estimator with
    | Pipeline _ trained_model => trained_model
    | Bare _ => estimator
    end in
  let pred_ :=
    inverse_transform (target_inverse_transformer st)
      (model_predict trained <$> X_test st) in
  let ytest := inverse_transform (target_inverse_transformer st) (y_test st) in
  predict_model estimator None round verbose st
  = (Ok (mkPredictions (X_test st) (Some ytest) (Numpy.round round <$> pred_)),
     set_display_container
       (fun c => c ++ [HoldoutTable (holdout_full_name (model_class_name trained),
                                     round_scores 4 (compute_metrics ytest pred_))])
       st).
Proof. done. Qed.

(** The holdout logging step leaves the state as it found it: the row
    [predict_model] appends is popped again. *)
Lemma log_holdout_returns model st : exists t, log_holdout model st = (Ok t, st).
Proof.
  unfold log_holdout.
  erewrite bind_returns by apply predict_model_holdout.
  erewrite bind_returns by (by eapply pull_snoc).
  erewrite bind_returns by (by eapply display_container_pop_snoc).
  unfold ret. eexists. f_equal. by destruct st.
Qed.

Lemma kf_split_returns st kf :
  kf <= length (X_train st) -> kf_split kf st = (Ok (splits_in st kf), st).
Proof.
  intros Hk. unfold kf_split, bind, get_state. simpl.
  destruct (decide _); [lia|done].
Qed.

Lemma kf_split_raises st kf :
  length (X_train st) < kf -> kf_split kf st = (Raise "ValueError", st).
Proof.
  intros Hk. unfold kf_split, bind, get_state. simpl.
  destruct (decide _); [done|lia].
Qed.

Lemma store_results_returns grid model st :
  store_results grid model st = (Ok tt, stored grid model st).
Proof. done. Qed.

(** *** create_model *)

Lemma supported_checks estimator ensemble method :
  supported estimator ensemble method ->
  match estimator with
  | ByTag tag => bool_decide (tag ∉ available_estimators)
  | ByObject _ => false
  end = false
  /\ negb ensemble && bool_decide (method <> None) = false
  /\ ensemble && bool_decide (method = None) = false
  /\ ensemble && negb (option_in method available_method) = false.
Proof.
  intros [Hest Hmeth]. split_and!.
  - destruct estimator; [|done]. by apply bool_decide_eq_false; intros ?.
  - destruct ensemble; [done|]. subst. by apply bool_decide_eq_false; intros ?.
  - destruct ensemble; [|done]. destruct method; [|done].
    by apply bool_decide_eq_false.
  - destruct ensemble; [|done]. simpl. by rewrite Hmeth.
Qed.

Lemma KFold_returns fold st : (2 <= fold)%Z -> KFold fold st = (Ok (Z.to_nat fold), st).
Proof. intros ?. unfold KFold. destruct (decide _); [lia|done]. Qed.

Lemma KFold_raises fold st : (fold <= 1)%Z -> KFold fold st = (Raise "ValueError", st).
Proof. intros ?. unfold KFold. destruct (decide _); [done|lia]. Qed.

(** With cross-validation on and arguments that pass the checks,
    [create_model] returns the refit of its recipe and its only effect on
    the state is the three appends. *)
Lemma create_model_trains estimator ensemble method fold round verbose system kwargs st :
  supported estimator ensemble method ->
  (2 <= fold)%Z ->
  Z.to_nat fold <= length (X_train st) ->
  let model := recipe st estimator method kwargs in
  create_model estimator ensemble method fold round true verbose system kwargs st
  = (Ok (trained_model st model fold),
     stored (trained_grid st model fold round) (trained_model st model fold) st).
Proof.
  intros Hsup Hfold Hn. simpl.
  destruct (supported_checks _ _ _ Hsup) as (H1 & H2 & H3 & H4).
  unfold create_model. rewrite H1, H2, H3, H4.
  do 4 (erewrite bind_returns by done).
  erewrite bind_returns by done.
  erewrite bind_returns by (by apply KFold_returns).
  change (negb true) with false. cbv beta iota.
  erewrite bind_returns by (by apply kf_split_returns).
  unfold trained_model, trained_grid, cross_validated, recipe.
  destruct (cv_loop _ _ _ _ _) as [m scores]. simpl.
  destruct (logging_param st && system).
  - destruct (log_holdout_returns (fit m (X_train st) (y_train st)) st) as [t Ht].
    erewrite bind_returns; [|by erewrite bind_returns by apply Ht].
    by erewrite bind_returns by apply store_results_returns.
  - erewrite bind_returns by done.
    by erewrite bind_returns by apply store_results_returns.
Qed.

(** With cross-validation off it fits once and leaves the state alone. *)
Lemma create_model_single_fit estimator ensemble method fold round verbose system kwargs st :
  supported estimator ensemble method ->
  (2 <= fold)%Z ->
  create_model estimator ensemble method fold round false verbose system kwargs st
  = (Ok (fit (recipe st estimator method kwargs) (X_train st) (y_train st)), st).
Proof.
  intros Hsup Hfold.
  destruct (supported_checks _ _ _ Hsup) as (H1 & H2 & H3 & H4).
  unfold create_model. rewrite H1, H2, H3, H4.
  do 4 (erewrite bind_returns by done).
  erewrite bind_returns by done.
  by erewrite bind_returns by (by apply KFold_returns).
Qed.

(** A call of [create_model] that returns passed every check. *)
Lemma create_model_Ok_inv estimator ensemble method fold round cv verbose system kwargs
    st model st' :
  create_model estimator ensemble method fold round cv verbose system kwargs st
  = (Ok model, st') ->
  supported estimator ensemble method /\ (2 <= fold)%Z
  /\ (cv = true -> Z.to_nat fold <= length (X_train st)).
Proof.
  unfold create_model. intros Hrun.
  apply bind_Ok_inv in Hrun as (u1 & st1 & Hc1 & Hrun).
  apply bind_Ok_inv in Hrun as (u2 & st2 & Hc2 & Hrun).
  apply bind_Ok_inv in Hrun as (u3 & st3 & Hc3 & Hrun).
  apply bind_Ok_inv in Hrun as (u4 & st4 & Hc4 & Hrun).
  apply bind_Ok_inv in Hrun as (? & st5 & Hc5 & Hrun).
  apply bind_Ok_inv in Hrun as (kf & st6 & Hc6 & Hrun).
  unfold exit_if in Hc1, Hc2, Hc3, Hc4.
  destruct (match estimator with ByTag _ => _ | ByObject _ => _ end) eqn:E1; [done|].
  destruct (negb ensemble && _) eqn:E2; [done|].
  destruct (ensemble && bool_decide _) eqn:E3; [done|].
  destruct (ensemble && negb _) eqn:E4; [done|].
  unfold KFold in Hc6. destruct (decide (fold <= 1)%Z); [done|].
  unfold ret, get_state in *. simplify_eq.
  split_and!.
  - split.
    + destruct estimator; [|done]. apply bool_decide_eq_false in E1.
      by apply dec_stable.
    + destruct ensemble; simpl in *.
      * by apply negb_false_iff in E4.
      * apply bool_decide_eq_false in E2. by apply dec_stable.
  - lia.
  - intros ->. simpl in Hrun.
    apply bind_Ok_inv in Hrun as (splits & st7 & Hc7 & _).
    unfold kf_split, bind, get_state in Hc7. simpl in Hc7.
    destruct (decide _); [done|lia].
Qed.

End CallFacts.

(** ** Rows of a recorded score grid *)

Section GridFacts.
Context `{Sklearn}.
Implicit Types (st : State) (model : Regressor) (scores : list Scores).
Local Open Scope R_scope.

Lemma model_results_labels round scores :
  (model_results round scores).*1 = (Fold <$> seq 0 (length scores)) ++ [Mean; SD].
Proof.
  unfold model_results. rewrite <- list_fmap_compose, fmap_app. simpl. f_equal.
  apply list_eq. intros i.
  rewrite !list_lookup_fmap, list_lookup_imap.
  destruct (scores !! i) as [s|] eqn:Hi; simpl.
  - apply lookup_lt_Some in Hi. by rewrite lookup_seq_lt.
  - apply lookup_ge_None in Hi. by rewrite lookup_seq_ge.
Qed.

(** The fold cells of a column of the recorded grid are the rounded fold
    values. *)
Lemma take_grid_column d round scores :
  take (length scores) (grid_column d (model_results round scores))
  = (fun s => Numpy.round round (cell d s)) <$> scores.
Proof.
  unfold grid_column, model_results.
  rewrite <- list_fmap_compose, fmap_app, take_app_length' by (by rewrite length_fmap, length_imap).
  apply list_eq. intros i.
  rewrite !list_lookup_fmap, list_lookup_imap.
  destruct (scores !! i) as [s|]; simpl; [|done]. by destruct d.
Qed.

Lemma round_close round (a : list R) :
  Forall2 (fun u v => Rabs (u - v) <= / 2 * powerRZ 10 (- round))
    a (Numpy.round round <$> a).
Proof.
  induction a as [|x a IH]; constructor; [|done].
  rewrite Rabs_minus_sym. apply NumpyFacts.round_error.
Qed.

(** The rounded mean of a column and the mean of its rounded cells differ
    by at most one unit of the last kept digit. *)
Lemma mean_of_rounded round (a : list R) :
  a <> [] ->
  Rabs (Numpy.round round (Numpy.mean a) - Numpy.mean (Numpy.round round <$> a))
  <= powerRZ 10 (- round).
Proof.
  intros Hne.
  pose proof (NumpyFacts.round_error round (Numpy.mean a)) as H1.
  pose proof (NumpyFacts.mean_close _ _ _ Hne (round_close round a)) as H2.
  pose proof (NumpyFacts.pow10_pos (- round)) as Hp.
  replace (Numpy.round round (Numpy.mean a) - Numpy.mean (Numpy.round round <$> a))
    with ((Numpy.round round (Numpy.mean a) - Numpy.mean a)
          + (Numpy.mean a - Numpy.mean (Numpy.round round <$> a))) by lra.
  eapply Rle_trans; [apply Rabs_triang|]. lra.
Qed.

Lemma stored_create_model_container grid model st :
  create_model_container (stored grid model st) = create_model_container st ++ [grid].
Proof. done. Qed.

Lemma stored_master_model_container grid model st :
  master_model_container (stored grid model st) = master_model_container st ++ [model].
Proof. done. Qed.

Lemma stored_display_container grid model st :
  display_container (stored grid model st) = display_container st ++ [GridTable grid].
Proof. done. Qed.

End GridFacts.

(** ** Selection of the best recorded score *)

Section SelectionFacts.
Local Open Scope R_scope.
Implicit Types (l scorer : list R) (best v : R).

(** The champion kept by [max] is an element no other element exceeds. *)
Lemma foldl_max_spec l x :
  let best := foldl (fun best v => if Rlt_dec best v then v else best) x l in
  best ∈ x :: l /\ forall v, v ∈ x :: l -> v <= best.
Proof.
  revert x. induction l as [|w l IH]; intros x; simpl.
  - split; [left|]. intros v Hv. apply list_elem_of_singleton in Hv. subst. lra.
  - destruct (IH (if Rlt_dec x w then w else x)) as [Hin Hmax]. simpl in *.
    split.
    + apply elem_of_cons in Hin as [->|Hin].
      * destruct (Rlt_dec x w); [right; left|left].
      * right; by right.
    + intros v Hv.
      assert (x <= foldl (fun best v => if Rlt_dec best v then v else best)
                     (if Rlt_dec x w then w else x) l
              /\ w <= foldl (fun best v => if Rlt_dec best v then v else best)
                        (if Rlt_dec x w then w else x) l) as [Hx Hw].
      { pose proof (Hmax (if Rlt_dec x w then w else x) ltac:(left)) as Hc.
        destruct (Rlt_dec x w); lra. }
      apply elem_of_cons in Hv as [->|Hv]; [done|].
      apply elem_of_cons in Hv as [->|Hv]; [done|].
      apply Hmax. by right.
Qed.

Lemma foldl_min_spec l x :
  let best := foldl (fun best v => if Rlt_dec v best then v else best) x l in
  best ∈ x :: l /\ forall v, v ∈ x :: l -> best <= v.
Proof.
  revert x. induction l as [|w l IH]; intros x; simpl.
  - split; [left|]. intros v Hv. apply list_elem_of_singleton in Hv. subst. lra.
  - destruct (IH (if Rlt_dec w x then w else x)) as [Hin Hmin]. simpl in *.
    split.
    + apply elem_of_cons in Hin as [->|Hin].
      * destruct (Rlt_dec w x); [right; left|left].
      * right; by right.
    + intros v Hv.
      assert (foldl (fun best v => if Rlt_dec v best then v else best)
                (if Rlt_dec w x then w else x) l <= x
              /\ foldl (fun best v => if Rlt_dec v best then v else best)
                   (if Rlt_dec w x then w else x) l <= w) as [Hx Hw].
      { pose proof (Hmin (if Rlt_dec w x then w else x) ltac:(left)) as Hc.
        destruct (Rlt_dec w x); lra. }
      apply elem_of_cons in Hv as [->|Hv]; [done|].
      apply elem_of_cons in Hv as [->|Hv]; [done|].
      apply Hmin. by right.
Qed.

Lemma py_max_spec l best :
  py_max l = Some best -> best ∈ l /\ forall v, v ∈ l -> v <= best.
Proof. destruct l as [|x l]; [done|]. intros [= <-]. apply foldl_max_spec. Qed.

Lemma py_min_spec l best :
  py_min l = Some best -> best ∈ l /\ forall v, v ∈ l -> best <= v.
Proof. destruct l as [|x l]; [done|]. intros [= <-]. apply foldl_min_spec. Qed.

Lemma py_max_non_empty l : l <> [] -> is_Some (py_max l).
Proof. destruct l; [done|]. by eexists. Qed.

Lemma py_min_non_empty l : l <> [] -> is_Some (py_min l).
Proof. destruct l; [done|]. by eexists. Qed.

(** [l.index(x)] is the first position holding [x]. *)
Lemma list_index_spec l x i :
  list_index x l = Some i ->
  l !! i = Some x /\ forall j v, (j < i)%nat -> l !! j = Some v -> v <> x.
Proof.
  revert i. induction l as [|w l IH]; intros i; simpl; [done|].
  destruct (Req_dec_T w x) as [->|Hne].
  - intros [= <-]. split; [done|]. intros; lia.
  - destruct (list_index x l) as [i'|]; [|done]. intros [= <-].
    destruct (IH i' eq_refl) as [Hi Hfirst]. split; [done|].
    intros [|j] v Hj Hv; simpl in *; [by simplify_eq|].
    eapply Hfirst; [|done]. lia.
Qed.

Lemma list_index_elem_of l x : x ∈ l -> is_Some (list_index x l).
Proof.
  induction l as [|w l IH]; intros Hin; [by apply elem_of_nil in Hin|]. simpl.
  destruct (Req_dec_T w x); [by eexists|].
  apply elem_of_cons in Hin as [->|Hin]; [done|].
  destruct (IH Hin) as [i ->]. by eexists.
Qed.

(** The selected position holds a best score, and is the first to do so. *)
Lemma index_scorer_spec d scorer i :
  index_scorer d scorer = Some i ->
  exists best,
    scorer !! i = Some best
    /\ (forall v, v ∈ scorer -> if decide (d = R2) then v <= best else best <= v)
    /\ (forall j v, (j < i)%nat -> scorer !! j = Some v -> v <> best).
Proof.
  unfold index_scorer. intros Hi.
  destruct (if decide (d = R2) then py_max scorer else py_min scorer) as [best|] eqn:Hb;
    [|done].
  simpl in Hi. apply list_index_spec in Hi as [Hi Hfirst].
  exists best. split; [done|]. split; [|done].
  destruct (decide (d = R2)).
  - by apply py_max_spec.
  - by apply py_min_spec.
Qed.

Lemma index_scorer_non_empty d scorer :
  scorer <> [] -> exists i, index_scorer d scorer = Some i /\ (i < length scorer)%nat.
Proof.
  intros Hne. unfold index_scorer.
  assert (exists best, (if decide (d = R2) then py_max scorer else py_min scorer) = Some best
                       /\ best ∈ scorer) as (best & -> & Hin).
  { destruct (decide (d = R2)).
    - destruct (py_max_non_empty _ Hne) as [best Hb]. exists best. split; [done|].
      by apply py_max_spec.
    - destruct (py_min_non_empty _ Hne) as [best Hb]. exists best. split; [done|].
      by apply py_min_spec. }
  simpl. destruct (list_index_elem_of _ _ Hin) as [i Hi]. exists i. split; [done|].
  apply list_index_spec in Hi as [Hi _]. by eapply lookup_lt_Some.
Qed.

End SelectionFacts.

(** ** finalize_model and automl *)

Section AutomlFacts.
Context `{Sklearn}.
Implicit Types (st : State) (model : Regressor).

Lemma recipe_object st e : recipe st (ByObject e) None no_kwargs = e.
Proof. done. Qed.

Lemma supported_object e : supported (ByObject e) false None.
Proof. done. Qed.

(** [finalize_model] returns a clone fitted on the whole dataset; on the
    way it runs [create_model] on the estimator with the default ten folds,
    which records one more grid and model. *)
Lemma finalize_model_returns estimator st :
  10 <= length (X_train st) ->
  finalize_model estimator st
  = (Ok (fit (clone estimator) (X st) (y st)),
     stored (trained_grid st estimator 10 4) (trained_model st estimator 10) st).
Proof.
  intros Hn. unfold finalize_model.
  erewrite bind_returns by done.
  erewrite bind_returns.
  2:{ apply create_model_trains; [done|lia|]. by rewrite Z2Nat.inj_pos. }
  rewrite recipe_object.
  by erewrite bind_returns by (by eapply pull_snoc).
Qed.



End AutomlFacts.

(** ** ensemble_model and tune_model *)

Section ChooseBetterFacts.
Context `{Sklearn}.
Implicit Types (st : State) (model : Regressor).

Lemma from_end_2_snoc_snoc {A} (a : list A) x x' : from_end 2 ((a ++ [x]) ++ [x']) = Some x.
Proof. rewrite <- (assoc_L (++)). apply from_end_2_snoc2. Qed.

Lemma recorded_mean_returns n d st grid v :
  from_end n (create_model_container st) = Some grid ->
  mean_cell d grid = Some v ->
  recorded_mean n (Some d) st = (Ok v, st).
Proof.
  intros Hg Hv. unfold recorded_mean.
  erewrite bind_returns by done.
  erewrite bind_returns by (by rewrite Hg).
  erewrite bind_returns by done.
  by rewrite Hv.
Qed.

Lemma recorded_mean_Ok_inv n dim st v st' :
  recorded_mean n dim st = (Ok v, st') -> exists d, dim = Some d.
Proof.
  unfold recorded_mean. intros Hrun.
  apply bind_Ok_inv in Hrun as (? & ? & _ & Hrun).
  apply bind_Ok_inv in Hrun as (? & ? & _ & Hrun).
  apply bind_Ok_inv in Hrun as (d & ? & Hd & _).
  destruct dim; [by eexists|done].
Qed.

(** The comparison step shared by the two operations: score the base
    model with [create_model], read both recorded Means, keep the better
    model and pop the base model's grid from the display history. *)
Lemma compare_with_base d base base_recipe system round grid scores candidate st :
  supported base false None ->
  recipe st base None no_kwargs = base_recipe ->
  10 <= length (X_train st) ->
  grid = model_results round scores ->
  let st1 := stored grid candidate st in
  let base_model := trained_model st base_recipe 10 in
  let base_scores := (cross_validated st base_recipe 10).2 in
  bind (create_model base false None 10 4 true false system no_kwargs)
    (fun base_model =>
       bind (recorded_mean 1 (Some d))
         (fun base_model_results =>
            bind (recorded_mean 2 (Some d))
              (fun candidate_results =>
                 bind (need "UnboundLocalError" (Some d))
                   (fun d =>
                      bind display_container_pop
                        (fun _ =>
                           ret (choose_better_model d candidate_results
                                  base_model_results candidate base_model))))))
    st1
  = (Ok (choose_better_model d (recorded_score d round scores)
           (recorded_score d 4 base_scores) candidate base_model),
     compared grid candidate (model_results 4 base_scores) base_model st).
Proof.
  intros Hsup Hrecipe Hn -> st1 base_model base_scores.
  erewrite bind_returns.
  2:{ apply (create_model_trains base false None 10 4 false system no_kwargs st1);
      [done|lia|]. by rewrite Z2Nat.inj_pos. }
  change (recipe st1 base None no_kwargs) with (recipe st base None no_kwargs).
  rewrite Hrecipe.
  change (trained_model st1 base_recipe 10) with base_model.
  change (trained_grid st1 base_recipe 10 4) with (model_results 4 base_scores).
  erewrite bind_returns.
  2:{ eapply recorded_mean_returns; [apply from_end_1_snoc|].
      apply mean_cell_model_results. }
  erewrite bind_returns.
  2:{ eapply recorded_mean_returns; [apply from_end_2_snoc_snoc|].
      apply mean_cell_model_results. }
  erewrite bind_returns by done.
  erewrite bind_returns.
  2:{ by eapply (display_container_pop_snoc _ (display_container st ++ [GridTable _])). }
  done.
Qed.

(** The holdout logging that ends both operations changes nothing. *)
Lemma final_logging (logging : bool) model st :
  bind (if logging then bind (log_holdout model) (fun _ => ret tt) else ret tt)
    (fun _ => ret model) st
  = (Ok model, st).
Proof.
  destruct logging; [|done].
  destruct (log_holdout_returns model st) as [t Ht].
  erewrite bind_returns; [done|]. by erewrite bind_returns by apply Ht.
Qed.

Lemma ensemble_model_plain estimator method fold n_estimators round optimize verbose st :
  method ∈ available_method ->
  (2 <= fold)%Z ->
  Z.to_nat fold <= length (X_train st) ->
  let model := wrapped st estimator method n_estimators in
  ensemble_model estimator method fold n_estimators round false optimize verbose st
  = (Ok (trained_model st model fold),
     stored (trained_grid st model fold round) (trained_model st model fold) st).
Proof.
  intros Hm Hfold Hn. cbv zeta. unfold ensemble_model.
  rewrite bool_decide_eq_false_2 by (by intros ?).
  erewrite bind_returns by done.
  erewrite bind_returns by done.
  erewrite bind_returns by (by apply KFold_returns).
  erewrite bind_returns by (by apply kf_split_returns).
  unfold trained_model, trained_grid, cross_validated, wrapped.
  destruct (cv_loop _ _ _ _ _) as [m scores]. cbn [fst snd].
  erewrite bind_returns by apply store_results_returns.
  erewrite bind_returns by done.
  apply final_logging.
Qed.

Lemma ensemble_model_chooses estimator method fold n_estimators round optimize d verbose st :
  method ∈ available_method ->
  (2 <= fold)%Z ->
  Z.to_nat fold <= length (X_train st) ->
  10 <= length (X_train st) ->
  compare_dimension_of optimize = Some d ->
  let model := wrapped st estimator method n_estimators in
  let scores := (cross_validated st model fold).2 in
  let base_scores := (cross_validated st estimator 10).2 in
  ensemble_model estimator method fold n_estimators round true optimize verbose st
  = (Ok (choose_better_model d (recorded_score d round scores)
           (recorded_score d 4 base_scores)
           (trained_model st model fold) (trained_model st estimator 10)),
     compared (model_results round scores) (trained_model st model fold)
       (model_results 4 base_scores) (trained_model st estimator 10) st).
Proof.
  intros Hm Hfold Hn Hn10 Hd. cbv zeta.
  pose proof (compare_with_base d (ByObject estimator) estimator true) as Hbase.
  cbv zeta in Hbase.
  set (base_scores := (cross_validated st estimator 10).2) in *.
  set (base_model := trained_model st estimator 10) in *.
  unfold ensemble_model.
  rewrite bool_decide_eq_false_2 by (by intros ?).
  erewrite bind_returns by done.
  erewrite bind_returns by done.
  erewrite bind_returns by (by apply KFold_returns).
  erewrite bind_returns by (by apply kf_split_returns).
  unfold trained_model, cross_validated, wrapped.
  destruct (cv_loop _ _ _ _ _) as [m scores]. cbn [fst snd].
  erewrite bind_returns by apply store_results_returns.
  rewrite Hd.
  erewrite bind_returns by (by apply Hbase).
  apply final_logging.
Qed.

Lemma dict_get_Some_elem_of {V} (d : list (string * V)) key v :
  dict_get d key = Some v -> (key, v) ∈ d.
Proof.
  induction d as [|[k w] d IH]; simpl; [done|].
  destruct (decide (key = k)) as [->|]; [intros [= ->]; left|right; auto].
Qed.

(** Every tag [tune_model] can derive is a catalog tag or ['Bagging']. *)
Lemma tuned_tag_catalog estimator tag :
  tuned_tag estimator = Some tag -> tag = "Bagging" \/ tag ∈ available_estimators.
Proof.
  unfold tuned_tag. intros Hg. apply dict_get_Some_elem_of in Hg.
  assert (Forall (fun entry => entry.2 = "Bagging" \/ entry.2 ∈ available_estimators)
            tune_model_dict) as Hall by by_computation.
  rewrite list.Forall_forall in Hall. by apply (Hall _ Hg).
Qed.

Lemma tuned_base_supported estimator tag :
  tuned_tag estimator = Some tag -> supported (tuned_base tag estimator) false None.
Proof.
  intros Htag. unfold tuned_base. case_bool_decide as Hc; [done|].
  split; [|done]. simpl.
  destruct (tuned_tag_catalog _ _ Htag) as [->|?]; [|done].
  exfalso. apply Hc. by left.
Qed.

Lemma allowed_optimize_dimension optimize :
  optimize ∈ allowed_optimize -> exists d, compare_dimension_of optimize = Some d.
Proof.
  unfold allowed_optimize. intros Hin.
  repeat (apply elem_of_cons in Hin as [->|Hin]; [by eexists|]).
  by apply elem_of_nil in Hin.
Qed.

(** The two ways [tune_model] calls [create_model] for the base model
    differ in the estimator argument and in the logging flag only. *)
Lemma tune_model_base_call tag estimator st :
  (if bool_decide (Some tag = Some "Bagging" \/ Some tag = Some "ada")
   then create_model (ByObject estimator) false None 10 4 true false false no_kwargs
   else bind (need "AttributeError" (Some tag))
          (fun tag => create_model (ByTag tag) false None 10 4 true false true no_kwargs)) st
  = create_model (tuned_base tag estimator) false None 10 4 true false
      (negb (bool_decide (Some tag = Some "Bagging" \/ Some tag = Some "ada")))
      no_kwargs st.
Proof. unfold tuned_base. by case_bool_decide. Qed.

Lemma tune_model_plain estimator tag fold round n_iter custom_grid optimize verbose st :
  optimize ∈ allowed_optimize ->
  tuned_tag estimator = Some tag ->
  (2 <= fold)%Z ->
  Z.to_nat fold <= length (X_train st) ->
  let model := searched st tag estimator custom_grid optimize n_iter in
  tune_model (ByObject estimator) fold round n_iter custom_grid optimize false verbose st
  = (Ok (trained_model st model fold),
     stored (trained_grid st model fold round) (trained_model st model fold) st).
Proof.
  intros Hopt Htag Hfold Hn. cbv zeta. unfold tune_model.
  rewrite bool_decide_eq_false_2 by (by intros ?).
  erewrite bind_returns by done.
  erewrite bind_returns by done.
  erewrite bind_returns by (by apply KFold_returns).
  erewrite bind_returns by (by apply kf_split_returns).
  fold (tuned_tag estimator). rewrite Htag.
  erewrite bind_returns by done.
  unfold trained_model, trained_grid, cross_validated, searched.
  destruct (cv_loop _ _ _ _ _) as [m scores]. cbn [fst snd].
  erewrite bind_returns by apply store_results_returns.
  erewrite bind_returns by done.
  apply final_logging.
Qed.

Lemma tune_model_chooses estimator tag fold round n_iter custom_grid optimize d verbose st :
  compare_dimension_of optimize = Some d ->
  optimize ∈ allowed_optimize ->
  tuned_tag estimator = Some tag ->
  (2 <= fold)%Z ->
  Z.to_nat fold <= length (X_train st) ->
  10 <= length (X_train st) ->
  let model := searched st tag estimator custom_grid optimize n_iter in
  let scores := (cross_validated st model fold).2 in
  let base_recipe := recipe st (tuned_base tag estimator) None no_kwargs in
  let base_scores := (cross_validated st base_recipe 10).2 in
  tune_model (ByObject estimator) fold round n_iter custom_grid optimize true verbose st
  = (Ok (choose_better_model d (recorded_score d round scores)
           (recorded_score d 4 base_scores)
           (trained_model st model fold) (trained_model st base_recipe 10)),
     compared (model_results round scores) (trained_model st model fold)
       (model_results 4 base_scores) (trained_model st base_recipe 10) st).
Proof.
  intros Hd Hopt Htag Hfold Hn Hn10. cbv zeta.
  pose proof (fun system round grid scores candidate =>
                compare_with_base d (tuned_base tag estimator) _
                  system round grid scores candidate st
                  (tuned_base_supported _ _ Htag) eq_refl Hn10) as Hbase.
  cbv zeta in Hbase.
  set (base_recipe := recipe st (tuned_base tag estimator) None no_kwargs) in *.
  set (base_scores := (cross_validated st base_recipe 10).2) in *.
  set (base_model := trained_model st base_recipe 10) in *.
  unfold tune_model.
  rewrite bool_decide_eq_false_2 by (by intros ?).
  erewrite bind_returns by done.
  erewrite bind_returns by done.
  erewrite bind_returns by (by apply KFold_returns).
  erewrite bind_returns by (by apply kf_split_returns).
  fold (tuned_tag estimator). rewrite Htag.
  erewrite bind_returns by done.
  unfold trained_model, cross_validated, searched.
  destruct (cv_loop _ _ _ _ _) as [m scores]. cbn [fst snd].
  erewrite bind_returns by apply store_results_returns.
  rewrite Hd.
  erewrite bind_returns.
  2:{ unfold bind at 1. rewrite tune_model_base_call. by apply Hbase. }
  apply final_logging.
Qed.

(** A call of [ensemble_model] that returns passed every check, had folds
    to split, and for a choose-better comparison could score the base
    model on the ten default folds. *)
Lemma ensemble_model_Ok_inv estimator method fold n_estimators round choose_better
    optimize verbose st model st' :
  ensemble_model estimator method fold n_estimators round choose_better optimize verbose st
  = (Ok model, st') ->
  method ∈ available_method /\ (2 <= fold)%Z /\ Z.to_nat fold <= length (X_train st)
  /\ (choose_better = true ->
      10 <= length (X_train st) /\ exists d, compare_dimension_of optimize = Some d).
Proof.
  unfold ensemble_model. intros Hrun.
  apply bind_Ok_inv in Hrun as (u1 & st1 & Hc1 & Hrun).
  apply bind_Ok_inv in Hrun as (s2 & st2 & Hc2 & Hrun).
  apply bind_Ok_inv in Hrun as (kf & st3 & Hc3 & Hrun).
  apply bind_Ok_inv in Hrun as (splits & st4 & Hc4 & Hrun).
  unfold exit_if, sys_exit in Hc1. case_bool_decide as Hm; [done|].
  unfold KFold in Hc3. destruct (decide (fold <= 1)%Z); [done|].
  unfold ret, get_state in *. simplify_eq.
  unfold kf_split, bind, get_state in Hc4. cbn beta iota in Hc4.
  destruct (decide (length (X_train _) < Z.to_nat fold)); [done|].
  unfold ret in Hc4. simplify_eq.
  split; [done|]. split; [lia|]. split; [lia|].
  intros ->.
  destruct (cv_loop _ _ _ _ _) as [m scores].
  apply bind_Ok_inv in Hrun as (u5 & st5 & Hc5 & Hrun).
  rewrite store_results_returns in Hc5. simplify_eq.
  apply bind_Ok_inv in Hrun as (best & st6 & Hc6 & _).
  apply bind_Ok_inv in Hc6 as (base & st7 & Hc7 & Hc6).
  apply create_model_Ok_inv in Hc7 as (_ & _ & Hn10).
  apply bind_Ok_inv in Hc6 as (b & st8 & Hc8 & _).
  apply recorded_mean_Ok_inv in Hc8.
  split; [|done]. specialize (Hn10 eq_refl). by rewrite Z2Nat.inj_pos in Hn10.
Qed.

Lemma tune_model_Ok_inv estimator fold round n_iter custom_grid optimize choose_better
    verbose st model st' :
  tune_model estimator fold round n_iter custom_grid optimize choose_better verbose st
  = (Ok model, st') ->
  exists e tag,
    estimator = ByObject e /\ optimize ∈ allowed_optimize /\ tuned_tag e = Some tag
    /\ (2 <= fold)%Z /\ Z.to_nat fold <= length (X_train st)
    /\ (choose_better = true -> 10 <= length (X_train st)).
Proof.
  unfold tune_model. intros Hrun. destruct estimator as [?|e]; [done|].
  apply bind_Ok_inv in Hrun as (u1 & st1 & Hc1 & Hrun).
  apply bind_Ok_inv in Hrun as (s2 & st2 & Hc2 & Hrun).
  apply bind_Ok_inv in Hrun as (kf & st3 & Hc3 & Hrun).
  apply bind_Ok_inv in Hrun as (splits & st4 & Hc4 & Hrun).
  apply bind_Ok_inv in Hrun as (m0 & st5 & Hc5 & Hrun).
  unfold exit_if, sys_exit in Hc1.
  destruct (bool_decide (optimize ∉ allowed_optimize)) eqn:Hm; [done|].
  apply bool_decide_eq_false in Hm. apply dec_stable in Hm.
  unfold KFold in Hc3. destruct (decide (fold <= 1)%Z); [done|].
  unfold ret, get_state in *. simplify_eq.
  unfold kf_split, bind, get_state in Hc4. cbn beta iota in Hc4.
  destruct (decide (length (X_train _) < Z.to_nat fold)); [done|].
  unfold ret in Hc4. simplify_eq.
  fold (tuned_tag e) in Hc5, Hrun.
  destruct (tuned_tag e) as [tag|] eqn:Htag; [|done].
  cbn in Hc5. unfold ret in Hc5. simplify_eq.
  exists e, tag. split; [done|]. split; [done|]. split; [done|].
  split; [lia|]. split; [lia|].
  intros ->.
  destruct (cv_loop _ _ _ _ _) as [m scores].
  apply bind_Ok_inv in Hrun as (u6 & st6 & Hc6 & Hrun).
  rewrite store_results_returns in Hc6. simplify_eq.
  apply bind_Ok_inv in Hrun as (best & st7 & Hc7 & _).
  apply bind_Ok_inv in Hc7 as (base & st8 & Hc8 & _).
  rewrite tune_model_base_call in Hc8.
  apply create_model_Ok_inv in Hc8 as (_ & _ & Hn10).
  specialize (Hn10 eq_refl). by rewrite Z2Nat.inj_pos in Hn10.
Qed.

Lemma Ok_pair_inv {A} (a a' : A) st st' : (Ok a, st) = (Ok a', st') -> a' = a /\ st' = st.
Proof. intros Heq. by injection Heq as -> ->. Qed.

(** What a returning call with a choose-better comparison leaves: the
    candidate's and the base model's fold scores decide the model returned,
    and both are recorded. *)
Lemma tune_model_compared estimator fold round n_iter custom_grid optimize verbose st
    returned st' :
  tune_model estimator fold round n_iter custom_grid optimize true verbose st
  = (Ok returned, st') ->
  exists d scores base_scores candidate base_model,
    compare_dimension_of optimize = Some d
    /\ returned = choose_better_model d (recorded_score d round scores)
                    (recorded_score d 4 base_scores) candidate base_model
    /\ st' = compared (model_results round scores) candidate
               (model_results 4 base_scores) base_model st.
Proof.
  intros Hrun. apply tune_model_Ok_inv in Hrun as Hpre.
  destruct Hpre as (e & tag & -> & Hopt & Htag & Hfold & Hn & Hn10).
  destruct (allowed_optimize_dimension _ Hopt) as [d Hd].
  pose proof (tune_model_chooses e tag fold round n_iter custom_grid optimize d verbose st
                Hd Hopt Htag Hfold Hn (Hn10 eq_refl)) as Heq.
  cbv zeta in Heq.
  pose proof (Ok_pair_inv _ _ _ _ (eq_trans (eq_sym Heq) Hrun)) as [Hr Hs].
  exists d. eexists _, _, _, _. split; [exact Hd|]. split; [exact Hr|exact Hs].
Qed.

Lemma ensemble_model_compared estimator method fold n_estimators round optimize verbose st
    returned st' :
  ensemble_model estimator method fold n_estimators round true optimize verbose st
  = (Ok returned, st') ->
  exists d scores base_scores candidate base_model,
    compare_dimension_of optimize = Some d
    /\ returned = choose_better_model d (recorded_score d round scores)
                    (recorded_score d 4 base_scores) candidate base_model
    /\ st' = compared (model_results round scores) candidate
               (model_results 4 base_scores) base_model st.
Proof.
  intros Hrun. apply ensemble_model_Ok_inv in Hrun as Hpre.
  destruct Hpre as (Hm & Hfold & Hn & Hcb).
  destruct (Hcb eq_refl) as (Hn10 & d & Hd).
  pose proof (ensemble_model_chooses estimator method fold n_estimators round optimize d
                verbose st Hm Hfold Hn Hn10 Hd) as Heq.
  cbv zeta in Heq.
  pose proof (Ok_pair_inv _ _ _ _ (eq_trans (eq_sym Heq) Hrun)) as [Hr Hs].
  exists d. eexists _, _, _, _. split; [exact Hd|]. split; [exact Hr|exact Hs].
Qed.

Lemma compared_create_model_container grid candidate base_grid base_model st :
  create_model_container (compared grid candidate base_grid base_model st)
  = create_model_container st ++ [grid; base_grid].
Proof. unfold compared, stored. simpl. by rewrite <- (assoc_L (++)). Qed.

Lemma compared_master_model_container grid candidate base_grid base_model st :
  master_model_container (compared grid candidate base_grid base_model st)
  = master_model_container st ++ [candidate; base_model].
Proof. unfold compared, stored. simpl. by rewrite <- (assoc_L (++)). Qed.

Lemma compared_display_container grid candidate base_grid base_model st :
  display_container (compared grid candidate base_grid base_model st)
  = display_container st ++ [GridTable grid].
Proof. done. Qed.

Lemma same_experiment_compared grid candidate base_grid base_model st :
  same_experiment st (compared grid candidate base_grid base_model st).
Proof. by repeat split. Qed.

(** The comparison keeps the candidate exactly when it is strictly better. *)
Lemma choose_better_model_spec d score base_score candidate base_model :
  (strictly_better d score base_score
   /\ choose_better_model d score base_score candidate base_model = candidate)
  \/ (~ strictly_better d score base_score
      /\ choose_better_model d score base_score candidate base_model = base_model).
Proof.
  unfold strictly_better, choose_better_model, Rgt.
  destruct (decide (d = R2)); destruct (Rgt_dec _ _) || destruct (Rlt_dec _ _); auto.
Qed.

End ChooseBetterFacts.

(** ** compare_models *)

Section CompareFacts.
Context `{Sklearn}.
Implicit Types (st : State) (df : list (string * Scores)).
Local Open Scope R_scope.

Lemma ranked_before_trans d : Transitive (ranked_before d).
Proof.
  intros r1 r2 r3. unfold ranked_before. destruct (decide (d = R2)); lra.
Qed.

(** [sort_values] orders by [d] in the direction [compare_models] asks for. *)
Lemma insert_row_in_order d row sorted :
  StronglySorted (ranked_before d) sorted ->
  StronglySorted (ranked_before d)
    (insert_row d (negb (bool_decide (d = R2))) row sorted).
Proof.
  induction 1 as [|r sorted Hs IH Hr]; simpl.
  - by repeat constructor.
  - assert ((if negb (bool_decide (d = R2))
             then Rltb (cell d r.2) (cell d row.2)
             else Rltb (cell d row.2) (cell d r.2)) = true -> ranked_before d r row) as Hlt.
    { unfold ranked_before, Rltb. case_bool_decide; simpl.
      - rewrite decide_True by done. destruct (Rlt_dec _ _); [lra|done].
      - rewrite decide_False by done. destruct (Rlt_dec _ _); [lra|done]. }
    assert ((if negb (bool_decide (d = R2))
             then Rltb (cell d r.2) (cell d row.2)
             else Rltb (cell d row.2) (cell d r.2)) = false -> ranked_before d row r) as Hge.
    { unfold ranked_before, Rltb. case_bool_decide; simpl.
      - rewrite decide_True by done. destruct (Rlt_dec _ _); [done|lra].
      - rewrite decide_False by done. destruct (Rlt_dec _ _); [done|lra]. }
    destruct (if negb (bool_decide (d = R2)) then _ else _) eqn:E.
    + constructor; [done|]. specialize (Hlt eq_refl).
      assert (forall l, Forall (ranked_before d r) l ->
                        Forall (ranked_before d r)
                          (insert_row d (negb (bool_decide (d = R2))) row l)) as Hins.
      { clear -Hlt. intros l. induction 1 as [|x l Hx Hl IHl]; simpl.
        - by repeat constructor.
        - destruct (if negb (bool_decide (d = R2)) then _ else _).
          + by constructor.
          + by repeat constructor. }
      by apply Hins.
    + constructor; [by constructor|].
      specialize (Hge eq_refl).
      constructor; [done|].
      eapply list.Forall_impl; [exact Hr|]. intros x Hx.
      by eapply ranked_before_trans.
Qed.

Lemma sort_values_in_order d df :
  StronglySorted (ranked_before d) (sort_values d (negb (bool_decide (d = R2))) df).
Proof.
  unfold sort_values. induction df as [|row df IH]; simpl; [constructor|].
  by apply insert_row_in_order.
Qed.

Lemma length_insert_row d ascending row sorted :
  length (insert_row d ascending row sorted) = S (length sorted).
Proof.
  induction sorted as [|r sorted IH]; simpl; [done|].
  destruct (if ascending then _ else _); simpl; [by rewrite IH|done].
Qed.

Lemma length_sort_values d ascending df : length (sort_values d ascending df) = length df.
Proof.
  unfold sort_values. induction df as [|row df IH]; simpl; [done|].
  by rewrite length_insert_row, IH.
Qed.

Lemma insert_row_names (P : string -> Prop) d ascending row sorted :
  P row.1 -> Forall (fun r => P r.1) sorted ->
  Forall (fun r => P r.1) (insert_row d ascending row sorted).
Proof.
  intros Hrow. induction 1 as [|r sorted Hr Hs IH]; simpl.
  - by repeat constructor.
  - destruct (if ascending then _ else _); by repeat constructor.
Qed.

(** Sorting and rounding keep the names that are in the table. *)
Lemma sort_values_names (P : string -> Prop) d ascending df :
  Forall (fun r => P r.1) df -> Forall (fun r => P r.1) (sort_values d ascending df).
Proof.
  unfold sort_values. induction 1 as [|row df Hrow _ IH]; simpl; [done|].
  by apply insert_row_names.
Qed.

(** A strongly sorted table, read by positions. *)
Lemma in_order_lookup d df i j r1 r2 :
  StronglySorted (ranked_before d) df ->
  (i <= j)%nat -> df !! i = Some r1 -> df !! j = Some r2 -> ranked_before d r1 r2.
Proof.
  intros Hs. revert i j. induction Hs as [|r df Hs IH Hr]; intros i j Hij Hi Hj; [done|].
  destruct i as [|i], j as [|j]; simpl in *; simplify_eq.
  - unfold ranked_before. destruct (decide (d = R2)); lra.
  - rewrite list.Forall_forall in Hr. apply Hr.
    by eapply list_elem_of_lookup_2.
  - lia.
  - eapply IH; [|done..]. lia.
Qed.

(** The comparison pass over a library that the folds can be drawn for:
    one row per recipe, and the table leaves the loop ordered. *)
Lemma compare_loop_returns (P : string -> Prop) kf round d model_library objects df st :
  (kf <= length (X_train st))%nat ->
  Forall (fun entry => P entry.2) model_library ->
  Forall (fun r => P r.1) df ->
  StronglySorted (ranked_before d) df ->
  exists df',
    compare_loop kf round d model_library objects df st = (Ok df', st)
    /\ length df' = (length df + length model_library)%nat
    /\ Forall (fun r => P r.1) df'
    /\ StronglySorted (ranked_before d) df'.
Proof.
  intros Hkf Hlib. revert objects df.
  induction Hlib as [|[tag name] model_library Hname _ IH]; intros objects df Hdf Hs.
  - exists df. simpl. split; [done|]. split; [lia|done].
  - simpl. erewrite bind_returns by done.
    erewrite bind_returns by (by apply kf_split_returns).
    destruct (cv_loop _ _ _ _ _) as [m scores].
    edestruct (IH (<[tag:=m]> objects)) as (df' & Hrun & Hlen & Hnames & Hsorted);
      [| |exists df'; split; [exact Hrun|]].
    + apply sort_values_names. apply Forall_fmap.
      apply Forall_app. split; [done|]. by repeat constructor.
    + apply sort_values_in_order.
    + split; [|done]. rewrite Hlen, length_sort_values, length_fmap, length_app.
      simpl. lia.
Qed.

(** Every catalog tag has a displayed name, and that name leads back to a
    catalog tag. *)
Lemma catalog_names tag :
  tag ∈ available_estimators ->
  exists name, dict_get model_names tag = Some name /\ known_name name.
Proof.
  intros Htag.
  assert (forallb (fun tag =>
                     match dict_get model_names tag with
                     | Some name =>
                         match dict_get compare_model_dict name with
                         | Some tag' => bool_decide (tag' ∈ available_estimators)
                         | None => false
                         end
                     | None => false
                     end) available_estimators = true) as Hall by (vm_compute; reflexivity).
  rewrite forallb_forall in Hall. apply list_elem_of_In in Htag.
  specialize (Hall _ Htag).
  destruct (dict_get model_names tag) as [name|]; [|done].
  exists name. split; [done|].
  destruct (dict_get compare_model_dict name) as [tag'|] eqn:Hback; [|done].
  exists tag'. split; [done|]. by apply bool_decide_eq_true in Hall.
Qed.

(** An inclusion list of catalog tags yields one library entry per tag. *)
Lemma whitelist_library (whitelist : list string) :
  Forall (fun tag => tag ∈ available_estimators) whitelist ->
  let model_library :=
    omap (fun tag => name ← dict_get model_names tag; Some (tag, name)) whitelist in
  length model_library = length whitelist
  /\ Forall (fun entry => known_name entry.2) model_library.
Proof.
  induction 1 as [|tag whitelist Htag _ [IHlen IHnames]]; [done|].
  destruct (catalog_names _ Htag) as (name & Hname & Hknown).
  cbv zeta. cbn [omap list_omap]. rewrite Hname. cbn [mbind option_bind length].
  split; [by rewrite IHlen|]. by constructor.
Qed.

Lemma has_unavailable_whitelist (whitelist : list string) :
  Forall (fun tag => tag ∈ available_estimators) whitelist ->
  has_unavailable (Some whitelist) = false.
Proof.
  intros Hall. unfold has_unavailable. apply bool_decide_eq_false.
  rewrite Exists_exists. intros (tag & Hin & Hnot).
  rewrite list.Forall_forall in Hall. by apply Hnot, Hall.
Qed.

Lemma compare_dimension_of_allowed sort d :
  compare_dimension_of sort = Some d -> sort ∈ allowed_sort.
Proof.
  unfold compare_dimension_of, allowed_sort.
  repeat (destruct (decide _) as [->|?]; [intros _; set_solver|]). done.
Qed.

(** The selected recipes are trained again by [create_model] with its
    default ten folds; each call records into the containers and leaves
    the experiment as it is. *)
Lemma create_selected (names : list string) st :
  Forall known_name names ->
  (10 <= length (X_train st))%nat ->
  exists models st',
    for_each (fun i => bind (need "AttributeError" (dict_get compare_model_dict i))
                         (fun k => create_model (ByTag k) false None 10 4 true false false
                                     no_kwargs))
      names st
    = (Ok models, st')
    /\ same_experiment st st'.
Proof.
  intros Hnames. revert st.
  induction Hnames as [|name names (tag & Htag & Havail) _ IH]; intros st Hn.
  - exists [], st. split; [done|apply same_experiment_refl].
  - cbn [for_each].
    edestruct (IH (stored (trained_grid st (recipe st (ByTag tag) None no_kwargs) 10 4)
                     (trained_model st (recipe st (ByTag tag) None no_kwargs) 10) st))
      as (models & st' & Hrun & Hsame); [done|].
    eexists _, st'. split.
    + erewrite bind_returns.
      2:{ rewrite Htag. erewrite bind_returns by done.
          apply create_model_trains; [by split|lia|]. by rewrite Z2Nat.inj_pos. }
      by erewrite bind_returns by exact Hrun.
    + eapply same_experiment_trans; [apply same_experiment_stored|exact Hsame].
Qed.

End CompareFacts.

(** ** Claims *)

Section Claims.
Context `{Sklearn}.
Implicit Types (st : State) (model : Regressor).

(** C9. A [create_model] call whose estimator is a string tag outside the
    supported catalog ends with the invalid-model [sys.exit] before
    anything is computed: whatever the other arguments, the outcome is that
    exit and the state (experiment context and the three result
    containers) is the state before the call. *)
Theorem create_model_unavailable_tag
    tag ensemble method fold round cross_validation verbose system kwargs st :
  tag ∉ available_estimators ->
  create_model (ByTag tag) ensemble method fold round cross_validation verbose system
    kwargs st
  = (SysExit "(Value Error): Estimator Not Available. Please see docstring for list of available estimators.",
     st).
Proof.
  intros Htag. unfold create_model.
  apply bind_exits. by rewrite bool_decide_eq_true_2.
Qed.



(** C2. For a fold count [k >= 2] (that the training partition can be
    split into) and any supported recipe, the score grid [create_model]
    records has exactly [k + 2] rows, labelled [0 .. k-1] in that order,
    then ['Mean'], then ['SD']; and the MAE of the Mean row equals the
    arithmetic mean of the [k] recorded fold MAE values up to one unit of
    the last digit kept by [round]. *)
Theorem create_model_score_grid
    estimator ensemble method fold round verbose system kwargs st :
  supported estimator ensemble method ->
  (2 <= fold)%Z ->
  Z.to_nat fold <= length (X_train st) ->
  exists model st' grid mean_row,
    create_model estimator ensemble method fold round true verbose system kwargs st
    = (Ok model, st')
    /\ from_end 1 (create_model_container st') = Some grid
    /\ from_end 1 (display_container st') = Some (GridTable grid)
    /\ length grid = Z.to_nat fold + 2
    /\ grid.*1 = (Fold <$> seq 0 (Z.to_nat fold)) ++ [Mean; SD]
    /\ grid !! Z.to_nat fold = Some (Mean, mean_row)
    /\ (Rabs (mae mean_row - Numpy.mean (take (Z.to_nat fold) (grid_column MAE grid)))
        <= powerRZ 10 (- round))%R.
Proof.
  intros Hsup Hfold Hn.
  pose proof (create_model_trains _ _ _ _ round verbose system kwargs st Hsup Hfold Hn)
    as Hrun. simpl in Hrun.
  set (m0 := recipe st estimator method kwargs) in *.
  pose proof (length_cross_validated st m0 fold) as Hlen.
  unfold trained_grid in Hrun.
  set (scores := (cross_validated st m0 fold).2) in *.
  eexists _, _, (model_results round scores), _. split; [exact Hrun|].
  split_and!.
  - by rewrite stored_create_model_container, from_end_1_snoc.
  - by rewrite stored_display_container, from_end_1_snoc.
  - by rewrite length_model_results, Hlen.
  - by rewrite model_results_labels, Hlen.
  - rewrite <- Hlen. apply model_results_mean_row.
  - rewrite <- Hlen, take_grid_column. simpl.
    rewrite (list_fmap_compose (cell MAE) (Numpy.round round)).
    apply mean_of_rounded.
    intros Hnil. apply (f_equal length) in Hnil.
    rewrite length_fmap, Hlen in Hnil. simpl in Hnil. lia.
Qed.

(** C1, as the code has it.  Each fold's RMSE is the square root of that
    fold's MSE before the grid is rounded, so a recorded fold row holds
    [round(mse)] and [round(sqrt(mse))]; the Mean row holds the rounded
    arithmetic means of the fold MSEs and of the fold RMSEs, so its RMSE is
    the mean of the square roots, not the square root of its MSE. *)
Theorem create_model_rmse_rows
    estimator ensemble method fold round verbose system kwargs st :
  supported estimator ensemble method ->
  (2 <= fold)%Z ->
  Z.to_nat fold <= length (X_train st) ->
  exists model st' grid (fold_mse : list R),
    create_model estimator ensemble method fold round true verbose system kwargs st
    = (Ok model, st')
    /\ from_end 1 (create_model_container st') = Some grid
    /\ length fold_mse = Z.to_nat fold
    /\ (forall i v, fold_mse !! i = Some v ->
          exists row, grid !! i = Some (Fold i, row)
                      /\ mse row = Numpy.round round v
                      /\ rmse row = Numpy.round round (sqrt v))
    /\ (exists row, grid !! Z.to_nat fold = Some (Mean, row)
                    /\ mse row = Numpy.round round (Numpy.mean fold_mse)
                    /\ rmse row = Numpy.round round (Numpy.mean (sqrt <$> fold_mse))).
Proof.
  intros Hsup Hfold Hn.
  pose proof (create_model_trains _ _ _ _ round verbose system kwargs st Hsup Hfold Hn)
    as Hrun. simpl in Hrun.
  set (m0 := recipe st estimator method kwargs) in *.
  pose proof (length_cross_validated st m0 fold) as Hlen.
  assert (Forall (fun s => rmse s = sqrt (mse s)) (cross_validated st m0 fold).2) as Hsqrt
    by apply cv_loop_rmse.
  unfold trained_grid in Hrun.
  set (scores := (cross_validated st m0 fold).2) in *.
  eexists _, _, (model_results round scores), (mse <$> scores).
  split; [exact Hrun|]. split_and!.
  - by rewrite stored_create_model_container, from_end_1_snoc.
  - by rewrite length_fmap.
  - intros i v Hi. apply list_lookup_fmap_Some in Hi as (s & -> & Hi).
    eexists. split; [by apply model_results_fold_row|]. simpl. split; [done|].
    f_equal. by eapply (list.Forall_lookup_1 _ _ _ _ Hsqrt).
  - eexists. rewrite <- Hlen. split; [apply model_results_mean_row|].
    simpl. split; [done|]. f_equal. f_equal. unfold score_column.
    rewrite <- list_fmap_compose. apply Forall_fmap_ext_1.
    eapply list.Forall_impl; [exact Hsqrt|]. done.
Qed.



(** C3. A choose-better comparison ([tune_model] or [ensemble_model] with
    [choose_better=True]) that returns has recorded the candidate and then
    the base model, and decides between them on the recorded Mean of the
    chosen metric: the candidate is returned when its Mean is strictly
    higher (R2) or strictly lower (any other metric) than the base
    model's, and the base model otherwise, so also on a tie.  The recorded
    Mean of the model returned is therefore never worse than the base
    model's. *)
Theorem choose_better_policy optimize call st returned st' :
  choose_better_call optimize call ->
  call st = (Ok returned, st') ->
  exists d grid candidate base_grid base_model score base_score
         returned_grid returned_score,
    compare_dimension_of optimize = Some d
    /\ create_model_container st' = create_model_container st ++ [grid; base_grid]
    /\ master_model_container st' = master_model_container st ++ [candidate; base_model]
    /\ mean_cell d grid = Some score
    /\ mean_cell d base_grid = Some base_score
    /\ (strictly_better d score base_score
        /\ returned = candidate /\ returned_grid = grid
        \/ ~ strictly_better d score base_score
           /\ returned = base_model /\ returned_grid = base_grid)
    /\ mean_cell d returned_grid = Some returned_score
    /\ never_worse d returned_score base_score.
Proof.
  assert (forall d round scores base_scores candidate base_model st0,
            let grid := model_results round scores in
            let base_grid := model_results 4 base_scores in
            let score := recorded_score d round scores in
            let base_score := recorded_score d 4 base_scores in
            let kept := choose_better_model d score base_score candidate base_model in
            let st1 := compared grid candidate base_grid base_model st0 in
            exists returned_grid returned_score,
              create_model_container st1 = create_model_container st0 ++ [grid; base_grid]
              /\ master_model_container st1
                 = master_model_container st0 ++ [candidate; base_model]
              /\ mean_cell d grid = Some score
              /\ mean_cell d base_grid = Some base_score
              /\ (strictly_better d score base_score
                  /\ kept = candidate /\ returned_grid = grid
                  \/ ~ strictly_better d score base_score
                     /\ kept = base_model /\ returned_grid = base_grid)
              /\ mean_cell d returned_grid = Some returned_score
              /\ never_worse d returned_score base_score) as Hkept.
  { intros d round scores base_scores candidate base_model st0. cbv zeta.
    pose proof (mean_cell_model_results d round scores) as Hs.
    pose proof (mean_cell_model_results d 4 base_scores) as Hb.
    fold (recorded_score d round scores) in Hs.
    fold (recorded_score d 4 base_scores) in Hb.
    destruct (choose_better_model_spec d (recorded_score d round scores)
                (recorded_score d 4 base_scores) candidate base_model)
      as [[Hbetter Hk]|[Hnot Hk]].
    - exists (model_results round scores), (recorded_score d round scores).
      rewrite compared_create_model_container, compared_master_model_container.
      split_and!; try done; [by left|].
      revert Hbetter. unfold strictly_better, never_worse.
      destruct (decide (d = R2)); lra.
    - exists (model_results 4 base_scores), (recorded_score d 4 base_scores).
      rewrite compared_create_model_container, compared_master_model_container.
      split_and!; try done; [by right|].
      unfold never_worse. destruct (decide (d = R2)); lra. }
  intros Hcall Hrun. destruct Hcall.
  - apply tune_model_compared in Hrun
      as (d & scores & base_scores & candidate & base_model & Hd & -> & ->).
    destruct (Hkept d round scores base_scores candidate base_model st)
      as (returned_grid & returned_score & Hrest).
    exists d. do 6 eexists. exists returned_grid, returned_score.
    split; [exact Hd|]. exact Hrest.
  - apply ensemble_model_compared in Hrun
      as (d & scores & base_scores & candidate & base_model & Hd & -> & ->).
    destruct (Hkept d round scores base_scores candidate base_model st)
      as (returned_grid & returned_score & Hrest).
    exists d. do 6 eexists. exists returned_grid, returned_score.
    split; [exact Hd|]. exact Hrest.
Qed.

(** C6, as the code has it.  A training call that returns leaves the
    experiment context alone and changes the result containers in one of
    three ways.  [create_model] with cross-validation, and [tune_model] and
    [ensemble_model] without a choose-better comparison, end with their own
    grid and model appended to the three containers.  With a choose-better
    comparison the call's own grid and model are followed by the base
    model's in [create_model_container] and [master_model_container], while
    [display_container] ends with the call's own grid (the base model's was
    popped again).  [create_model] without cross-validation records
    nothing. *)
Theorem training_call_records call recording st returned st' :
  training_call call recording ->
  call st = (Ok returned, st') ->
  same_experiment st st'
  /\ match recording with
     | RecordsNothing => st' = st
     | RecordsOwn => exists grid, results_appended grid returned st st'
     | RecordsOwnAndBase =>
         exists grid model base_grid base_model,
           create_model_container st' = create_model_container st ++ [grid; base_grid]
           /\ master_model_container st'
              = master_model_container st ++ [model; base_model]
           /\ display_container st' = display_container st ++ [GridTable grid]
           /\ (returned = model \/ returned = base_model)
     end.
Proof.
  intros Hcall Hrun. destruct Hcall.
  - apply create_model_Ok_inv in Hrun as Hpre. destruct Hpre as (Hsup & Hfold & Hn).
    destruct cross_validation.
    + rewrite (create_model_trains _ _ _ _ _ _ _ _ _ Hsup Hfold (Hn eq_refl)) in Hrun.
      injection Hrun as <- <-. split; [apply same_experiment_stored|].
      by eexists.
    + rewrite (create_model_single_fit _ _ _ _ _ _ _ _ _ Hsup Hfold) in Hrun.
      injection Hrun as <- <-. split; [apply same_experiment_refl|done].
  - apply tune_model_Ok_inv in Hrun as Hpre.
    destruct Hpre as (e & tag & -> & Hopt & Htag & Hfold & Hn & Hn10).
    destruct choose_better.
    + apply tune_model_compared in Hrun
        as (d & scores & base_scores & candidate & base_model & _ & -> & ->).
      split; [apply same_experiment_compared|].
      exists (model_results round scores), candidate, (model_results 4 base_scores),
        base_model.
      rewrite compared_create_model_container, compared_master_model_container,
        compared_display_container.
      split; [reflexivity|]. split; [reflexivity|]. split; [reflexivity|].
      destruct (choose_better_model_spec d (recorded_score d round scores)
                  (recorded_score d 4 base_scores) candidate base_model)
        as [[_ ->]|[_ ->]]; auto.
    + rewrite (tune_model_plain _ _ _ _ _ _ _ _ _ Hopt Htag Hfold Hn) in Hrun.
      injection Hrun as <- <-. split; [apply same_experiment_stored|].
      by eexists.
  - apply ensemble_model_Ok_inv in Hrun as Hpre.
    destruct Hpre as (Hm & Hfold & Hn & Hcb).
    destruct choose_better.
    + apply ensemble_model_compared in Hrun
        as (d & scores & base_scores & candidate & base_model & _ & -> & ->).
      split; [apply same_experiment_compared|].
      exists (model_results round scores), candidate, (model_results 4 base_scores),
        base_model.
      rewrite compared_create_model_container, compared_master_model_container,
        compared_display_container.
      split; [reflexivity|]. split; [reflexivity|]. split; [reflexivity|].
      destruct (choose_better_model_spec d (recorded_score d round scores)
                  (recorded_score d 4 base_scores) candidate base_model)
        as [[_ ->]|[_ ->]]; auto.
    + rewrite (ensemble_model_plain _ _ _ _ _ _ _ _ Hm Hfold Hn) in Hrun.
      injection Hrun as <- <-. split; [apply same_experiment_stored|].
      by eexists.
Qed.

(** C5. With an inclusion list of [N] valid catalog tags and no exclusion
    list (folds that can be drawn, and the ten default folds for the
    models trained again at the end), [compare_models] returns, and the
    ranked table it leaves as the last entry of [display_container] has
    exactly [N] rows ordered on the chosen metric: descending for R2,
    ascending for every other metric, so that its first row holds the
    maximum for R2 and the minimum otherwise. *)
Theorem compare_models_ranked_table whitelist fold round sort d n_select turbo verbose st :
  Forall (fun tag => tag ∈ available_estimators) whitelist ->
  compare_dimension_of sort = Some d ->
  (2 <= fold)%Z ->
  Z.to_nat fold <= length (X_train st) ->
  10 <= length (X_train st) ->
  exists result st' table,
    compare_models None (Some whitelist) fold round sort n_select turbo verbose st
    = (Ok result, st')
    /\ from_end 1 (display_container st') = Some (CompareTable table)
    /\ length table = length whitelist
    /\ (forall i j r1 r2,
          i <= j -> table !! i = Some r1 -> table !! j = Some r2 ->
          ranked_before d r1 r2)
    /\ (forall first r,
          table !! 0 = Some first -> r ∈ table -> ranked_before d first r).
Proof.
  intros Hwl Hd Hfold Hn Hn10.
  destruct (whitelist_library whitelist Hwl) as [Hlen Hlib].
  destruct (compare_loop_returns known_name (Z.to_nat fold) round d _
              (fun tag => construct tag (seed st) no_kwargs) [] st Hn Hlib)
    as (table & Hloop & Hrows & Hnames & Hsorted); [done|constructor|].
  set (names := fst <$> table).
  set (selected := if decide (n_select < 0)%Z then slice_from n_select names
                   else slice_to n_select names).
  assert (Forall known_name selected) as Hselected.
  { assert (Forall known_name names) as Hall by (by apply Forall_fmap).
    unfold selected, slice_from, slice_to.
    repeat destruct (decide _); by (apply Forall_take || apply Forall_drop). }
  destruct (create_selected selected st Hselected Hn10) as (models & st1 & Hcreate & _).
  eexists _, _, table. split.
  - unfold compare_models.
    rewrite (has_unavailable_whitelist _ Hwl).
    change (has_unavailable None) with false.
    rewrite (bool_decide_eq_false_2 (Some whitelist <> None /\ None <> None))
      by (by intros [_ ?]).
    rewrite (bool_decide_eq_false_2 (sort ∉ allowed_sort))
      by (intros Hnot; by apply Hnot, (compare_dimension_of_allowed _ d)).
    do 4 (erewrite bind_returns by done).
    erewrite bind_returns by done.
    erewrite bind_returns by done.
    erewrite bind_returns by (by apply KFold_returns).
    erewrite bind_returns by (by rewrite Hd).
    erewrite bind_returns by exact Hloop.
    erewrite bind_returns by exact Hcreate.
    erewrite bind_returns by done.
    done.
  - split; [apply from_end_1_snoc|]. split; [by rewrite Hrows, Hlen|].
    split.
    + intros i j r1 r2. by apply in_order_lookup.
    + intros first r Hfirst Hr. apply list_elem_of_lookup in Hr as [j Hj].
      eapply (in_order_lookup d table 0 j); [done|lia|done|done].
Qed.

End Claims.

(** ** The workflow on the small experiment *)

Section ToyRuns.
#[local] Existing Instance Toy.sklearn.
Local Open Scope R_scope.

Lemma toy_supported tag : tag ∈ available_estimators -> supported (ByTag tag) false None.
Proof. by split. Qed.

(** Two folds over the four rows: labels [0; 2] and [2; 2], all
    predictions [0]. *)
Lemma toy_two_folds :
  (cross_validated (Toy.experiment Toy.four_rows) tt 2).2
  = [compute_metrics [0; 2] [0; 0]; compute_metrics [2; 2] [0; 0]].
Proof. reflexivity. Qed.

Lemma sqrt_2_digits : 141421 / 100000 < sqrt 2 < 141422 / 100000.
Proof.
  split.
  - rewrite <- (sqrt_square (141421 / 100000)) by lra. apply sqrt_lt_1_alt. lra.
  - rewrite <- (sqrt_square (141422 / 100000)) by lra. apply sqrt_lt_1_alt. lra.
Qed.

Lemma sqrt_3_lower : 173 / 100 < sqrt 3.
Proof. rewrite <- (sqrt_square (173 / 100)) by lra. apply sqrt_lt_1_alt. lra. Qed.

Lemma pow10_4 : powerRZ 10 4 = 10000.
Proof. simpl. lra. Qed.

Lemma sqrt_4 : sqrt 4 = 2.
Proof. replace 4 with (2 * 2) by lra. apply sqrt_square. lra. Qed.

Lemma toy_mse_first_fold : Metrics.mean_squared_error [0; 2] [0; 0] = 2.
Proof.
  unfold Metrics.mean_squared_error, Metrics.errors, Numpy.mean, Numpy.sum. simpl. lra.
Qed.

Lemma toy_mse_second_fold : Metrics.mean_squared_error [2; 2] [0; 0] = 4.
Proof.
  unfold Metrics.mean_squared_error, Metrics.errors, Numpy.mean, Numpy.sum. simpl. lra.
Qed.

(** C1 fails on the code.  Two folds over labels [0; 2; 2; 2] with an
    estimator that predicts [0], at the default rounding to 4 decimals: the
    fold MSEs are 2 and 4, the fold RMSEs [sqrt 2] and 2, and the Mean row
    records MSE 3 and RMSE 1.7071, the mean of the two fold RMSEs.  The
    square root of the Mean row's MSE is above 1.73. *)
Lemma create_model_rmse_counterexample :
  exists model st' grid row_mean,
    create_model (ByTag "lr") false None 2 4 true false false tt
      (Toy.experiment Toy.four_rows)
    = (Ok model, st')
    /\ from_end 1 (create_model_container st') = Some grid
    /\ grid !! 2%nat = Some (Mean, row_mean)
    /\ mse row_mean = 3
    /\ rmse row_mean = 17071 / 10000
    /\ rmse row_mean <> sqrt (mse row_mean)
    /\ rmse row_mean + 2 / 100 < sqrt (mse row_mean).
Proof.
  pose proof sqrt_2_digits as Hs2. pose proof sqrt_3_lower as Hs3.
  assert (supported (ByTag "lr") false None) as Hsup
    by (apply toy_supported; by_computation).
  pose proof (create_model_trains (ByTag "lr") false None 2 4 false false tt
                (Toy.experiment Toy.four_rows) Hsup) as Hrun.
  cbv zeta in Hrun.
  change (recipe _ _ _ _) with tt in Hrun.
  unfold trained_grid in Hrun. rewrite toy_two_folds in Hrun.
  eexists _, _, _, _. split; [apply Hrun; [lia|simpl; lia]|].
  split; [by rewrite stored_create_model_container, from_end_1_snoc|].
  assert (Numpy.mean [Metrics.mean_squared_error [0; 2] [0; 0];
                      Metrics.mean_squared_error [2; 2] [0; 0]] = 3) as Hmean_mse.
  { rewrite toy_mse_first_fold, toy_mse_second_fold.
    unfold Numpy.mean, Numpy.sum. simpl. lra. }
  assert (Numpy.mean [sqrt (Metrics.mean_squared_error [0; 2] [0; 0]);
                      sqrt (Metrics.mean_squared_error [2; 2] [0; 0])]
          = (sqrt 2 + 2) / 2) as Hmean_rmse.
  { rewrite toy_mse_first_fold, toy_mse_second_fold, sqrt_4.
    unfold Numpy.mean, Numpy.sum. simpl. lra. }
  split; [reflexivity|]. simpl.
  fold (Numpy.mean [Metrics.mean_squared_error [0; 2] [0; 0];
                    Metrics.mean_squared_error [2; 2] [0; 0]]).
  rewrite Hmean_mse, Hmean_rmse. unfold Numpy.round. rewrite pow10_4.
  replace (3 * 10000) with (IZR 30000) by lra.
  rewrite (NumpyFacts.rint_IZR 30000), (NumpyFacts.rint_eq_down _ 17071) by lra.
  assert (sqrt (30000 / 10000) = sqrt 3) as -> by (f_equal; lra).
  split; [lra|]. split; [done|]. split; lra.
Qed.

Lemma toy_rows_10 : length (X_train (Toy.experiment Toy.ten_rows)) = 10%nat.
Proof. reflexivity. Qed.

Lemma toy_rows_4 : length (X_train (Toy.experiment Toy.four_rows)) = 4%nat.
Proof. reflexivity. Qed.

Lemma create_model_unavailable_tag_witness :
  ("linreg" ∉ available_estimators)
  /\ create_model (ByTag "linreg") false None 10 4 true true true tt
       (Toy.experiment Toy.ten_rows)
     = (SysExit "(Value Error): Estimator Not Available. Please see docstring for list of available estimators.",
        Toy.experiment Toy.ten_rows).
Proof.
  assert ("linreg" ∉ available_estimators) as Htag by by_computation.
  split; [exact Htag|].
  exact (create_model_unavailable_tag "linreg" false None 10 4 true true true tt
           (Toy.experiment Toy.ten_rows) Htag).
Defined.


Lemma create_model_score_grid_witness :
  supported (ByTag "lr") false None
  /\ (2 <= 2)%Z
  /\ (Z.to_nat 2 <= length (X_train (Toy.experiment Toy.four_rows)))%nat
  /\ exists model st' grid mean_row,
      create_model (ByTag "lr") false None 2 4 true false false tt
        (Toy.experiment Toy.four_rows)
      = (Ok model, st')
      /\ from_end 1 (create_model_container st') = Some grid
      /\ from_end 1 (display_container st') = Some (GridTable grid)
      /\ length grid = (Z.to_nat 2 + 2)%nat
      /\ grid.*1 = (Fold <$> seq 0 (Z.to_nat 2)) ++ [Mean; SD]
      /\ grid !! Z.to_nat 2 = Some (Mean, mean_row)
      /\ Rabs (mae mean_row - Numpy.mean (take (Z.to_nat 2) (grid_column MAE grid)))
         <= powerRZ 10 (- 4).
Proof.
  assert (supported (ByTag "lr") false None) as Hsup
    by (apply toy_supported; by_computation).
  assert ((2 <= 2)%Z) as Hfold by lia.
  assert (Z.to_nat 2 <= length (X_train (Toy.experiment Toy.four_rows)))%nat as Hn
    by (rewrite toy_rows_4; simpl; lia).
  split; [exact Hsup|]. split; [exact Hfold|]. split; [exact Hn|].
  exact (create_model_score_grid (ByTag "lr") false None 2 4 false false tt
           (Toy.experiment Toy.four_rows) Hsup Hfold Hn).
Defined.

Lemma create_model_rmse_rows_witness :
  supported (ByTag "lr") false None
  /\ (2 <= 2)%Z
  /\ (Z.to_nat 2 <= length (X_train (Toy.experiment Toy.four_rows)))%nat
  /\ exists model st' grid (fold_mse : list R),
      create_model (ByTag "lr") false None 2 4 true false false tt
        (Toy.experiment Toy.four_rows)
      = (Ok model, st')
      /\ from_end 1 (create_model_container st') = Some grid
      /\ length fold_mse = Z.to_nat 2
      /\ (forall i v, fold_mse !! i = Some v ->
            exists row, grid !! i = Some (Fold i, row)
                        /\ mse row = Numpy.round 4 v
                        /\ rmse row = Numpy.round 4 (sqrt v))
      /\ (exists row, grid !! Z.to_nat 2 = Some (Mean, row)
                      /\ mse row = Numpy.round 4 (Numpy.mean fold_mse)
                      /\ rmse row = Numpy.round 4 (Numpy.mean (sqrt <$> fold_mse))).
Proof.
  assert (supported (ByTag "lr") false None) as Hsup
    by (apply toy_supported; by_computation).
  assert ((2 <= 2)%Z) as Hfold by lia.
  assert (Z.to_nat 2 <= length (X_train (Toy.experiment Toy.four_rows)))%nat as Hn
    by (rewrite toy_rows_4; simpl; lia).
  split; [exact Hsup|]. split; [exact Hfold|]. split; [exact Hn|].
  exact (create_model_rmse_rows (ByTag "lr") false None 2 4 false false tt
           (Toy.experiment Toy.four_rows) Hsup Hfold Hn).
Defined.

(** A bagging ensemble of the toy model, compared with its base model. *)
Lemma toy_ensemble_returns :
  exists returned st',
    ensemble_model tt "Bagging" 2 10 4 true "R2" false (Toy.experiment Toy.ten_rows)
    = (Ok returned, st').
Proof.
  pose proof (ensemble_model_chooses tt "Bagging" 2 10 4 "R2" R2 false
                (Toy.experiment Toy.ten_rows)) as Hrun.
  cbv zeta in Hrun. eexists _, _.
  apply Hrun; [by_computation|lia|rewrite toy_rows_10; simpl; lia
              |rewrite toy_rows_10; lia|done].
Qed.

(** C6 fails on the code.  [ensemble_model] with a choose-better comparison
    appends its own grid and model, then trains the base model, which
    appends a second grid and model, and last removes the base model's grid
    from [display_container]: the call returns with two new entries in
    [create_model_container] and [master_model_container] and one in
    [display_container], so its last change of state is not the append of
    its results. *)
Lemma training_call_records_counterexample :
  exists returned st',
    ensemble_model tt "Bagging" 2 10 4 true "R2" false (Toy.experiment Toy.ten_rows)
    = (Ok returned, st')
    /\ length (create_model_container st') = 2%nat
    /\ length (master_model_container st') = 2%nat
    /\ length (display_container st') = 1%nat
    /\ forall grid model,
        ~ results_appended grid model (Toy.experiment Toy.ten_rows) st'.
Proof.
  destruct toy_ensemble_returns as (returned & st' & Hrun).
  exists returned, st'. split; [exact Hrun|].
  apply ensemble_model_compared in Hrun
    as (d & scores & base_scores & candidate & base_model & _ & _ & ->).
  rewrite compared_create_model_container, compared_master_model_container,
    compared_display_container.
  split; [done|]. split; [done|]. split; [done|].
  intros grid model (Hc & _). rewrite compared_create_model_container in Hc.
  apply (f_equal length) in Hc. rewrite !length_app in Hc. simpl in Hc. lia.
Qed.

Lemma choose_better_policy_witness :
  exists returned st',
    choose_better_call "R2" (ensemble_model tt "Bagging" 2 10 4 true "R2" false)
    /\ ensemble_model tt "Bagging" 2 10 4 true "R2" false (Toy.experiment Toy.ten_rows)
       = (Ok returned, st')
    /\ exists d grid candidate base_grid base_model score base_score
             returned_grid returned_score,
        compare_dimension_of "R2" = Some d
        /\ create_model_container st'
           = create_model_container (Toy.experiment Toy.ten_rows) ++ [grid; base_grid]
        /\ master_model_container st'
           = master_model_container (Toy.experiment Toy.ten_rows)
             ++ [candidate; base_model]
        /\ mean_cell d grid = Some score
        /\ mean_cell d base_grid = Some base_score
        /\ (strictly_better d score base_score
            /\ returned = candidate /\ returned_grid = grid
            \/ ~ strictly_better d score base_score
               /\ returned = base_model /\ returned_grid = base_grid)
        /\ mean_cell d returned_grid = Some returned_score
        /\ never_worse d returned_score base_score.
Proof.
  destruct toy_ensemble_returns as (returned & st' & Hrun).
  exists returned, st'.
  assert (choose_better_call "R2" (ensemble_model tt "Bagging" 2 10 4 true "R2" false))
    as Hcall by constructor.
  split; [exact Hcall|]. split; [exact Hrun|].
  exact (choose_better_policy "R2" _ (Toy.experiment Toy.ten_rows) returned st' Hcall Hrun).
Defined.




Lemma compare_models_ranked_table_witness :
  Forall (fun tag => tag ∈ available_estimators) ["ridge"; "lr"]
  /\ compare_dimension_of "MAE" = Some MAE
  /\ (2 <= 2)%Z
  /\ (Z.to_nat 2 <= length (X_train (Toy.experiment Toy.ten_rows)))%nat
  /\ (10 <= length (X_train (Toy.experiment Toy.ten_rows)))%nat
  /\ exists result st' table,
      compare_models None (Some ["ridge"; "lr"]) 2 4 "MAE" 1 true false
        (Toy.experiment Toy.ten_rows)
      = (Ok result, st')
      /\ from_end 1 (display_container st') = Some (CompareTable table)
      /\ length table = length ["ridge"; "lr"]
      /\ (forall i j r1 r2,
            (i <= j)%nat -> table !! i = Some r1 -> table !! j = Some r2 ->
            ranked_before MAE r1 r2)
      /\ (forall first r,
            table !! 0%nat = Some first -> r ∈ table -> ranked_before MAE first r).
Proof.
  assert (Forall (fun tag => tag ∈ available_estimators) ["ridge"; "lr"]) as Hwl
    by (repeat constructor; by_computation).
  assert ((2 <= 2)%Z) as Hfold by lia.
  assert (Z.to_nat 2 <= length (X_train (Toy.experiment Toy.ten_rows)))%nat as Hn
    by (rewrite toy_rows_10; simpl; lia).
  assert (10 <= length (X_train (Toy.experiment Toy.ten_rows)))%nat as Hn10
    by (rewrite toy_rows_10; lia).
  split; [exact Hwl|]. split; [reflexivity|]. split; [exact Hfold|].
  split; [exact Hn|]. split; [exact Hn10|].
  exact (compare_models_ranked_table ["ridge"; "lr"] 2 4 "MAE" MAE 1 true false
           (Toy.experiment Toy.ten_rows) Hwl eq_refl Hfold Hn Hn10).
Defined.

Lemma training_call_records_witness :
  exists returned st',
    training_call (ensemble_model tt "Bagging" 2 10 4 true "R2" false) RecordsOwnAndBase
    /\ ensemble_model tt "Bagging" 2 10 4 true "R2" false (Toy.experiment Toy.ten_rows)
       = (Ok returned, st')
    /\ same_experiment (Toy.experiment Toy.ten_rows) st'
    /\ exists grid model base_grid base_model,
        create_model_container st'
        = create_model_container (Toy.experiment Toy.ten_rows) ++ [grid; base_grid]
        /\ master_model_container st'
           = master_model_container (Toy.experiment Toy.ten_rows) ++ [model; base_model]
        /\ display_container st'
           = display_container (Toy.experiment Toy.ten_rows) ++ [GridTable grid]
        /\ (returned = model \/ returned = base_model).
Proof.
  destruct toy_ensemble_returns as (returned & st' & Hrun).
  exists returned, st'.
  assert (training_call (ensemble_model tt "Bagging" 2 10 4 true "R2" false)
            RecordsOwnAndBase) as Hcall
    by exact (training_ensemble tt "Bagging" 2 10 4 true "R2" false).
  split; [exact Hcall|]. split; [exact Hrun|].
  exact (training_call_records _ _ (Toy.experiment Toy.ten_rows) returned st' Hcall Hrun).
Defined.

End ToyRuns.

(** * Further properties of the workflow *)

(** ** More facts about calls *)

Section MoreCallFacts.
Context `{Sklearn}.
Implicit Types (st : State) (model : Regressor).

Lemma create_model_too_few_rows
    estimator ensemble method fold round verbose system kwargs st :
  supported estimator ensemble method ->
  (2 <= fold)%Z ->
  length (X_train st) < Z.to_nat fold ->
  create_model estimator ensemble method fold round true verbose system kwargs st
  = (Raise "ValueError", st).
Proof.
  intros Hsup Hfold Hn.
  destruct (supported_checks _ _ _ Hsup) as (Hc1 & Hc2 & Hc3 & Hc4).
  unfold create_model. rewrite Hc1, Hc2, Hc3, Hc4.
  do 5 (erewrite bind_returns by done).
  erewrite bind_returns by (by apply KFold_returns).
  change (negb true) with false. cbv beta iota.
  apply bind_raises. by apply kf_split_raises.
Qed.

End MoreCallFacts.

(** ** More facts about the comparator *)

Section MoreCompareFacts.
Context `{Sklearn}.
Implicit Types (st : State) (df : list (string * Scores)).

Lemma insert_row_perm d ascending row sorted :
  insert_row d ascending row sorted ≡ₚ row :: sorted.
Proof.
  induction sorted as [|r sorted IH']; simpl; [done|].
  destruct (if ascending then _ else _); [|done].
  rewrite IH'. apply Permutation_swap.
Qed.

Lemma sort_values_perm d ascending df : sort_values d ascending df ≡ₚ df.
Proof.
  unfold sort_values. induction df as [|r df IH]; simpl; [done|].
  by rewrite insert_row_perm, IH.
Qed.

(** The comparison loop returns a table in ranking order that holds the
    rows it started from and one row per library entry, under the entry's
    name. *)
Lemma compare_loop_runs kf round d model_library objects df st :
  (kf <= length (X_train st))%nat ->
  StronglySorted (ranked_before d) df ->
  exists df',
    compare_loop kf round d model_library objects df st = (Ok df', st)
    /\ df'.*1 ≡ₚ df.*1 ++ model_library.*2
    /\ StronglySorted (ranked_before d) df'.
Proof.
  intros Hkf. revert objects df.
  induction model_library as [|[tag name] model_library IH]; intros objects df Hs.
  - exists df. simpl. by rewrite app_nil_r.
  - simpl. erewrite bind_returns by done.
    erewrite bind_returns by (by apply kf_split_returns).
    destruct (cv_loop _ _ _ _ _) as [m scores].
    edestruct (IH (<[tag:=m]> objects)) as (df' & Hrun & Hperm & Hsorted);
      [|exists df'; split; [exact Hrun|]].
    + apply sort_values_in_order.
    + split; [|done]. rewrite Hperm, sort_values_perm.
      rewrite <- list_fmap_compose, fmap_app. simpl.
      by rewrite <- (assoc_L (++)).
Qed.



Lemma shown_names_library (tags : list string) :
  Forall (fun tag => tag ∈ available_estimators) tags ->
  (omap (fun tag => name ← dict_get model_names tag; Some (tag, name)) tags).*2
  = shown_names tags
  /\ length (shown_names tags) = length tags
  /\ Forall known_name (shown_names tags).
Proof.
  unfold shown_names.
  induction 1 as [|tag tags Htag _ (IH1 & IH2 & IH3)]; [done|].
  destruct (catalog_names _ Htag) as (name & Hname & Hknown).
  cbn [omap list_omap]. rewrite Hname. cbn [mbind option_bind fmap list_fmap length snd].
  split; [by f_equal|]. split; [by f_equal|]. by constructor.
Qed.

Lemma filter_all {A} (P : A -> Prop) `{!forall x, Decision (P x)} (l : list A) :
  Forall P l -> filter P l = l.
Proof.
  induction 1 as [|x l Hx _ IH]; [done|]. by rewrite filter_cons_True, IH.
Qed.

Lemma list_remove_filter (x : string) (l : list string) :
  x ∈ l -> NoDup l -> list_remove x l = Some (filter (fun y => y <> x) l).
Proof.
  induction l as [|y l IH]; intros Hx Hnd; [by apply elem_of_nil in Hx|].
  apply NoDup_cons in Hnd as [Hy Hnd]. simpl.
  destruct (decide (x = y)) as [->|Hne].
  - rewrite filter_cons_False by (by intros ?).
    f_equal. symmetry. apply filter_all.
    apply list.Forall_forall. intros z Hz ->. done.
  - rewrite filter_cons_True by done.
    rewrite IH; [done| |done]. apply elem_of_cons in Hx as [?|?]; done.
Qed.


Lemma remove_all_filter (blacklist library : list string) :
  NoDup blacklist -> NoDup library ->
  Forall (fun tag => tag ∈ library) blacklist ->
  remove_all blacklist library = Some (filter (fun tag => tag ∉ blacklist) library).
Proof.
  revert library. induction blacklist as [|i blacklist IH]; intros library Hnb Hnl Hin.
  - simpl. f_equal. symmetry. apply filter_all.
    apply list.Forall_forall. intros z _. apply not_elem_of_nil.
  - apply NoDup_cons in Hnb as [Hi Hnb]. apply Forall_cons in Hin as [Hil Hin].
    simpl. rewrite list_remove_filter by done. simpl.
    rewrite IH.
    + f_equal. rewrite list_filter_filter. apply list_filter_iff.
      intros tag. rewrite not_elem_of_cons. tauto.
    + done.
    + by apply NoDup_filter.
    + apply list.Forall_forall. intros tag Htag.
      rewrite list.Forall_forall in Hin. apply list_elem_of_filter.
      split; [|by apply Hin]. intros ->. done.
Qed.


Lemma NoDup_available_estimators : NoDup available_estimators.
Proof. by_computation. Qed.

Lemma has_unavailable_false (l : option (list string)) :
  Forall (fun tag => tag ∈ available_estimators) (default [] l) ->
  has_unavailable l = false.
Proof.
  destruct l as [l|]; [|done]. apply has_unavailable_whitelist.
Qed.

(** The library step of [compare_models]. *)
Lemma library_returns (blacklist : option (list string)) (turbo : bool) st :
  Forall (fun tag => tag ∈ available_estimators) (default [] blacklist) ->
  (turbo = false -> NoDup (default [] blacklist)) ->
  match blacklist with
  | Some blacklist =>
      let blacklist :=
        if turbo then remove_dups (blacklist ++ internal_blacklist) else blacklist in
      need "ValueError" (remove_all blacklist available_estimators)
  | None => ret (if turbo then turbo_library else available_estimators)
  end st
  = (Ok (compared_tags blacklist None turbo), st).
Proof.
  intros Hav Hnd. unfold compared_tags, excluded.
  destruct blacklist as [bl|]; simpl in *.
  - destruct turbo.
    + rewrite remove_all_filter.
      * simpl. unfold ret. do 2 f_equal. apply list_filter_iff.
        intros tag. by rewrite elem_of_remove_dups.
      * apply NoDup_remove_dups.
      * apply NoDup_available_estimators.
      * apply list.Forall_forall. intros tag Htag.
        apply elem_of_remove_dups, elem_of_app in Htag as [Htag|Htag].
        -- rewrite list.Forall_forall in Hav. by apply Hav.
        -- revert tag Htag. apply list.Forall_forall. by_computation.
    + rewrite remove_all_filter; [|by apply Hnd|apply NoDup_available_estimators|done].
      simpl. by rewrite app_nil_r.
  - by destruct turbo.
Qed.

Lemma compared_tags_available blacklist whitelist turbo :
  Forall (fun tag => tag ∈ available_estimators) (default [] whitelist) ->
  Forall (fun tag => tag ∈ available_estimators) (compared_tags blacklist whitelist turbo).
Proof.
  intros Hwl. unfold compared_tags. destruct whitelist as [wl|]; [done|]. simpl.
  apply list.Forall_forall. intros tag Htag.
  by apply list_elem_of_filter in Htag as [_ ?].
Qed.

Lemma recorded_snoc trained mg st :
  recorded (trained ++ [mg]) st = stored mg.2 mg.1 (recorded trained st).
Proof. unfold recorded. by rewrite foldl_app. Qed.

Lemma recorded_containers trained st :
  create_model_container (recorded trained st) = create_model_container st ++ trained.*2
  /\ master_model_container (recorded trained st)
     = master_model_container st ++ trained.*1
  /\ display_container (recorded trained st)
     = display_container st ++ (GridTable <$> trained.*2)
  /\ same_experiment st (recorded trained st).
Proof.
  revert st. induction trained as [|mg trained IH]; intros st.
  - simpl. rewrite !app_nil_r. split_and!; done.
  - unfold recorded. simpl. fold (recorded trained (stored mg.2 mg.1 st)).
    destruct (IH (stored mg.2 mg.1 st)) as (IH1 & IH2 & IH3 & IH4).
    rewrite IH1, IH2, IH3.
    rewrite stored_create_model_container, stored_master_model_container,
      stored_display_container, <- !(assoc_L (++)).
    split_and!; try done.
Qed.

Lemma trained_same st st' model fold round :
  same_experiment st st' ->
  trained_model st' model fold = trained_model st model fold
  /\ trained_grid st' model fold round = trained_grid st model fold round.
Proof.
  intros Hsame. unfold trained_model, trained_grid.
  rewrite (cross_validated_same _ _ _ _ Hsame).
  destruct Hsame as (_ & _ & -> & -> & _). done.
Qed.

Lemma retrain_same st st' name : same_experiment st st' -> retrain st' name = retrain st name.
Proof.
  intros Hsame. unfold retrain.
  destruct (dict_get compare_model_dict name) as [tag|]; [|done]. simpl.
  assert (seed st' = seed st) as -> by (by destruct Hsame as (_&_&_&_&_&_&?&_)).
  by destruct (trained_same st st' (construct tag (seed st) no_kwargs) 10 4 Hsame)
    as [-> ->].
Qed.

(** The models selected from the ranked table are trained again, each
    call storing its results. *)
Lemma create_selected_records (names : list string) st :
  Forall known_name names ->
  (10 <= length (X_train st))%nat ->
  exists trained,
    mapM (retrain st) names = Some trained
    /\ for_each (fun i => bind (need "AttributeError" (dict_get compare_model_dict i))
                            (fun k => create_model (ByTag k) false None 10 4 true false
                                        false no_kwargs))
         names st
       = (Ok trained.*1, recorded trained st).
Proof.
  intros Hnames. revert st.
  induction Hnames as [|name names (tag & Htag & Havail) _ IH]; intros st Hn.
  - by exists [].
  - set (model := construct tag (seed st) no_kwargs).
    set (st1 := stored (trained_grid st model 10 4) (trained_model st model 10) st).
    assert (same_experiment st st1) as Hsame by apply same_experiment_stored.
    destruct (IH st1) as (trained & Hmap & Hrun); [done|].
    exists ((trained_model st model 10, trained_grid st model 10 4) :: trained). split.
    + apply mapM_Some_2. constructor.
      * unfold retrain. by rewrite Htag.
      * apply mapM_Some_1. rewrite <- Hmap. apply mapM_ext.
        intros name'. symmetry. by apply retrain_same.
    + cbn [for_each]. erewrite bind_returns.
      2:{ rewrite Htag. erewrite bind_returns by done.
          apply create_model_trains; [by split|lia|]. by rewrite Z2Nat.inj_pos. }
      change (recipe st (ByTag tag) None no_kwargs) with model.
      fold st1. by erewrite bind_returns by exact Hrun.
Qed.

Lemma selected_names_known n_select (table : list (string * Scores)) :
  Forall known_name table.*1 -> Forall known_name (selected_names n_select table).
Proof.
  intros Hall. unfold selected_names, slice_from, slice_to.
  repeat destruct (decide _); by (apply Forall_take || apply Forall_drop).
Qed.

(** A [compare_models] call whose arguments pass the checks: the table of
    the tags it is left with, the models trained again, and the state. *)
Lemma compare_models_runs blacklist whitelist fold round sort d n_select turbo verbose st :
  Forall (fun tag => tag ∈ available_estimators) (default [] blacklist) ->
  Forall (fun tag => tag ∈ available_estimators) (default [] whitelist) ->
  (turbo = false -> NoDup (default [] blacklist)) ->
  (whitelist = None \/ blacklist = None) ->
  compare_dimension_of sort = Some d ->
  (2 <= fold)%Z ->
  (Z.to_nat fold <= length (X_train st))%nat ->
  (10 <= length (X_train st))%nat ->
  exists table trained,
    compare_models blacklist whitelist fold round sort n_select turbo verbose st
    = (Ok (returned_models trained.*1),
       set_display_container (fun c => c ++ [CompareTable table]) (recorded trained st))
    /\ table.*1 ≡ₚ shown_names (compared_tags blacklist whitelist turbo)
    /\ StronglySorted (ranked_before d) table
    /\ mapM (retrain st) (selected_names n_select table) = Some trained.
Proof.
  intros Hbl Hwl Hnd Hone Hd Hfold Hn Hn10.
  pose proof (compared_tags_available blacklist whitelist turbo Hwl) as Htags.
  destruct (shown_names_library _ Htags) as (Hlib & Hlen & Hknown).
  assert (default (compared_tags blacklist None turbo) whitelist
          = compared_tags blacklist whitelist turbo) as Hdefault by (by destruct whitelist).
  destruct (compare_loop_runs (Z.to_nat fold) round d
              (omap (fun tag => name ← dict_get model_names tag; Some (tag, name))
                 (compared_tags blacklist whitelist turbo))
              (fun tag => construct tag (seed st) no_kwargs) [] st Hn)
    as (table & Hloop & Hperm & Hsorted); [constructor|].
  rewrite Hlib in Hperm. simpl in Hperm.
  assert (Forall known_name table.*1) as Htable by (by rewrite Hperm).
  destruct (create_selected_records (selected_names n_select table) st) as (trained & Hmap & Hcreate);
    [by apply selected_names_known|done|].
  exists table, trained. split; [|done].
  unfold compare_models.
  rewrite (has_unavailable_false _ Hbl), (has_unavailable_false _ Hwl).
  rewrite (bool_decide_eq_false_2 (whitelist <> None /\ blacklist <> None))
    by (intros [? ?]; by destruct Hone).
  rewrite (bool_decide_eq_false_2 (sort ∉ allowed_sort))
    by (intros Hnot; by apply Hnot, (compare_dimension_of_allowed _ d)).
  do 4 (erewrite bind_returns by done).
  erewrite bind_returns by done.
  erewrite bind_returns by (by apply library_returns).
  rewrite Hdefault.
  erewrite bind_returns by (by apply KFold_returns).
  erewrite bind_returns by (by rewrite Hd).
  erewrite bind_returns by exact Hloop.
  erewrite bind_returns by exact Hcreate.
  erewrite bind_returns by done.
  done.
Qed.

End MoreCompareFacts.

(** ** Facts about the blended and stacked ensembles *)

Section BlendFacts.
Context `{Ensembles}.
Implicit Types (st : State) (model : Regressor).


Lemma same_experiment_sym st st' : same_experiment st st' -> same_experiment st' st.
Proof. unfold same_experiment. intros Hs. destruct_and!. by split_and!. Qed.





(** Picking the winner: position 0 is the ensemble, position [S i] the
    [i]-th base model. *)
Lemma select_model_lookup k model (base_models_ : list Regressor) returned st :
  (model :: base_models_) !! k = Some returned ->
  select_model k model base_models_ st = (Ok returned, st).
Proof.
  destruct k as [|i]; simpl; [by intros [= ->]|]. intros Hk. by rewrite Hk.
Qed.

Lemma picks_first_best d scorer (candidates : list Regressor) model base_models_
    (logging : bool) st :
  candidates = model :: base_models_ ->
  length scorer = length candidates ->
  exists k best returned,
    bind (need "UnboundLocalError" (Some d))
      (fun d => bind (need "ValueError" (index_scorer d scorer))
         (fun index_scorer => bind (select_model index_scorer model base_models_)
            (fun model =>
               bind (if logging then bind (log_holdout model) (fun _ => ret tt)
                     else ret tt)
                 (fun _ => ret model)))) st
    = (Ok returned, st)
    /\ candidates !! k = Some returned
    /\ scorer !! k = Some best
    /\ (forall v, v ∈ scorer -> if decide (d = R2) then (v <= best)%R else (best <= v)%R)
    /\ (forall j, scorer !! j = Some best -> k <= j).
Proof.
  intros -> Hlen.
  assert (scorer <> []) as Hne by (by destruct scorer).
  destruct (index_scorer_non_empty d scorer Hne) as (k & Hk & Hlt).
  destruct (index_scorer_spec _ _ _ Hk) as (best & Hbest & Hopt & Hfirst).
  destruct (lookup_lt_is_Some_2 (model :: base_models_) k) as [returned Hret]; [lia|].
  exists k, best, returned. split_and!; try done.
  - erewrite bind_returns by done.
    erewrite bind_returns by (by rewrite Hk).
    erewrite bind_returns by (by apply select_model_lookup).
    apply final_logging.
  - intros j Hj. destruct (decide (k <= j)) as [|Hgt]; [done|].
    exfalso. apply (Hfirst j best); [lia|done|done].
Qed.

End BlendFacts.

(** ** create_model, pull and finalize_model at their edges *)

Section TrainerEdges.
Context `{Sklearn}.
Implicit Types (st : State) (model : Regressor).

Lemma estimator_available_check estimator :
  estimator_available estimator ->
  match estimator with
  | ByTag tag => bool_decide (tag ∉ available_estimators)
  | ByObject _ => false
  end = false.
Proof.
  destruct estimator as [tag|e]; [|done]. intros Htag.
  apply bool_decide_eq_false_2. by intros Hnot.
Qed.

(** X1. The three mismatches of [ensemble] and [method] each end
    [create_model] in [sys.exit] with their own message before anything is
    trained or recorded. *)
Theorem create_model_method_checks estimator fold round cross_validation verbose system
    kwargs st :
  estimator_available estimator ->
  (forall m,
     create_model estimator false (Some m) fold round cross_validation verbose system
       kwargs st
     = (SysExit "(Type Error): Method parameter only accepts value when ensemble is set to True.",
        st))
  /\ create_model estimator true None fold round cross_validation verbose system kwargs st
     = (SysExit "(Type Error): Method parameter missing. Pass method = 'Bagging' or 'Boosting'.",
        st)
  /\ (forall m,
        m ∉ available_method ->
        create_model estimator true (Some m) fold round cross_validation verbose system
          kwargs st
        = (SysExit "(Value Error): Method parameter only accepts two values 'Bagging' or 'Boosting'.",
           st)).
Proof.
  intros Hav. pose proof (estimator_available_check _ Hav) as Hcheck.
  split_and!.
  - intros m. unfold create_model. rewrite Hcheck.
    erewrite bind_returns by done. by apply bind_exits.
  - unfold create_model. rewrite Hcheck.
    erewrite bind_returns by done. erewrite bind_returns by done. by apply bind_exits.
  - intros m Hm. unfold create_model. rewrite Hcheck.
    do 3 (erewrite bind_returns by done). apply bind_exits.
    cbn. by rewrite bool_decide_eq_false_2.
Qed.

(** X2. [create_model] fails cleanly: a call that ends in [sys.exit] or in
    an exception has changed neither the experiment context nor a result
    container. *)
Theorem create_model_failure_leaves_state
    estimator ensemble method fold round cross_validation verbose system kwargs st
    outcome st' :
  create_model estimator ensemble method fold round cross_validation verbose system kwargs
    st = (outcome, st') ->
  (forall model, outcome <> Ok model) ->
  st' = st.
Proof.
  intros Hrun Hfail. unfold create_model in Hrun.
  repeat match type of Hrun with
  | bind (exit_if ?b _) _ _ = _ =>
      destruct b; [rewrite (bind_exits _ _ _ _ st) in Hrun by done; by simplify_eq|];
      rewrite (bind_returns _ _ _ tt st) in Hrun by done
  end.
  rewrite (bind_returns _ _ _ st st) in Hrun by done.
  destruct (decide (fold <= 1)%Z) as [Hf|Hf].
  { rewrite (bind_raises _ _ _ _ st) in Hrun by (by apply KFold_raises). by simplify_eq. }
  rewrite (bind_returns _ _ _ (Z.to_nat fold) st) in Hrun by (apply KFold_returns; lia).
  cbv zeta in Hrun. destruct cross_validation; cbn [negb] in Hrun; cbv iota in Hrun.
  - destruct (decide (length (X_train st) < Z.to_nat fold)) as [Hn|Hn].
    { rewrite (bind_raises _ _ _ _ st) in Hrun by (by apply kf_split_raises).
      by simplify_eq. }
    rewrite (bind_returns _ _ _ _ st) in Hrun by (apply kf_split_returns; lia).
    destruct (cv_loop _ _ _ _ _) as [m scores].
    destruct (log_holdout_returns (fit m (X_train st) (y_train st)) st) as [t Ht].
    assert ((if logging_param st && system
             then bind (log_holdout (fit m (X_train st) (y_train st))) (fun _ => ret tt)
             else ret tt) st = (Ok tt, st)) as Hlog.
    { destruct (logging_param st && system); [|done]. by erewrite bind_returns by exact Ht. }
    rewrite (bind_returns _ _ _ _ _ Hlog) in Hrun.
    erewrite bind_returns in Hrun by apply store_results_returns.
    unfold ret in Hrun. simplify_eq. by destruct (Hfail (fit m (X_train st) (y_train st))).
  - unfold ret in Hrun. simplify_eq. by edestruct Hfail.
Qed.


(** X4. [pull] after a cross-validated [create_model] returns the score
    grid of that call, the one now last in [create_model_container], and the
    model returned is the last of [master_model_container]. *)
Theorem pull_after_create_model
    estimator ensemble method fold round verbose system kwargs st model st' :
  create_model estimator ensemble method fold round true verbose system kwargs st
  = (Ok model, st') ->
  exists grid,
    pull st' = (Ok (GridTable grid), st')
    /\ from_end 1 (create_model_container st') = Some grid
    /\ from_end 1 (master_model_container st') = Some model.
Proof.
  intros Hrun. apply create_model_Ok_inv in Hrun as Hpre.
  destruct Hpre as (Hsup & Hfold & Hn).
  rewrite (create_model_trains _ _ _ _ _ _ _ _ _ Hsup Hfold (Hn eq_refl)) in Hrun.
  apply Ok_pair_inv in Hrun as [-> ->].
  eexists. split_and!.
  - eapply pull_snoc. apply stored_display_container.
  - by rewrite stored_create_model_container, from_end_1_snoc.
  - by rewrite stored_master_model_container, from_end_1_snoc.
Qed.


(** X5. [finalize_model] is not free of side effects: besides returning a
    clone of the estimator fitted on the whole dataset, it cross-validates
    the estimator on the training partition with the default 10 folds and
    appends that grid and that model to the result containers.  On fewer
    than 10 training rows it raises ValueError and records nothing. *)
Theorem finalize_model_records estimator st :
  if decide (10 <= length (X_train st)) then
    exists grid model st',
      finalize_model estimator st = (Ok (fit (clone estimator) (X st) (y st)), st')
      /\ results_appended grid model st st'
      /\ same_experiment st st'
      /\ length grid = 12
      /\ model = fit (cross_validated st estimator 10).1 (X_train st) (y_train st)
  else finalize_model estimator st = (Raise "ValueError", st).
Proof.
  destruct (decide _) as [Hn|Hn].
  - eexists _, _, _. split; [by apply finalize_model_returns|].
    rewrite (length_model_results), length_cross_validated.
    split_and!; done.
  - unfold finalize_model. erewrite bind_returns by done.
    apply bind_raises.
    apply create_model_too_few_rows; [apply supported_object|lia|simpl; lia].
Qed.

End TrainerEdges.

(** ** automl at its edges *)

Section SelectorEdges.
Context `{Sklearn}.
Implicit Types (st : State) (model : Regressor).
Local Open Scope R_scope.





(** X7. On an empty history [automl] has nothing to choose from: [max] or
    [min] of the empty score list is a ValueError, and the state is left as
    it was. *)
Theorem automl_empty_history optimize d st :
  compare_dimension_of optimize = Some d ->
  (create_model_container st = [] -> automl optimize false st = (Raise "ValueError", st))
  /\ (master_model_container st = [] -> automl optimize true st = (Raise "ValueError", st)).
Proof.
  intros Hd.
  split; intros Hempty; unfold automl; rewrite Hd;
    erewrite bind_returns by done; cbv beta iota; rewrite Hempty; cbn [for_each];
    erewrite bind_returns by done; erewrite bind_returns by done;
    apply bind_raises; unfold index_scorer; by destruct (decide _).
Qed.


End SelectorEdges.

(** ** tune_model and ensemble_model at their edges *)

Section WrapperEdges.
Context `{Sklearn}.
Implicit Types (st : State) (model : Regressor).

(** X9. The argument checks of the two wrappers.  [tune_model] refuses a
    catalog tag in place of a trained model and an [optimize] outside its
    six metrics; [ensemble_model] refuses a [method] other than ['Bagging']
    and ['Boosting'].  Each check ends the call in [sys.exit] before
    anything is searched, trained or recorded. *)
Theorem wrapper_argument_checks fold round n_iter n_estimators custom_grid optimize
    choose_better verbose st :
  (forall tag,
     tune_model (ByTag tag) fold round n_iter custom_grid optimize choose_better verbose st
     = (SysExit "(Type Error): The behavior of tune_model in version 1.0.1 is changed. Please pass trained model object.",
        st))
  /\ (forall e,
        optimize ∉ allowed_optimize ->
        tune_model (ByObject e) fold round n_iter custom_grid optimize choose_better
          verbose st
        = (SysExit "(Value Error): Optimization method not supported. See docstring for list of available parameters.",
           st))
  /\ (forall estimator method,
        method ∉ available_method ->
        ensemble_model estimator method fold n_estimators round choose_better optimize
          verbose st
        = (SysExit "(Value Error): Method parameter only accepts two values 'Bagging' or 'Boosting'.",
           st)).
Proof.
  split; [done|]. split.
  - intros e Hopt. unfold tune_model.
    apply bind_exits. by rewrite bool_decide_eq_true_2.
  - intros estimator method Hm. unfold ensemble_model.
    apply bind_exits. by rewrite bool_decide_eq_true_2.
Qed.

(** The prefix shared by the failing comparisons: the ensemble is
    cross-validated and recorded before the base model is trained. *)
Lemma ensemble_model_after_store estimator method fold n_estimators round optimize
    verbose st :
  method ∈ available_method ->
  (2 <= fold)%Z ->
  Z.to_nat fold <= length (X_train st) ->
  let model := wrapped st estimator method n_estimators in
  let kept := trained_model st model fold in
  let st1 := stored (trained_grid st model fold round) kept st in
  ensemble_model estimator method fold n_estimators round true optimize verbose st
  = bind
      (bind (create_model (ByObject estimator) false None 10 4 true false true no_kwargs)
         (fun base_model =>
            bind (recorded_mean 1 (compare_dimension_of optimize))
              (fun base_model_results =>
                 bind (recorded_mean 2 (compare_dimension_of optimize))
                   (fun ensembled_model_results =>
                      bind (need "UnboundLocalError" (compare_dimension_of optimize))
                        (fun d =>
                           bind display_container_pop
                             (fun _ =>
                                ret (choose_better_model d ensembled_model_results
                                       base_model_results kept base_model)))))))
      (fun model =>
         bind (if logging_param st then bind (log_holdout model) (fun _ => ret tt)
               else ret tt)
           (fun _ => ret model))
      st1.
Proof.
  intros Hm Hfold Hn. cbv zeta. unfold ensemble_model.
  rewrite bool_decide_eq_false_2 by (by intros ?).
  erewrite bind_returns by done.
  erewrite bind_returns by done.
  erewrite bind_returns by (by apply KFold_returns).
  erewrite bind_returns by (by apply kf_split_returns).
  unfold trained_model, trained_grid, cross_validated, wrapped.
  destruct (cv_loop _ _ _ _ _) as [m scores]. cbn [fst snd].
  by erewrite bind_returns by apply store_results_returns.
Qed.

(** X10. A choose-better comparison can fail after the ensemble was
    recorded.  The base model is trained with [create_model]'s default 10
    folds whatever [fold] is, so on a training partition of fewer than 10
    rows [ensemble_model(choose_better=True)] raises ValueError, and the
    ensemble's grid and model stay appended to the three containers. *)
Theorem ensemble_model_fails_after_recording estimator method fold n_estimators round
    optimize verbose st :
  method ∈ available_method ->
  (2 <= fold)%Z ->
  Z.to_nat fold <= length (X_train st) ->
  length (X_train st) < 10 ->
  exists grid model st',
    ensemble_model estimator method fold n_estimators round true optimize verbose st
    = (Raise "ValueError", st')
    /\ results_appended grid model st st'
    /\ length grid = Z.to_nat fold + 2.
Proof.
  intros Hm Hfold Hn Hn10.
  rewrite (ensemble_model_after_store _ _ _ _ _ _ _ _ Hm Hfold Hn). cbv zeta.
  eexists _, _, _. split.
  - apply bind_raises. apply bind_raises.
    apply create_model_too_few_rows; [done|lia|]. by rewrite Z2Nat.inj_pos.
  - split; [done|]. unfold trained_grid.
    by rewrite length_model_results, length_cross_validated.
Qed.

(** X11. [ensemble_model] does not validate [optimize].  With a
    choose-better comparison and a name outside the six metrics, the call
    raises UnboundLocalError when it first reads the comparison column: by
    then the ensemble and the base model are both recorded, and the base
    model's grid is still in [display_container]. *)
Theorem ensemble_model_unknown_metric estimator method fold n_estimators round optimize
    verbose st :
  method ∈ available_method ->
  (2 <= fold)%Z ->
  Z.to_nat fold <= length (X_train st) ->
  10 <= length (X_train st) ->
  compare_dimension_of optimize = None ->
  exists grid model base_grid base_model st',
    ensemble_model estimator method fold n_estimators round true optimize verbose st
    = (Raise "UnboundLocalError", st')
    /\ create_model_container st' = create_model_container st ++ [grid; base_grid]
    /\ master_model_container st' = master_model_container st ++ [model; base_model]
    /\ display_container st'
       = display_container st ++ [GridTable grid; GridTable base_grid].
Proof.
  intros Hm Hfold Hn Hn10 Hd.
  rewrite (ensemble_model_after_store _ _ _ _ _ _ _ _ Hm Hfold Hn). cbv zeta.
  rewrite Hd.
  eexists _, _, _, _, _. split.
  - apply bind_raises.
    erewrite bind_returns.
    2:{ apply create_model_trains; [apply supported_object|lia|].
        by rewrite Z2Nat.inj_pos. }
    apply bind_raises. unfold recorded_mean.
    erewrite bind_returns by done.
    erewrite bind_returns.
    2:{ rewrite stored_create_model_container, from_end_1_snoc. done. }
    by apply bind_raises.
  - rewrite !stored_create_model_container, !stored_master_model_container,
      !stored_display_container, <- !(assoc_L (++)). done.
Qed.

End WrapperEdges.

(** ** save_model and load_model at their edges *)

Section PersistenceEdges.
Context `{Sklearn}.
Implicit Types (st : State) (model : Model).

Lemma length_append (s t : string) :
  String.length (s +:+ t) = String.length s + String.length t.
Proof. induction s as [|c s IH]; simpl; [done|]. by rewrite IH. Qed.

Lemma append_inj_r (s1 s2 t : string) : s1 +:+ t = s2 +:+ t -> s1 = s2.
Proof.
  revert s2. induction s1 as [|c s1 IH]; intros [|c' s2] Heq; simpl in Heq.
  - done.
  - apply (f_equal String.length) in Heq.
    rewrite !length_append in Heq. simpl in Heq. lia.
  - apply (f_equal String.length) in Heq.
    rewrite !length_append in Heq. simpl in Heq. lia.
  - injection Heq as -> Heq. f_equal. by apply IH.
Qed.


(** X13. [save_model] writes the one file [model_name + '.pkl']: saving
    again under the same name replaces what was saved before, a later load
    returns the pipeline around the model saved last, saving under another
    name does not change what a load of this name returns, and the result
    containers are never touched. *)
Theorem save_model_overwrites model model' model_name other verbose steps st :
  prep_pipe st = Some steps ->
  other <> model_name ->
  exists st1 st2 st3,
    save_model model model_name false verbose st = (Ok tt, st1)
    /\ save_model model' model_name false verbose st1 = (Ok tt, st2)
    /\ load_model model_name None None verbose st2
       = (Ok (Some (Pipeline steps model')), st2)
    /\ save_model model other false verbose st2 = (Ok tt, st3)
    /\ load_model model_name None None verbose st3
       = (Ok (Some (Pipeline steps model')), st3)
    /\ create_model_container st3 = create_model_container st
    /\ master_model_container st3 = master_model_container st
    /\ display_container st3 = display_container st.
Proof.
  intros Hpipe Hother.
  assert (forall m name st0,
            prep_pipe st0 = Some steps ->
            save_model m name false verbose st0
            = (Ok tt, set_files (fun f => <[name +:+ ".pkl" := Pipeline steps m]> f) st0))
    as Hsave.
  { intros m name st0 Hp.
    unfold save_model, bind, get_state, need, joblib_dump, modify, ret. simpl.
    by rewrite Hp. }
  assert (forall name st0 m,
            files st0 !! (name +:+ ".pkl") = Some m ->
            load_model name None None verbose st0 = (Ok (Some m), st0)) as Hload.
  { intros name st0 m Hf.
    unfold load_model, exit_if, joblib_load, bind, get_state, need, ret. simpl.
    by rewrite Hf. }
  eexists _, _, _. split; [by apply Hsave|]. split; [by apply Hsave|].
  split; [apply Hload; simpl; by rewrite lookup_insert_eq|].
  split; [by apply Hsave|].
  split; [|done].
  apply Hload. simpl. rewrite lookup_insert_ne, lookup_insert_eq; [done|].
  intros Heq. by apply append_inj_r in Heq.
Qed.

End PersistenceEdges.

(** ** compare_models: checks, library, selection *)

Section ComparatorEdges.
Context `{Sklearn}.
Implicit Types (st : State).

Lemma has_unavailable_true (l : option (list string)) tag :
  tag ∈ default [] l -> tag ∉ available_estimators -> has_unavailable l = true.
Proof.
  destruct l as [l|]; simpl; [|by intros ?%elem_of_nil].
  intros Hin Hnot. apply bool_decide_eq_true. apply Exists_exists. by exists tag.
Qed.

(** X14. The argument checks of [compare_models], in the order they run: a
    tag outside the catalog in either list, a whitelist together with a
    blacklist, and a [sort] outside the six metrics each end the call in
    [sys.exit] before any model is trained; the state is left as it was. *)
Theorem compare_models_argument_checks blacklist whitelist fold round sort n_select turbo
    verbose st :
  (forall tag,
     tag ∈ default [] blacklist ++ default [] whitelist ->
     tag ∉ available_estimators ->
     compare_models blacklist whitelist fold round sort n_select turbo verbose st
     = (SysExit "(Value Error): Estimator Not Available. Please see docstring for list of available estimators.",
        st))
  /\ (Forall (fun tag => tag ∈ available_estimators)
        (default [] blacklist ++ default [] whitelist) ->
      (whitelist <> None /\ blacklist <> None ->
       compare_models blacklist whitelist fold round sort n_select turbo verbose st
       = (SysExit "(Type Error): Cannot use blacklist parameter when whitelist is used to compare models.",
          st))
      /\ (whitelist = None \/ blacklist = None ->
          sort ∉ allowed_sort ->
          compare_models blacklist whitelist fold round sort n_select turbo verbose st
          = (SysExit "(Value Error): Sort method not supported. See docstring for list of available parameters.",
             st))).
Proof.
  split.
  - intros tag Htag Hnot. unfold compare_models.
    destruct (has_unavailable blacklist) eqn:Hb; [by apply bind_exits|].
    erewrite bind_returns by done.
    apply bind_exits. apply elem_of_app in Htag as [Htag|Htag].
    + by rewrite (has_unavailable_true _ _ Htag Hnot) in Hb.
    + by rewrite (has_unavailable_true _ _ Htag Hnot).
  - intros Hav. apply Forall_app in Hav as [Hbl Hwl]. split.
    + intros Hboth. unfold compare_models.
      rewrite (has_unavailable_false _ Hbl), (has_unavailable_false _ Hwl).
      do 2 (erewrite bind_returns by done).
      apply bind_exits. by rewrite bool_decide_eq_true_2.
    + intros Hone Hsort. unfold compare_models.
      rewrite (has_unavailable_false _ Hbl), (has_unavailable_false _ Hwl).
      rewrite (bool_decide_eq_false_2 (whitelist <> None /\ blacklist <> None))
        by (intros [? ?]; by destruct Hone).
      do 3 (erewrite bind_returns by done).
      apply bind_exits. by rewrite bool_decide_eq_true_2.
Qed.



(** X17. [compare_models] with a whitelist trains the selected models again
    and records them: the first [n_select] names of the ranked table (the
    last [-n_select] for a negative count) are each handed to
    [create_model] with its defaults, which appends one grid and one model
    per name; the ranked table is appended to [display_container] last.
    One selected model is returned as itself, any other number as a
    list. *)
Theorem compare_models_selects whitelist fold round sort d n_select turbo verbose st :
  Forall (fun tag => tag ∈ available_estimators) whitelist ->
  compare_dimension_of sort = Some d ->
  (2 <= fold)%Z ->
  Z.to_nat fold <= length (X_train st) ->
  10 <= length (X_train st) ->
  exists table trained st',
    compare_models None (Some whitelist) fold round sort n_select turbo verbose st
    = (Ok (returned_models trained.*1), st')
    /\ table.*1 ≡ₚ shown_names whitelist
    /\ mapM (retrain st) (selected_names n_select table) = Some trained
    /\ ((0 <= n_select)%Z -> length trained = Z.to_nat n_select `min` length whitelist)
    /\ create_model_container st' = create_model_container st ++ trained.*2
    /\ master_model_container st' = master_model_container st ++ trained.*1
    /\ display_container st'
       = display_container st ++ (GridTable <$> trained.*2) ++ [CompareTable table]
    /\ same_experiment st st'.
Proof.
  intros Hwl Hd Hfold Hn Hn10.
  destruct (compare_models_runs None (Some whitelist) fold round sort d n_select turbo
              verbose st)
    as (table & trained & Hrun & Hperm & _ & Hmap);
    [done|done|intros _; apply NoDup_nil_2|by right|done..|].
  change (compared_tags None (Some whitelist) turbo) with whitelist in Hperm.
  destruct (recorded_containers trained st) as (Hc & Hm & Hdc & Hsame).
  exists table, trained. eexists. split; [exact Hrun|].
  split; [exact Hperm|]. split; [exact Hmap|]. split_and!.
  - intros Hpos. apply length_mapM in Hmap as <-.
    unfold selected_names. rewrite decide_False by lia.
    unfold slice_to. rewrite decide_True by done.
    rewrite length_take, length_fmap.
    apply Permutation_length in Hperm. rewrite length_fmap in Hperm. rewrite Hperm.
    by destruct (shown_names_library whitelist Hwl) as (_ & -> & _).
  - exact Hc.
  - exact Hm.
  - simpl. rewrite Hdc. by rewrite <- (assoc_L (++)).
  - exact Hsame.
Qed.

End ComparatorEdges.

(** ** The catalog and the configuration *)

Section CatalogFacts.

(** X18. The catalog [models()] lists is the catalog the trainers use: its
    IDs are exactly the tags [create_model] accepts, in the same order;
    every row shows the name [compare_models] ranks that tag under; and the
    rows flagged [Turbo] are exactly the library [compare_models] runs with
    [turbo=True].  A [type] other than the three filter names gives this
    whole table. *)
Theorem models_catalog (type : option string) :
  type ∉ [Some "linear"; Some "tree"; Some "ensemble"] ->
  ID <$> models type = available_estimators
  /\ Forall (fun row => dict_get model_names (ID row) = Some (Name row)) (models type)
  /\ ID <$> filter (fun row => Turbo row = true) (models type) = turbo_library.
Proof.
  intros Htype.
  assert (models type = models None) as ->.
  { unfold models. cbv zeta.
    destruct (decide (type = Some "linear")) as [->|_];
      [destruct Htype; apply list_elem_of_here|].
    destruct (decide (type = Some "tree")) as [->|_];
      [destruct Htype; apply list_elem_of_further, list_elem_of_here|].
    destruct (decide (type = Some "ensemble")) as [->|_]; [|done].
    destruct Htype. do 2 apply list_elem_of_further. apply list_elem_of_here. }
  split; [reflexivity|]. split; [|reflexivity]. by_computation.
Qed.

(** X19. The [type] filters of [models()] keep rows of the full table, in
    catalog order: ['linear'], ['tree'] and ['ensemble'] select the models
    of the three lists in the source, and whenever one of them applies the
    rows of ['svm'], ['knn'] and ['mlp'] are dropped, since no list names
    them. *)
Theorem models_type_filters :
  (forall type, sublist (models type) (models None))
  /\ ID <$> models (Some "linear") = linear_models
  /\ ID <$> models (Some "tree") = tree_models
  /\ ID <$> models (Some "ensemble") ≡ₚ ensemble_models
  /\ (forall type,
        type ∈ [Some "linear"; Some "tree"; Some "ensemble"] ->
        Forall (fun row => ID row ∉ ["svm"; "knn"; "mlp"]) (models type)).
Proof.
  split_and!.
  - intros type. unfold models. cbv zeta.
    repeat destruct (decide _); simplify_eq; try apply sublist_filter; done.
  - reflexivity.
  - reflexivity.
  - by_computation.
  - intros type Htype.
    repeat (apply elem_of_cons in Htype as [->|Htype]; [by_computation|]).
    by apply elem_of_nil in Htype.
Qed.

End CatalogFacts.

Section ConfigFacts.
Context {Value : Type}.
Implicit Types (globals : gmap string Value) (value : Value).

Lemma set_config_names variable value (names : list string) globals :
  foldl (fun globals name =>
           if decide (variable = name) then <[name := value]> globals else globals)
    globals names
  = if decide (variable ∈ names) then <[variable := value]> globals else globals.
Proof.
  revert globals. induction names as [|name names IH]; intros globals.
  - destruct (decide (variable ∈ [])) as [Hin|_]; [by apply elem_of_nil in Hin|done].
  - cbn [foldl]. rewrite IH.
    destruct (decide (variable = name)) as [<-|Hne].
    + destruct (decide (variable ∈ variable :: names)) as [_|Hout];
        [|destruct Hout; apply list_elem_of_here].
      destruct (decide (variable ∈ names)); [by rewrite insert_insert_eq|done].
    + destruct (decide (variable ∈ names)) as [Hin|Hout];
        destruct (decide (variable ∈ name :: names)) as [Hin'|Hout']; try done.
      * destruct Hout'. by apply list_elem_of_further.
      * by apply elem_of_cons in Hin' as [?|?].
Qed.

Lemma set_config_insert variable value globals :
  set_config variable value globals
  = if decide (variable ∈ config_variables) then <[variable := value]> globals
    else globals.
Proof. apply set_config_names. Qed.

Lemma read_globals_names variable (names : list string) globals global_var :
  read_globals variable names globals global_var
  = if decide (variable ∈ names) then
      match globals !! variable with
      | Some value => Ok (Some value)
      | None => Raise "NameError"
      end
    else Ok global_var.
Proof.
  revert global_var. induction names as [|name names IH]; intros global_var.
  - destruct (decide (variable ∈ [])) as [Hin|_]; [by apply elem_of_nil in Hin|done].
  - cbn [read_globals]. destruct (decide (variable = name)) as [<-|Hne].
    + destruct (decide (variable ∈ variable :: names)) as [_|Hout];
        [|destruct Hout; apply list_elem_of_here].
      destruct (globals !! variable) as [v|] eqn:Hv; [|done].
      rewrite IH. by destruct (decide _).
    + rewrite IH.
      destruct (decide (variable ∈ names)) as [Hin|Hout];
        destruct (decide (variable ∈ name :: names)) as [Hin'|Hout']; try done.
      * destruct Hout'. by apply list_elem_of_further.
      * by apply elem_of_cons in Hin' as [?|?].
Qed.

Lemma get_config_lookup variable globals :
  get_config variable globals
  = if decide (variable ∈ config_variables) then
      match globals !! variable with
      | Some value => Ok value
      | None => Raise "NameError"
      end
    else Raise "UnboundLocalError".
Proof.
  unfold get_config. rewrite read_globals_names.
  destruct (decide _); [|done]. by destruct (globals !! variable).
Qed.

(** X20. [set_config] followed by [get_config] of the same variable returns
    the value that was set, for each of the 22 variables the two functions
    know, whatever was bound before. *)
Theorem get_config_after_set_config variable value globals :
  variable ∈ config_variables ->
  get_config variable (set_config variable value globals) = Ok value.
Proof.
  intros Hvar. rewrite get_config_lookup, set_config_insert.
  rewrite !decide_True by done. by rewrite lookup_insert_eq.
Qed.

(** X21. [set_config] rebinds one variable only, and only a known one:
    reading any other variable gives what it gave before, and for a name
    outside the 22 known variables [set_config] changes nothing while
    [get_config] raises UnboundLocalError.  A known variable that was never
    bound is a NameError. *)
Theorem set_config_frame variable value globals :
  (forall other,
     other <> variable ->
     get_config other (set_config variable value globals) = get_config other globals)
  /\ (variable ∉ config_variables ->
      set_config variable value globals = globals
      /\ get_config variable globals = Raise "UnboundLocalError")
  /\ (variable ∈ config_variables ->
      globals !! variable = None ->
      get_config variable globals = Raise "NameError").
Proof.
  split_and!.
  - intros other Hne. rewrite !get_config_lookup, set_config_insert.
    destruct (decide (variable ∈ _)); [|done]. by rewrite lookup_insert_ne.
  - intros Hvar. rewrite get_config_lookup, set_config_insert.
    by rewrite !decide_False.
  - intros Hvar Hnone. rewrite get_config_lookup, decide_True by done.
    by rewrite Hnone.
Qed.

End ConfigFacts.

(** ** blend_models *)

Section BlendClaims.
Context `{Ensembles}.
Implicit Types (st : State) (model : Regressor).

(** [blend_models] up to the point where its own results are stored. *)
Lemma blend_models_after_store estimator_list fold round choose_better optimize turbo
    verbose st :
  let l := blend_estimators st estimator_list turbo in
  l <> [] ->
  (2 <= fold)%Z ->
  Z.to_nat fold <= length (X_train st) ->
  let model := trained_model st (blender st l) fold in
  let grid := trained_grid st (blender st l) fold round in
  blend_models estimator_list fold round choose_better optimize turbo verbose st
  = bind (recorded_mean 1 (compare_dimension_of optimize))
      (fun blend_model_results =>
         bind (for_each
                 (fun i =>
                    bind (create_model (ByObject i) false None 10 4 true false false
                            no_kwargs)
                      (fun m =>
                         bind (recorded_mean 1 (compare_dimension_of optimize))
                           (fun s => bind display_container_pop (fun _ => ret (s, m)))))
                 (if compares_bases estimator_list choose_better then l else []))
           (fun scored =>
              bind (need "UnboundLocalError" (compare_dimension_of optimize))
                (fun d =>
                   bind (need "ValueError"
                           (index_scorer d (blend_model_results :: scorer_of scored)))
                     (fun index_scorer =>
                        bind (select_model index_scorer model (base_models_of scored))
                          (fun model =>
                             bind (if logging_param st
                                   then bind (log_holdout model) (fun _ => ret tt)
                                   else ret tt)
                               (fun _ => ret model))))))
      (stored grid model st).
Proof.
  intros l Hne Hfold Hn model grid. unfold blend_models.
  erewrite bind_returns by done.
  erewrite bind_returns by (by apply KFold_returns).
  cbv zeta. fold (blend_estimators st estimator_list turbo). fold l.
  rewrite (bool_decide_eq_false_2 (l = [])) by done.
  erewrite bind_returns by (by apply kf_split_returns).
  erewrite bind_returns by done.
  unfold model, grid, trained_model, trained_grid, cross_validated, blender. fold l.
  destruct (cv_loop _ _ _ _ _) as [m scores]. cbn [fst snd].
  erewrite bind_returns by apply store_results_returns.
  unfold compares_bases.
  by destruct (choose_better && negb _).
Qed.

Lemma own_mean_returns d round scores model st :
  recorded_mean 1 (Some d) (stored (model_results round scores) model st)
  = (Ok (recorded_score d round scores), stored (model_results round scores) model st).
Proof.
  eapply recorded_mean_returns.
  - rewrite stored_create_model_container. apply from_end_1_snoc.
  - apply mean_cell_model_results.
Qed.

(** X22. [blend_models] without a comparison (no [choose_better], or the
    whole library with ['All'], for which [choose_better] is ignored)
    cross-validates the voting ensemble, appends its grid of [fold + 2] rows
    and its model to the three containers, and returns that model. *)
Theorem blend_models_records estimator_list fold round choose_better optimize d turbo
    verbose st :
  compares_bases estimator_list choose_better = false ->
  blend_estimators st estimator_list turbo <> [] ->
  compare_dimension_of optimize = Some d ->
  (2 <= fold)%Z ->
  Z.to_nat fold <= length (X_train st) ->
  exists grid model st',
    blend_models estimator_list fold round choose_better optimize turbo verbose st
    = (Ok model, st')
    /\ results_appended grid model st st'
    /\ length grid = Z.to_nat fold + 2
    /\ model
       = trained_model st (blender st (blend_estimators st estimator_list turbo)) fold.
Proof.
  intros Hplain Hne Hd Hfold Hn.
  rewrite (blend_models_after_store _ _ _ _ _ _ _ _ Hne Hfold Hn). cbv zeta.
  rewrite Hplain, Hd. unfold trained_grid.
  erewrite bind_returns by apply own_mean_returns.
  cbn [for_each]. erewrite bind_returns by done.
  set (model := trained_model st (blender st (blend_estimators st estimator_list turbo))
                  fold).
  set (scores := (cross_validated st (blender st (blend_estimators st estimator_list turbo))
                    fold).2).
  destruct (picks_first_best d [recorded_score d round scores] [model] model []
              (logging_param st) (stored (model_results round scores) model st))
    as (k & best & returned & Hrun & Hk & _); [reflexivity|reflexivity|].
  destruct k as [|k]; [|done]. injection Hk as <-.
  eexists _, _, _. split; [exact Hrun|]. split; [done|]. split; [|done].
  unfold scores. by rewrite length_model_results, length_cross_validated.
Qed.


(** X24. [blend_models] does not validate [optimize]: with a name outside
    the six metrics the call raises UnboundLocalError when it reads the
    comparison column, after the ensemble's grid and model have been
    appended to the three containers. *)
Theorem blend_models_unknown_metric estimator_list fold round choose_better optimize turbo
    verbose st :
  blend_estimators st estimator_list turbo <> [] ->
  compare_dimension_of optimize = None ->
  (2 <= fold)%Z ->
  Z.to_nat fold <= length (X_train st) ->
  exists grid model st',
    blend_models estimator_list fold round choose_better optimize turbo verbose st
    = (Raise "UnboundLocalError", st')
    /\ results_appended grid model st st'.
Proof.
  intros Hne Hd Hfold Hn.
  rewrite (blend_models_after_store _ _ _ _ _ _ _ _ Hne Hfold Hn). cbv zeta.
  rewrite Hd. eexists _, _, _. split.
  - apply bind_raises. unfold recorded_mean.
    erewrite bind_returns by done.
    erewrite bind_returns.
    2:{ rewrite stored_create_model_container, from_end_1_snoc. done. }
    by apply bind_raises.
  - done.
Qed.

End BlendClaims.

(** ** stack_models *)

Section StateFacts.
Context `{Sklearn}.
Implicit Types (st : State).

Lemma keeps_state_bind {A B} (c : M A) (k : A -> M B) :
  keeps_state c -> (forall a, keeps_state (k a)) -> keeps_state (bind c k).
Proof.
  intros Hc Hk st outcome st' Hrun. unfold bind in Hrun.
  destruct (c st) as [[a|message|exception] st1] eqn:Hcst.
  - apply Hc in Hcst as ->. by eapply Hk.
  - apply Hc in Hcst. by simplify_eq.
  - apply Hc in Hcst. by simplify_eq.
Qed.

Lemma keeps_state_ret {A} (a : A) : keeps_state (ret a).
Proof. intros st outcome st' Hrun. unfold ret in Hrun. by simplify_eq. Qed.

Lemma keeps_state_raise {A} exception : keeps_state (@raise _ A exception).
Proof. intros st outcome st' Hrun. unfold raise in Hrun. by simplify_eq. Qed.

Lemma keeps_state_get_state : keeps_state get_state.
Proof. intros st outcome st' Hrun. unfold get_state in Hrun. by simplify_eq. Qed.

Lemma keeps_state_need {A} exception (o : option A) : keeps_state (need exception o).
Proof. destruct o; [apply keeps_state_ret|apply keeps_state_raise]. Qed.

Lemma keeps_state_KFold fold : keeps_state (KFold fold).
Proof.
  unfold KFold. destruct (decide _); [apply keeps_state_raise|apply keeps_state_ret].
Qed.

Lemma keeps_state_kf_split kf : keeps_state (kf_split kf).
Proof.
  unfold kf_split. apply keeps_state_bind; [apply keeps_state_get_state|].
  intros st. destruct (decide _); [apply keeps_state_raise|apply keeps_state_ret].
Qed.

Lemma keeps_state_recorded_mean n compare_dimension :
  keeps_state (recorded_mean n compare_dimension).
Proof.
  unfold recorded_mean.
  repeat (apply keeps_state_bind;
          [first [apply keeps_state_get_state|apply keeps_state_need]|intros ?]).
  apply keeps_state_need.
Qed.

Lemma keeps_state_select_model k model base_models_ :
  keeps_state (select_model k model base_models_).
Proof. destruct k; [apply keeps_state_ret|apply keeps_state_need]. Qed.

Lemma keeps_state_logging (logging : bool) model :
  keeps_state (if logging then bind (log_holdout model) (fun _ => ret tt) else ret tt).
Proof.
  destruct logging; [|apply keeps_state_ret].
  intros st outcome st' Hrun.
  destruct (log_holdout_returns model st) as [t Ht].
  erewrite bind_returns in Hrun by exact Ht. unfold ret in Hrun. by simplify_eq.
Qed.

End StateFacts.

Section StackClaims.
Context `{Ensembles}.
Implicit Types (st : State) (model : Regressor).

(** X25. [stack_models] without a comparison records nothing: whatever the
    outcome of the call, the experiment context and the three result
    containers are as they were before it.  Unlike the other trainers, the
    stacking model and its score grid are never appended. *)
Theorem stack_models_keeps_state estimator_list meta_model fold round restack optimize
    verbose st outcome st' :
  stack_models estimator_list meta_model fold round restack false optimize verbose st
  = (outcome, st') ->
  st' = st.
Proof.
  revert st outcome st'. fold (keeps_state
    (stack_models estimator_list meta_model fold round restack false optimize verbose)).
  unfold stack_models.
  apply keeps_state_bind; [apply keeps_state_get_state|]. intros st.
  apply keeps_state_bind; [apply keeps_state_KFold|]. intros kf. cbv zeta.
  apply keeps_state_bind; [apply keeps_state_kf_split|]. intros splits.
  apply keeps_state_bind.
  { destruct (bool_decide _); [apply keeps_state_raise|apply keeps_state_ret]. }
  intros _. destruct (cv_loop _ _ _ _ _) as [m scores].
  apply keeps_state_bind; [apply keeps_state_recorded_mean|]. intros r.
  apply keeps_state_bind; [apply keeps_state_ret|]. intros scored.
  apply keeps_state_bind; [apply keeps_state_need|]. intros d.
  apply keeps_state_bind; [apply keeps_state_need|]. intros k.
  apply keeps_state_bind; [apply keeps_state_select_model|]. intros model.
  apply keeps_state_bind; [apply keeps_state_logging|]. intros _.
  apply keeps_state_ret.
Qed.

(** X26. [stack_models] reads the stacking model's score from the grid that
    is last in [create_model_container] when it is called, so on an empty
    history no call returns: the read is an IndexError if nothing failed
    before it. *)
Theorem stack_models_needs_history estimator_list meta_model fold round restack
    choose_better optimize verbose st model st' :
  create_model_container st = [] ->
  stack_models estimator_list meta_model fold round restack choose_better optimize verbose
    st <> (Ok model, st').
Proof.
  intros Hempty Hrun. unfold stack_models in Hrun.
  apply bind_Ok_inv in Hrun as (st0 & st1 & Hget & Hrun).
  unfold get_state in Hget. simplify_eq.
  apply bind_Ok_inv in Hrun as (kf & st1 & Hkf & Hrun).
  apply keeps_state_KFold in Hkf as Hst. subst st1. cbv zeta in Hrun.
  apply bind_Ok_inv in Hrun as (splits & st1 & Hsplit & Hrun).
  apply keeps_state_kf_split in Hsplit as Hst. subst st1.
  apply bind_Ok_inv in Hrun as (u & st1 & Hcheck & Hrun).
  assert (st1 = st0) as ->.
  { destruct (bool_decide _); unfold raise, ret in Hcheck; by simplify_eq. }
  destruct (cv_loop _ _ _ _ _) as [m scores].
  apply bind_Ok_inv in Hrun as (r & st1 & Hmean & _).
  unfold recorded_mean in Hmean.
  erewrite bind_returns in Hmean by done.
  rewrite Hempty in Hmean. by rewrite (bind_raises _ _ _ "IndexError" st0) in Hmean.
Qed.

(** [stack_models] up to the point where the stacking model is fitted. *)
Lemma stack_models_after_fit (l : list Regressor) meta_model fold round restack
    choose_better optimize verbose st :
  l <> [] ->
  (2 <= fold)%Z ->
  Z.to_nat fold <= length (X_train st) ->
  let model := trained_model st (stacker st l meta_model fold restack) fold in
  let meta_model_clone := clone (final_estimator st meta_model) in
  stack_models l meta_model fold round restack choose_better optimize verbose st
  = bind (recorded_mean 1 (compare_dimension_of optimize))
      (fun stack_model_results =>
         bind (if choose_better then
                 bind (for_each
                         (fun i =>
                            bind (create_model (ByObject i) false None 10 4 true false true
                                    no_kwargs)
                              (fun m =>
                                 bind (recorded_mean 1 (compare_dimension_of optimize))
                                   (fun s => ret (s, m))))
                         l)
                   (fun scored =>
                      bind (create_model (ByObject meta_model_clone) false None 10 4 true
                              false true no_kwargs)
                        (fun mm =>
                           bind (recorded_mean 1 (compare_dimension_of optimize))
                             (fun s =>
                                bind display_container_pop
                                  (fun _ => ret (scored ++ [(s, mm)])))))
               else ret [])
           (fun scored =>
              bind (need "UnboundLocalError" (compare_dimension_of optimize))
                (fun d =>
                   bind (need "ValueError"
                           (index_scorer d (stack_model_results :: scorer_of scored)))
                     (fun index_scorer =>
                        bind (select_model index_scorer model (base_models_of scored))
                          (fun model =>
                             bind (if logging_param st
                                   then bind (log_holdout model) (fun _ => ret tt)
                                   else ret tt)
                               (fun _ => ret model))))))
      st.
Proof.
  intros Hne Hfold Hn model meta_model_clone. unfold stack_models.
  erewrite bind_returns by done.
  erewrite bind_returns by (by apply KFold_returns).
  cbv zeta.
  rewrite (bool_decide_eq_false_2 (l = [])) by done.
  erewrite bind_returns by (by apply kf_split_returns).
  erewrite bind_returns by done.
  unfold model, meta_model_clone, trained_model, cross_validated, stacker, final_estimator.
  by destruct (cv_loop _ _ _ _ _) as [m scores].
Qed.

(** X27. [stack_models] without a comparison, on a history whose last grid
    has a Mean row: the call returns the stacking model, cross-validated
    and then fitted on the training partition, and the state is the state
    before the call. *)
Theorem stack_models_returns_unrecorded (l : list Regressor) meta_model fold round restack
    optimize d verbose st last v :
  l <> [] ->
  compare_dimension_of optimize = Some d ->
  (2 <= fold)%Z ->
  Z.to_nat fold <= length (X_train st) ->
  from_end 1 (create_model_container st) = Some last ->
  mean_cell d last = Some v ->
  stack_models l meta_model fold round restack false optimize verbose st
  = (Ok (trained_model st (stacker st l meta_model fold restack) fold), st).
Proof.
  intros Hne Hd Hfold Hn Hlast Hv.
  rewrite (stack_models_after_fit _ _ _ _ _ _ _ _ _ Hne Hfold Hn). cbv zeta.
  rewrite Hd.
  erewrite bind_returns by (by eapply recorded_mean_returns).
  erewrite bind_returns by done.
  set (model := trained_model st (stacker st l meta_model fold restack) fold).
  destruct (picks_first_best d [v] [model] model [] (logging_param st) st)
    as (k & best & returned & Hrun & Hk & _); [reflexivity|reflexivity|].
  destruct k as [|k]; [|done]. injection Hk as <-. exact Hrun.
Qed.


End StackClaims.

(** ** Estimator names and classes *)

Section NameFacts.

Lemma pretty_N_char_digit (x : N) : pretty_N_char x <> "_"%char.
Proof. unfold pretty_N_char. by repeat case_match. Qed.

Lemma pretty_N_go_digits (x : N) (s : string) :
  ~ occurs "_" s -> ~ occurs "_" (pretty_N_go x s).
Proof.
  revert s. induction (N.lt_wf_0 x) as [x _ IH]; intros s Hs.
  destruct (decide (x = 0)%N) as [->|Hx]; [by rewrite pretty_N_go_0|].
  rewrite pretty_N_go_step by lia. apply IH.
  - apply N.div_lt; lia.
  - simpl. intros [Hc|Hc]; [|done].
    by apply (pretty_N_char_digit (x `mod` 10)%N).
Qed.

(** [str(counter)] is made of digits. *)
Lemma pretty_nat_digits (counter : nat) : ~ occurs "_" (pretty counter).
Proof.
  unfold pretty, pretty_nat, pretty, pretty_N.
  destruct (decide _).
  - simpl. intros [Hc|[]]. discriminate.
  - apply pretty_N_go_digits. simpl. tauto.
Qed.

(** What follows the last underscore of a name is determined by the
    name. *)
Lemma numbered_suffix (s1 s2 p1 p2 : string) :
  ~ occurs "_" p1 -> ~ occurs "_" p2 ->
  s1 +:+ "_" +:+ p1 = s2 +:+ "_" +:+ p2 -> p1 = p2.
Proof.
  intros Hp1 Hp2. revert s2.
  assert (forall s p, occurs "_" (s +:+ "_" +:+ p)) as Hoccurs.
  { intros s p. induction s as [|c s IH];
      unfold String.append; fold String.append; simpl; [by left|by right]. }
  induction s1 as [|c1 s1 IH]; intros [|c2 s2] Heq;
    unfold String.append in Heq; fold String.append in Heq.
  - by injection Heq.
  - injection Heq as _ ->. destruct Hp1. apply Hoccurs.
  - injection Heq as _ <-. destruct Hp2. apply Hoccurs.
  - injection Heq as _ Heq. by eapply IH.
Qed.

(** X29. The names [blend_models] and [stack_models] hand to
    [VotingRegressor] and [StackingRegressor] are pairwise distinct
    whatever the classes of the estimators, because each name ends in the
    position of its estimator; and the estimators are handed over in list
    order, one name each. *)
Theorem numbered_names_distinct `{Sklearn} (display_name : Regressor -> string)
    (estimator_list : list Regressor) :
  let names := numbered (display_name <$> estimator_list) in
  NoDup names
  /\ length names = length estimator_list
  /\ (zip names estimator_list).*2 = estimator_list.
Proof.
  cbv zeta. unfold numbered. split_and!.
  - apply NoDup_alt. intros i j name Hi Hj.
    rewrite list_lookup_imap in Hi, Hj.
    destruct ((display_name <$> estimator_list) !! i) as [ni|]; [|done].
    destruct ((display_name <$> estimator_list) !! j) as [nj|]; [|done].
    simpl in Hi, Hj. rewrite <- Hj in Hi. injection Hi as Hi.
    apply numbered_suffix in Hi; [|apply pretty_nat_digits..].
    by apply (inj pretty) in Hi.
  - by rewrite length_imap, length_fmap.
  - apply snd_zip. by rewrite length_imap, length_fmap.
Qed.

End NameFacts.

Section TunerEdges.
Context `{Sklearn}.

(** X30. [tune_model] can only tune the classes of its dictionary.  For a
    model of any other class (a voting or stacking ensemble, say) no search
    grid is bound, and the call raises UnboundLocalError with nothing
    recorded. *)
Theorem tune_model_unknown_class estimator fold round n_iter custom_grid optimize
    choose_better verbose st :
  tuned_tag estimator = None ->
  optimize ∈ allowed_optimize ->
  (2 <= fold)%Z ->
  Z.to_nat fold <= length (X_train st) ->
  tune_model (ByObject estimator) fold round n_iter custom_grid optimize choose_better
    verbose st
  = (Raise "UnboundLocalError", st).
Proof.
  intros Htag Hopt Hfold Hn. unfold tune_model.
  rewrite bool_decide_eq_false_2 by (by intros ?).
  erewrite bind_returns by done.
  erewrite bind_returns by done.
  erewrite bind_returns by (by apply KFold_returns).
  erewrite bind_returns by (by apply kf_split_returns).
  fold (tuned_tag estimator). rewrite Htag.
  by apply bind_raises.
Qed.

End TunerEdges.

(** ** The further properties on the small experiment *)

Section MoreToyRuns.
#[local] Existing Instance Toy.sklearn.
#[local] Existing Instance ToyBlend.ensembles.

Lemma toy_lr_available : estimator_available (ByTag "lr").
Proof. change ("lr" ∈ available_estimators). by_computation. Qed.

Lemma create_model_method_checks_witness :
  estimator_available (ByTag "lr")
  /\ (forall m,
        create_model (ByTag "lr") false (Some m) 10 4 true false false tt
          (Toy.experiment Toy.ten_rows)
        = (SysExit "(Type Error): Method parameter only accepts value when ensemble is set to True.",
           Toy.experiment Toy.ten_rows))
  /\ create_model (ByTag "lr") true None 10 4 true false false tt
       (Toy.experiment Toy.ten_rows)
     = (SysExit "(Type Error): Method parameter missing. Pass method = 'Bagging' or 'Boosting'.",
        Toy.experiment Toy.ten_rows)
  /\ (forall m,
        m ∉ available_method ->
        create_model (ByTag "lr") true (Some m) 10 4 true false false tt
          (Toy.experiment Toy.ten_rows)
        = (SysExit "(Value Error): Method parameter only accepts two values 'Bagging' or 'Boosting'.",
           Toy.experiment Toy.ten_rows)).
Proof.
  split; [exact toy_lr_available|].
  exact (create_model_method_checks (ByTag "lr") 10 4 true false false tt
           (Toy.experiment Toy.ten_rows) toy_lr_available).
Defined.

Lemma toy_five_folds_of_four :
  create_model (ByTag "lr") false None 5 4 true false false tt
    (Toy.experiment Toy.four_rows)
  = (Raise "ValueError", Toy.experiment Toy.four_rows).
Proof.
  apply create_model_too_few_rows; [apply toy_supported; by_computation|lia|].
  rewrite toy_rows_4. simpl. lia.
Qed.

Lemma create_model_failure_leaves_state_witness :
  create_model (ByTag "lr") false None 5 4 true false false tt
    (Toy.experiment Toy.four_rows)
  = (Raise "ValueError", Toy.experiment Toy.four_rows)
  /\ (forall model : Regressor, Raise "ValueError" <> Ok model)
  /\ Toy.experiment Toy.four_rows = Toy.experiment Toy.four_rows.
Proof.
  assert (forall model : Regressor, @Raise Regressor "ValueError" <> Ok model) as Hfail
    by done.
  split; [exact toy_five_folds_of_four|]. split; [exact Hfail|].
  exact (create_model_failure_leaves_state (ByTag "lr") false None 5 4 true false false tt
           (Toy.experiment Toy.four_rows) (Raise "ValueError")
           (Toy.experiment Toy.four_rows) toy_five_folds_of_four Hfail).
Defined.


Lemma toy_two_folds_of_four :
  exists model st',
    create_model (ByTag "lr") false None 2 4 true false false tt
      (Toy.experiment Toy.four_rows)
    = (Ok model, st').
Proof.
  eexists _, _.
  apply create_model_trains; [apply toy_supported; by_computation|lia|].
  rewrite toy_rows_4. simpl. lia.
Qed.

Lemma pull_after_create_model_witness :
  exists model st',
    create_model (ByTag "lr") false None 2 4 true false false tt
      (Toy.experiment Toy.four_rows)
    = (Ok model, st')
    /\ exists grid,
        pull st' = (Ok (GridTable grid), st')
        /\ from_end 1 (create_model_container st') = Some grid
        /\ from_end 1 (master_model_container st') = Some model.
Proof.
  destruct toy_two_folds_of_four as (model & st' & Hrun).
  exists model, st'. split; [exact Hrun|].
  exact (pull_after_create_model (ByTag "lr") false None 2 4 false false tt
           (Toy.experiment Toy.four_rows) model st' Hrun).
Defined.


Lemma automl_empty_history_witness :
  compare_dimension_of "MAE" = Some MAE
  /\ (create_model_container (Toy.experiment Toy.ten_rows) = [] ->
      automl "MAE" false (Toy.experiment Toy.ten_rows)
      = (Raise "ValueError", Toy.experiment Toy.ten_rows))
  /\ (master_model_container (Toy.experiment Toy.ten_rows) = [] ->
      automl "MAE" true (Toy.experiment Toy.ten_rows)
      = (Raise "ValueError", Toy.experiment Toy.ten_rows)).
Proof.
  split; [reflexivity|].
  exact (automl_empty_history "MAE" MAE (Toy.experiment Toy.ten_rows) eq_refl).
Defined.


Lemma wrapper_argument_checks_witness :
  ("Accuracy" ∉ allowed_optimize)
  /\ ("Stacking" ∉ available_method)
  /\ tune_model (ByObject tt) 10 4 10 None "Accuracy" false false
       (Toy.experiment Toy.ten_rows)
     = (SysExit "(Value Error): Optimization method not supported. See docstring for list of available parameters.",
        Toy.experiment Toy.ten_rows)
  /\ ensemble_model tt "Stacking" 10 10 4 false "Accuracy" false
       (Toy.experiment Toy.ten_rows)
     = (SysExit "(Value Error): Method parameter only accepts two values 'Bagging' or 'Boosting'.",
        Toy.experiment Toy.ten_rows).
Proof.
  assert ("Accuracy" ∉ allowed_optimize) as Hopt by by_computation.
  assert ("Stacking" ∉ available_method) as Hm by by_computation.
  pose proof (wrapper_argument_checks 10 4 10 10 None "Accuracy" false false
                (Toy.experiment Toy.ten_rows)) as (_ & Htune & Hensemble).
  split; [exact Hopt|]. split; [exact Hm|].
  split; [exact (Htune tt Hopt)|exact (Hensemble tt "Stacking" Hm)].
Defined.

Lemma toy_bagging_available : "Bagging" ∈ available_method.
Proof. by_computation. Qed.

Lemma ensemble_model_fails_after_recording_witness :
  ("Bagging" ∈ available_method)
  /\ (2 <= 2)%Z
  /\ Z.to_nat 2 <= length (X_train (Toy.experiment Toy.four_rows))
  /\ length (X_train (Toy.experiment Toy.four_rows)) < 10
  /\ exists grid model st',
      ensemble_model tt "Bagging" 2 10 4 true "R2" false (Toy.experiment Toy.four_rows)
      = (Raise "ValueError", st')
      /\ results_appended grid model (Toy.experiment Toy.four_rows) st'
      /\ length grid = Z.to_nat 2 + 2.
Proof.
  assert ((2 <= 2)%Z) as Hfold by lia.
  assert (Z.to_nat 2 <= length (X_train (Toy.experiment Toy.four_rows))) as Hn
    by (rewrite toy_rows_4; simpl; lia).
  assert (length (X_train (Toy.experiment Toy.four_rows)) < 10) as Hn10
    by (rewrite toy_rows_4; lia).
  split; [exact toy_bagging_available|]. split; [exact Hfold|].
  split; [exact Hn|]. split; [exact Hn10|].
  exact (ensemble_model_fails_after_recording tt "Bagging" 2 10 4 "R2" false
           (Toy.experiment Toy.four_rows) toy_bagging_available Hfold Hn Hn10).
Defined.

Lemma ensemble_model_unknown_metric_witness :
  ("Bagging" ∈ available_method)
  /\ (2 <= 2)%Z
  /\ Z.to_nat 2 <= length (X_train (Toy.experiment Toy.ten_rows))
  /\ 10 <= length (X_train (Toy.experiment Toy.ten_rows))
  /\ compare_dimension_of "Accuracy" = None
  /\ exists grid model base_grid base_model st',
      ensemble_model tt "Bagging" 2 10 4 true "Accuracy" false
        (Toy.experiment Toy.ten_rows)
      = (Raise "UnboundLocalError", st')
      /\ create_model_container st'
         = create_model_container (Toy.experiment Toy.ten_rows) ++ [grid; base_grid]
      /\ master_model_container st'
         = master_model_container (Toy.experiment Toy.ten_rows) ++ [model; base_model]
      /\ display_container st'
         = display_container (Toy.experiment Toy.ten_rows)
           ++ [GridTable grid; GridTable base_grid].
Proof.
  assert ((2 <= 2)%Z) as Hfold by lia.
  assert (Z.to_nat 2 <= length (X_train (Toy.experiment Toy.ten_rows))) as Hn
    by (rewrite toy_rows_10; simpl; lia).
  assert (10 <= length (X_train (Toy.experiment Toy.ten_rows))) as Hn10
    by (rewrite toy_rows_10; lia).
  split; [exact toy_bagging_available|]. split; [exact Hfold|].
  split; [exact Hn|]. split; [exact Hn10|]. split; [reflexivity|].
  exact (ensemble_model_unknown_metric tt "Bagging" 2 10 4 "Accuracy" false
           (Toy.experiment Toy.ten_rows) toy_bagging_available Hfold Hn Hn10 eq_refl).
Defined.


Lemma save_model_overwrites_witness :
  prep_pipe (Toy.experiment Toy.ten_rows) = Some tt
  /\ "ridge_model" <> "lr_model"
  /\ exists st1 st2 st3,
      save_model (Bare tt) "lr_model" false true (Toy.experiment Toy.ten_rows)
      = (Ok tt, st1)
      /\ save_model (Pipeline tt (Bare tt)) "lr_model" false true st1 = (Ok tt, st2)
      /\ load_model "lr_model" None None true st2
         = (Ok (Some (Pipeline tt (Pipeline tt (Bare tt)))), st2)
      /\ save_model (Bare tt) "ridge_model" false true st2 = (Ok tt, st3)
      /\ load_model "lr_model" None None true st3
         = (Ok (Some (Pipeline tt (Pipeline tt (Bare tt)))), st3)
      /\ create_model_container st3 = create_model_container (Toy.experiment Toy.ten_rows)
      /\ master_model_container st3 = master_model_container (Toy.experiment Toy.ten_rows)
      /\ display_container st3 = display_container (Toy.experiment Toy.ten_rows).
Proof.
  assert ("ridge_model" <> "lr_model") as Hname by done.
  split; [reflexivity|]. split; [exact Hname|].
  exact (save_model_overwrites (Bare tt) (Pipeline tt (Bare tt)) "lr_model" "ridge_model"
           true tt (Toy.experiment Toy.ten_rows) eq_refl Hname).
Defined.

Lemma compare_models_argument_checks_witness :
  ("linreg" ∈ default [] None ++ default [] (Some ["lr"; "linreg"]))
  /\ ("linreg" ∉ available_estimators)
  /\ compare_models None (Some ["lr"; "linreg"]) 10 4 "R2" 1 true false
       (Toy.experiment Toy.ten_rows)
     = (SysExit "(Value Error): Estimator Not Available. Please see docstring for list of available estimators.",
        Toy.experiment Toy.ten_rows).
Proof.
  assert ("linreg" ∈ default [] None ++ default [] (Some ["lr"; "linreg"])) as Hin
    by by_computation.
  assert ("linreg" ∉ available_estimators) as Hnot by by_computation.
  split; [exact Hin|]. split; [exact Hnot|].
  exact (proj1 (compare_models_argument_checks None (Some ["lr"; "linreg"]) 10 4 "R2" 1
                  true false (Toy.experiment Toy.ten_rows)) "linreg" Hin Hnot).
Defined.




Lemma compare_models_selects_witness :
  Forall (fun tag => tag ∈ available_estimators) ["ridge"; "lr"]
  /\ compare_dimension_of "MAE" = Some MAE
  /\ (2 <= 2)%Z
  /\ Z.to_nat 2 <= length (X_train (Toy.experiment Toy.ten_rows))
  /\ 10 <= length (X_train (Toy.experiment Toy.ten_rows))
  /\ exists table trained st',
      compare_models None (Some ["ridge"; "lr"]) 2 4 "MAE" 1 true false
        (Toy.experiment Toy.ten_rows)
      = (Ok (returned_models trained.*1), st')
      /\ table.*1 ≡ₚ shown_names ["ridge"; "lr"]
      /\ mapM (retrain (Toy.experiment Toy.ten_rows)) (selected_names 1 table)
         = Some trained
      /\ ((0 <= 1)%Z -> length trained = Z.to_nat 1 `min` length ["ridge"; "lr"])
      /\ create_model_container st'
         = create_model_container (Toy.experiment Toy.ten_rows) ++ trained.*2
      /\ master_model_container st'
         = master_model_container (Toy.experiment Toy.ten_rows) ++ trained.*1
      /\ display_container st'
         = display_container (Toy.experiment Toy.ten_rows)
           ++ (GridTable <$> trained.*2) ++ [CompareTable table]
      /\ same_experiment (Toy.experiment Toy.ten_rows) st'.
Proof.
  assert (Forall (fun tag => tag ∈ available_estimators) ["ridge"; "lr"]) as Hwl
    by (repeat constructor; by_computation).
  assert ((2 <= 2)%Z) as Hfold by lia.
  assert (Z.to_nat 2 <= length (X_train (Toy.experiment Toy.ten_rows))) as Hn
    by (rewrite toy_rows_10; simpl; lia).
  assert (10 <= length (X_train (Toy.experiment Toy.ten_rows))) as Hn10
    by (rewrite toy_rows_10; lia).
  split; [exact Hwl|]. split; [reflexivity|].
  split; [exact Hfold|]. split; [exact Hn|]. split; [exact Hn10|].
  exact (compare_models_selects ["ridge"; "lr"] 2 4 "MAE" MAE 1 true false
           (Toy.experiment Toy.ten_rows) Hwl eq_refl Hfold Hn Hn10).
Defined.

Lemma models_catalog_witness :
  (Some "boosting" ∉ [Some "linear"; Some "tree"; Some "ensemble"])
  /\ ID <$> models (Some "boosting") = available_estimators
  /\ Forall (fun row => dict_get model_names (ID row) = Some (Name row))
       (models (Some "boosting"))
  /\ ID <$> filter (fun row => Turbo row = true) (models (Some "boosting"))
     = turbo_library.
Proof.
  assert (Some "boosting" ∉ [Some "linear"; Some "tree"; Some "ensemble"]) as Htype
    by by_computation.
  split; [exact Htype|].
  exact (models_catalog (Some "boosting") Htype).
Defined.

Lemma toy_seed_known : "seed" ∈ config_variables.
Proof. by_computation. Qed.

Lemma get_config_after_set_config_witness :
  ("seed" ∈ config_variables)
  /\ get_config "seed" (set_config "seed" 123%Z (∅ : gmap string Z)) = Ok 123%Z.
Proof.
  split; [exact toy_seed_known|].
  exact (get_config_after_set_config "seed" 123%Z ∅ toy_seed_known).
Defined.

Lemma set_config_frame_witness :
  ("fold" ∉ config_variables)
  /\ "X" <> "seed"
  /\ get_config "X" (set_config "seed" 123%Z (∅ : gmap string Z))
     = get_config "X" (∅ : gmap string Z)
  /\ set_config "fold" 5%Z (∅ : gmap string Z) = ∅
  /\ get_config "fold" (∅ : gmap string Z) = Raise "UnboundLocalError"
  /\ get_config "seed" (∅ : gmap string Z) = Raise "NameError".
Proof.
  assert ("fold" ∉ config_variables) as Hfold by by_computation.
  assert ("X" <> "seed") as Hne by done.
  pose proof (set_config_frame "seed" 123%Z (∅ : gmap string Z)) as (Hother & _ & Hunset).
  pose proof (set_config_frame "fold" 5%Z (∅ : gmap string Z)) as (_ & Hunknown & _).
  destruct (Hunknown Hfold) as [Hsame Hraise].
  split; [exact Hfold|]. split; [exact Hne|]. split; [exact (Hother "X" Hne)|].
  split; [exact Hsame|]. split; [exact Hraise|].
  exact (Hunset toy_seed_known eq_refl).
Defined.

Lemma blend_models_records_witness :
  compares_bases All true = false
  /\ blend_estimators (Toy.experiment Toy.ten_rows) All true <> []
  /\ compare_dimension_of "R2" = Some R2
  /\ (2 <= 2)%Z
  /\ Z.to_nat 2 <= length (X_train (Toy.experiment Toy.ten_rows))
  /\ exists grid model st',
      blend_models All 2 4 true "R2" true false (Toy.experiment Toy.ten_rows)
      = (Ok model, st')
      /\ results_appended grid model (Toy.experiment Toy.ten_rows) st'
      /\ length grid = Z.to_nat 2 + 2
      /\ model
         = trained_model (Toy.experiment Toy.ten_rows)
             (blender (Toy.experiment Toy.ten_rows)
                (blend_estimators (Toy.experiment Toy.ten_rows) All true)) 2.
Proof.
  assert (blend_estimators (Toy.experiment Toy.ten_rows) All true <> []) as Hne by done.
  assert ((2 <= 2)%Z) as Hfold by lia.
  assert (Z.to_nat 2 <= length (X_train (Toy.experiment Toy.ten_rows))) as Hn
    by (rewrite toy_rows_10; simpl; lia).
  split; [reflexivity|]. split; [exact Hne|]. split; [reflexivity|].
  split; [exact Hfold|]. split; [exact Hn|].
  exact (blend_models_records All 2 4 true "R2" R2 true false
           (Toy.experiment Toy.ten_rows) eq_refl Hne eq_refl Hfold Hn).
Defined.


Lemma blend_models_unknown_metric_witness :
  blend_estimators (Toy.experiment Toy.ten_rows) (Estimators [tt]) true <> []
  /\ compare_dimension_of "Accuracy" = None
  /\ (2 <= 2)%Z
  /\ Z.to_nat 2 <= length (X_train (Toy.experiment Toy.ten_rows))
  /\ exists grid model st',
      blend_models (Estimators [tt]) 2 4 false "Accuracy" true false
        (Toy.experiment Toy.ten_rows)
      = (Raise "UnboundLocalError", st')
      /\ results_appended grid model (Toy.experiment Toy.ten_rows) st'.
Proof.
  assert (blend_estimators (Toy.experiment Toy.ten_rows) (Estimators [tt]) true <> [])
    as Hne by done.
  assert ((2 <= 2)%Z) as Hfold by lia.
  assert (Z.to_nat 2 <= length (X_train (Toy.experiment Toy.ten_rows))) as Hn
    by (rewrite toy_rows_10; simpl; lia).
  split; [exact Hne|]. split; [reflexivity|]. split; [exact Hfold|]. split; [exact Hn|].
  exact (blend_models_unknown_metric (Estimators [tt]) 2 4 false "Accuracy" true false
           (Toy.experiment Toy.ten_rows) Hne eq_refl Hfold Hn).
Defined.

Lemma toy_stack_one_fold :
  stack_models [tt] None 1 4 true false "R2" false Toy.history
  = (Raise "ValueError", Toy.history).
Proof.
  unfold stack_models. erewrite bind_returns by done.
  apply bind_raises. by apply KFold_raises.
Qed.

Lemma stack_models_keeps_state_witness :
  stack_models [tt] None 1 4 true false "R2" false Toy.history
  = (Raise "ValueError", Toy.history)
  /\ Toy.history = Toy.history.
Proof.
  split; [exact toy_stack_one_fold|].
  exact (stack_models_keeps_state [tt] None 1 4 true "R2" false Toy.history
           (Raise "ValueError") Toy.history toy_stack_one_fold).
Defined.

Lemma stack_models_needs_history_witness :
  create_model_container (Toy.experiment Toy.ten_rows) = []
  /\ stack_models [tt] None 2 4 true false "R2" false (Toy.experiment Toy.ten_rows)
     <> (Ok tt, Toy.experiment Toy.ten_rows).
Proof.
  split; [reflexivity|].
  exact (stack_models_needs_history [tt] None 2 4 true false "R2" false
           (Toy.experiment Toy.ten_rows) tt (Toy.experiment Toy.ten_rows) eq_refl).
Defined.

Lemma toy_history_last :
  from_end 1 (create_model_container Toy.history) = Some (Toy.grid_with_mean 7).
Proof. reflexivity. Qed.

Lemma toy_history_last_mean : mean_cell R2 (Toy.grid_with_mean 7) = Some 7%R.
Proof. reflexivity. Qed.

Lemma stack_models_returns_unrecorded_witness :
  [tt] <> []
  /\ compare_dimension_of "R2" = Some R2
  /\ (2 <= 2)%Z
  /\ Z.to_nat 2 <= length (X_train Toy.history)
  /\ from_end 1 (create_model_container Toy.history) = Some (Toy.grid_with_mean 7)
  /\ mean_cell R2 (Toy.grid_with_mean 7) = Some 7%R
  /\ stack_models [tt] None 2 4 true false "R2" false Toy.history
     = (Ok (trained_model Toy.history (stacker Toy.history [tt] None 2 true) 2),
        Toy.history).
Proof.
  assert ([tt] <> []) as Hne by done.
  assert ((2 <= 2)%Z) as Hfold by lia.
  assert (Z.to_nat 2 <= length (X_train Toy.history)) as Hn by (simpl; lia).
  split; [exact Hne|]. split; [reflexivity|]. split; [exact Hfold|].
  split; [exact Hn|]. split; [exact toy_history_last|].
  split; [exact toy_history_last_mean|].
  exact (stack_models_returns_unrecorded [tt] None 2 4 true "R2" R2 false Toy.history
           (Toy.grid_with_mean 7) 7%R Hne eq_refl Hfold Hn toy_history_last
           toy_history_last_mean).
Defined.


End MoreToyRuns.

Section NamedToyRuns.
#[local] Existing Instance ToyBlend.named.

Lemma tune_model_unknown_class_witness :
  tuned_tag "VotingRegressor" = None
  /\ ("R2" ∈ allowed_optimize)
  /\ (2 <= 2)%Z
  /\ Z.to_nat 2 <= length (X_train (ToyBlend.named_experiment Toy.ten_rows))
  /\ tune_model (ByObject "VotingRegressor") 2 4 10 None "R2" false false
       (ToyBlend.named_experiment Toy.ten_rows)
     = (Raise "UnboundLocalError", ToyBlend.named_experiment Toy.ten_rows).
Proof.
  assert (@tuned_tag ToyBlend.named "VotingRegressor" = None) as Htag by reflexivity.
  assert ("R2" ∈ allowed_optimize) as Hopt by by_computation.
  assert ((2 <= 2)%Z) as Hfold by lia.
  assert (Z.to_nat 2 <= length (X_train (ToyBlend.named_experiment Toy.ten_rows))) as Hn
    by (simpl; lia).
  split; [exact Htag|]. split; [exact Hopt|]. split; [exact Hfold|]. split; [exact Hn|].
  exact (tune_model_unknown_class "VotingRegressor" 2 4 10 None "R2" false false
           (ToyBlend.named_experiment Toy.ten_rows) Htag Hopt Hfold Hn).
Defined.

End NamedToyRuns.
